(** * Deal-flow backend: a shallow embedding of the request handlers

    The repository holds three revisions of one Express server:
    [src/unnamed/part_000] (the oldest), [src/server.js] and
    [src/unnamed/part_001] (the one with console logging and the "robust"
    profile route).  Each handler is a short sequence of calls to external
    services (the identity provider, the PostgREST store behind supabase-js,
    the SMTP relay, an outbound HTTP POST) wrapped in [try]/[catch].

    The handlers are embedded in a state-and-exception monad.  The state
    carries the store and the trace of external calls issued so far; the
    behaviour of the external services is an explicit environment [Env].
    [console.log] and [console.error] lines are not modelled. *)

From stdpp Require Import gmap strings list fin_maps pretty.
From Stdlib Require Import ZArith Ascii String Sorted.

Set Warnings "-register-all".
Open Scope string_scope.
Open Scope list_scope.
Open Scope Z_scope.

(** ** JavaScript values *)

Inductive value :=
| VUndef
| VNull
| VBool (b : bool)
| VNum (n : Z)
| VStr (s : string)
| VArr (l : list value)
| VObj (o : gmap string value).

(** A row of a table, a JSON request body and an object literal are all
    string-keyed maps. *)
Abbreviation Obj := (gmap string value).

Fixpoint value_eq_dec (a b : value) {struct a} : {a = b} + {a ≠ b}.
Proof.
  refine (let _ : EqDecision value := value_eq_dec in
          match a, b with
          | VUndef, VUndef | VNull, VNull => left _
          | VBool x, VBool y => cast_if (decide (x = y))
          | VNum x, VNum y => cast_if (decide (x = y))
          | VStr x, VStr y => cast_if (decide (x = y))
          | VArr x, VArr y => cast_if (decide (x = y))
          | VObj x, VObj y => cast_if (decide (x = y))
          | _, _ => right _
          end); congruence.
Defined.

#[global] Instance value_eq : EqDecision value := value_eq_dec.

(** [o.k]: a key that is not there reads as [undefined]. *)
Definition get (k : string) (o : Obj) : value := default VUndef (o !! k).

(** An object literal [{k1: v1, k2: v2, ...}]; a later key overrides an
    earlier one, as in JavaScript. *)
Definition obj (fields : list (string * value)) : Obj :=
  foldl (fun o kv => <[kv.1 := kv.2]> o) ∅ fields.
Arguments obj : simpl never.

(** JavaScript truthiness, as used by [if (x)], [!x] and [x || y]. *)
Definition truthy (v : value) : bool :=
  match v with
  | VUndef | VNull => false
  | VBool b => b
  | VNum n => negb (n =? 0)
  | VStr s => negb (String.eqb s "")
  | VArr _ | VObj _ => true
  end.

(** [a || b] *)
Definition js_or (a b : value) : value := if truthy a then a else b.

(** [v !== 'lit'] is [negb (strict_eq_str v lit)]. *)
Definition strict_eq_str (v : value) (lit : string) : bool :=
  match v with
  | VStr s => String.eqb s lit
  | _ => false
  end.

(** [process.env.X] and a request header are a string or [undefined]. *)
Definition of_opt (o : option string) : value :=
  match o with Some s => VStr s | None => VUndef end.

Definition truthy_opt (o : option string) : bool := truthy (of_opt o).

(** [email.split('@')[0]]: the characters before the first ['@']. *)
Fixpoint local_part (s : string) : string :=
  match s with
  | EmptyString => EmptyString
  | String c rest => if Ascii.eqb c "@"%char then EmptyString
                     else String c (local_part rest)
  end.

(** ** Values as JSON and as text *)

(** [JSON.stringify], as far as it changes a value: a key whose value is
    [undefined] is left out, at every depth, and an [undefined] element of
    an array becomes [null]. *)
Fixpoint jsonify (v : value) : value :=
  match v with
  | VArr l =>
      VArr (List.map (fun x => match x with VUndef => VNull | _ => jsonify x end) l)
  | VObj o =>
      VObj (omap (fun x => match x with VUndef => None | _ => Some (jsonify x) end) o)
  | _ => v
  end.

(** [String(v)]: what a template literal makes of a value. *)
Fixpoint to_string (v : value) : string :=
  match v with
  | VUndef => "undefined"
  | VNull => "null"
  | VBool b => if b then "true" else "false"
  | VNum n => pretty n
  | VStr s => s
  | VArr l =>
      String.concat ","
        (List.map (fun x => match x with
                            | VUndef | VNull => ""
                            | _ => to_string x
                            end) l)
  | VObj _ => "[object Object]"
  end.

(** The number of constructors of a value, for induction on what a value
    contains. *)
Fixpoint value_size (v : value) : nat :=
  match v with
  | VArr l => S (foldr (fun x n => (value_size x + n)%nat) 0%nat l)
  | VObj o => S (map_fold (fun _ x n => (value_size x + n)%nat) 0%nat o)
  | _ => 1%nat
  end.

(** A value that JSON can carry: nothing in it is [undefined].  A parsed
    request body is such a value. *)
Fixpoint is_json (v : value) : bool :=
  match v with
  | VUndef => false
  | VArr l => forallb is_json l
  | VObj o => map_fold (fun _ x ok => is_json x && ok) true o
  | _ => true
  end.

(** ** Errors, requests, responses *)

Record Err := { message : string }.

Inductive result (A : Type) :=
| Ok (a : A)
| Throw (e : Err).
Arguments Ok {A} a.
Arguments Throw {A} e.

(** The user record the identity provider resolves a token to. *)
Record User := {
  user_id : string;
  user_email : option string;
  user_metadata : option Obj
}.

Record Request := {
  headers : gmap string string;   (* keys in lower case, as Node gives them *)
  params : gmap string string;    (* path parameters *)
  body : Obj                      (* parsed by express.json(); the empty
                                     object when the request has none *)
}.

Record Response := { status : Z; json : value }.

(** [res.status(n).json(v)] and [res.json(v)] *)
Definition respond (n : Z) (v : value) : Response := {| status := n; json := v |}.
Definition res_json (v : value) : Response := respond 200 v.

(** ** The query builder of supabase-js *)

Inductive Column :=
| Star                       (* all columns *)
| Col (c : string)           (* one named column *)
| Embed (t : string).        (* the related row of table t, all its columns *)

Inductive Verb :=
| Select
| Insert (rows : list Obj)
| Update (patch : Obj)
| Delete.

Record Query := {
  q_from : string;
  q_verb : Verb;
  q_columns : option (list Column);
  q_eq : list (string * value);
  q_order : option (string * bool);   (* column, ascending *)
  q_limit : option nat;
  q_single : bool
}.

Module Q.
Definition from (t : string) : Query :=
  {| q_from := t; q_verb := Select; q_columns := None; q_eq := [];
     q_order := None; q_limit := None; q_single := false |}.

Definition select (cols : list Column) (q : Query) : Query :=
  {| q_from := q_from q; q_verb := q_verb q; q_columns := Some cols;
     q_eq := q_eq q; q_order := q_order q; q_limit := q_limit q;
     q_single := q_single q |}.

Definition with_verb (v : Verb) (q : Query) : Query :=
  {| q_from := q_from q; q_verb := v; q_columns := q_columns q;
     q_eq := q_eq q; q_order := q_order q; q_limit := q_limit q;
     q_single := q_single q |}.

Definition insert (rows : list Obj) : Query -> Query := with_verb (Insert rows).
Definition update (patch : Obj) : Query -> Query := with_verb (Update patch).
Definition delete : Query -> Query := with_verb Delete.

Definition eq (c : string) (v : value) (q : Query) : Query :=
  {| q_from := q_from q; q_verb := q_verb q; q_columns := q_columns q;
     q_eq := q_eq q ++ [(c, v)]; q_order := q_order q; q_limit := q_limit q;
     q_single := q_single q |}.

Definition order (c : string) (ascending : bool) (q : Query) : Query :=
  {| q_from := q_from q; q_verb := q_verb q; q_columns := q_columns q;
     q_eq := q_eq q; q_order := Some (c, ascending); q_limit := q_limit q;
     q_single := q_single q |}.

Definition limit (n : nat) (q : Query) : Query :=
  {| q_from := q_from q; q_verb := q_verb q; q_columns := q_columns q;
     q_eq := q_eq q; q_order := q_order q; q_limit := Some n;
     q_single := q_single q |}.

Definition single (q : Query) : Query :=
  {| q_from := q_from q; q_verb := q_verb q; q_columns := q_columns q;
     q_eq := q_eq q; q_order := q_order q; q_limit := q_limit q;
     q_single := true |}.
End Q.

(** Method chains read left to right, as in the source. *)
Notation "x |> f" := (f x) (at level 45, left associativity, only parsing).

(** What an awaited query resolves to: [{ data, error }]. *)
Record Reply := { data : value; error : option Err }.

(** ** Mail and outbound HTTP *)

(** A template literal, kept as its parts. *)
Inductive Part :=
| Lit (s : string)
| Interp (v : value)            (* ${v} *)
| InterpLocale (v : value).     (* ${v?.toLocaleString()} *)

Record Mail := {
  mail_from : value;
  mail_to : value;
  mail_subject : list Part;
  mail_html : list Part
}.

Record Transport := {
  smtp_host : option string;
  smtp_port : option string;
  smtp_user : option string;
  smtp_pass : option string
}.

Record FetchInit := {
  fetch_method : string;
  fetch_headers : gmap string string;
  fetch_body : value              (* the argument of JSON.stringify *)
}.

Record FetchResponse := { http_status : Z; statusText : string }.

(** [response.ok] *)
Definition ok (r : FetchResponse) : bool :=
  (200 <=? http_status r) && (http_status r <=? 299).

(** ** The external calls a handler can issue *)

Inductive Event :=
| EGetUser (token : string)
| EQuery (q : Query)
| ESendMail (t : Transport) (m : Mail)
| EFetch (url : value) (init : FetchInit).

Inductive AuthReply :=
| AuthResolved (user : option User) (err : option Err)
| AuthRejected (e : Err).

Inductive FetchReply :=
| FetchResolved (r : FetchResponse)
| FetchRejected (e : Err).

(** What the schema makes of the rows that reference a row when that row is
    deleted or gets another key. *)
Inductive FkAction :=
| NoAction     (* the statement is refused (so does RESTRICT) *)
| Cascade      (* the referencing rows are deleted, or follow the new key *)
| SetNull.     (* their reference becomes null *)

(** The process environment and the behaviour of the services outside the
    repository.  [store_fault n] makes the [n]-th store call of a request
    resolve with an error (a network failure, a violated primary key or
    required column, a value of the wrong type, a missing column, a
    row-level policy) without touching the tables.  [on_delete] and
    [on_update] are the two actions of the schema's one foreign key; the
    SQL schema is not in the repository. *)
Record Env := {
  WEBHOOK_SECRET : option string;
  SMTP_HOST : option string;
  SMTP_PORT : option string;
  SMTP_USER : option string;
  SMTP_PASSWORD : option string;
  SMTP_FROM : option string;
  getUser : string -> AuthReply;
  store_fault : nat -> option string;
  on_delete : FkAction;
  on_update : FkAction;
  gen_id : nat -> string;
  db_now : nat -> string;
  smtp_reject : Transport -> Mail -> option string;
  http_post : value -> FetchInit -> FetchReply;
  clock : string                   (* new Date().toISOString() *)
}.

(** ** The store behind supabase-js

    The tables live in an external PostgREST/Postgres service; the
    repository only issues queries.  The reference store below gives the
    queries of the handlers their documented meaning:
    - a row travels as JSON, so what is [undefined] in it is left out;
    - [eq] puts its value into the URL as text, and the store reads that
      text at the type of the column it is compared with;
    - [order] sorts the rows (nulls count as largest, as in Postgres),
      [limit] keeps a prefix, [single] wants exactly one row, and a query
      without [select] returns no data;
    - an update that has nothing to set touches no row;
    - a call is one transaction: one that resolves with an error changes
      nothing;
    - the one relationship of the schema, from [webhook_logs] to
      [business_ideas], is enforced on insert, update and delete.
    The other constraints of the schema (primary keys, required columns,
    column types) are not in the repository: a statement the store refuses
    on their account is a store fault of [Env]. *)

Record Store := { tables : gmap string (list Obj); serial : nat }.

Definition table (db : Store) (t : string) : list Obj :=
  default [] (tables db !! t).

Definition set_table (t : string) (rows : list Obj) (db : Store) : Store :=
  {| tables := <[t := rows]> (tables db); serial := serial db |}.

(** White space, as C's [isspace] has it. *)
Definition is_space (c : ascii) : bool :=
  let n := nat_of_ascii c in
  (n =? 32)%nat || ((9 <=? n)%nat && (n <=? 13)%nat).

Definition digit_of (c : ascii) : option Z :=
  let n := Z.of_nat (nat_of_ascii c) in
  if (48 <=? n) && (n <=? 57) then Some (n - 48) else None.

Fixpoint skip_space (s : string) : string :=
  match s with
  | String c rest => if is_space c then skip_space rest else s
  | EmptyString => s
  end.

Fixpoint blank (s : string) : bool :=
  match s with
  | String c rest => is_space c && blank rest
  | EmptyString => true
  end.

(** The digits of a literal, then white space to the end. *)
Fixpoint digits (acc : Z) (s : string) : option Z :=
  match s with
  | EmptyString => Some acc
  | String c rest =>
      match digit_of c with
      | Some d => digits (10 * acc + d) rest
      | None => if blank s then Some acc else None
      end
  end.

Definition unsigned (s : string) : option Z :=
  match s with
  | String c _ => match digit_of c with
                  | Some _ => digits 0 s
                  | None => None
                  end
  | EmptyString => None
  end.

(** The integer a text denotes for Postgres: decimal digits with an
    optional sign, white space around them allowed. *)
Definition int_literal (s : string) : option Z :=
  match skip_space s with
  | String "-" rest => Z.opp <$> unsigned rest
  | String "+" rest => unsigned rest
  | s' => unsigned s'
  end.

Definition lower (c : ascii) : ascii :=
  let n := nat_of_ascii c in
  if (65 <=? n)%nat && (n <=? 90)%nat then ascii_of_nat (n + 32) else c.

(** The text up to its trailing white space, in lower case. *)
Fixpoint word (s : string) : string :=
  match s with
  | String c rest => if blank s then EmptyString else String (lower c) (word rest)
  | EmptyString => EmptyString
  end.

(** The boolean a text denotes for Postgres: a prefix of [true], [false],
    [yes] or [no], or [on], [of], [off], [1] or [0], in any case. *)
Definition bool_literal (s : string) : option bool :=
  let w := word (skip_space s) in
  if bool_decide (w ∈ ["t"; "tr"; "tru"; "true"; "y"; "ye"; "yes"; "on"; "1"])
  then Some true
  else if bool_decide (w ∈ ["f"; "fa"; "fal"; "fals"; "false"; "n"; "no";
                            "of"; "off"; "0"])
  then Some false
  else None.

(** Equality of a column value [a] with a value [b] that is read at the
    type of the column: a text names a number or a boolean by its literal,
    a number or boolean that meets a text column is compared by its text,
    JSON values are compared as they are, and null equals nothing.  This is
    how Postgres compares a column with the text of a filter, and a key
    with the key that references it. *)
Definition scalar_eqb (a b : value) : bool :=
  match a, b with
  | VStr x, (VStr _ | VNum _ | VBool _) => String.eqb x (to_string b)
  | VNum x, VNum y => x =? y
  | VNum x, VStr y => bool_decide (int_literal y = Some x)
  | VBool x, VBool y => Bool.eqb x y
  | VBool x, VStr y => bool_decide (bool_literal y = Some x)
  | (VArr _ | VObj _), (VArr _ | VObj _) => bool_decide (a = b)
  | _, _ => false
  end.

(** The value of a filter on its way to the store:
    [eq(column, value)] appends [eq.${value}] to the URL. *)
Definition wire (v : value) : value := VStr (to_string v).

Definition matches (eqs : list (string * value)) (r : Obj) : bool :=
  forallb (fun cv => scalar_eqb (get cv.1 r) (wire cv.2)) eqs.

(** A row as JSON: [JSON.stringify] leaves out the keys whose value is
    [undefined], in the row and in every object inside it. *)
Definition strip (o : Obj) : Obj :=
  omap (fun x => match x with VUndef => None | _ => Some (jsonify x) end) o.

(** Modelled from the spec: the SQL schema is not in the repository.  The
    data model gives Deal and WebhookLog rows a generated identifier and a
    timestamp (creation time, trigger time), and gives UserProfile rows the
    identity provider's user id, so nothing is generated for them. *)
Definition defaults (env : Env) (t : string) (n : nat) : Obj :=
  if String.eqb t "business_ideas" then
    obj [("id", VStr (gen_id env n)); ("created_at", VStr (db_now env n))]
  else if String.eqb t "webhook_logs" then
    obj [("id", VStr (gen_id env n)); ("triggered_at", VStr (db_now env n))]
  else ∅.

(** Modelled from the spec: the SQL schema is not in the repository.  A
    WebhookLog row references an optional Deal; the column is the one the
    handlers write, [business_idea_id]. *)
Definition foreign_key (t t' : string) : option string :=
  if String.eqb t "webhook_logs" && String.eqb t' "business_ideas"
  then Some "business_idea_id" else None.

(** The rows as stored: supplied columns win over the defaults. *)
Fixpoint store_rows (env : Env) (t : string) (n : nat) (rows : list Obj)
  : list Obj :=
  match rows with
  | [] => []
  | r :: rs => (strip r ∪ defaults env t n) :: store_rows env t (S n) rs
  end.

(** Ordering of column values: booleans, numbers and strings among
    themselves; null (or a missing column) is the largest. *)
Definition rank (v : value) : nat :=
  match v with
  | VBool _ => 0%nat
  | VNum _ => 1%nat
  | VStr _ => 2%nat
  | VArr _ => 3%nat
  | VObj _ => 4%nat
  | VNull | VUndef => 5%nat
  end.

Definition value_leb (a b : value) : bool :=
  match a, b with
  | VBool x, VBool y => implb x y
  | VNum x, VNum y => x <=? y
  | VStr x, VStr y => String.leb x y
  | _, _ => (rank a <=? rank b)%nat
  end.

(** [r1] may come before [r2] under [order(c, { ascending })]. *)
Definition row_leb (c : string) (ascending : bool) (r1 r2 : Obj) : bool :=
  if ascending then value_leb (get c r1) (get c r2)
  else value_leb (get c r2) (get c r1).

Fixpoint insert_sorted {A} (leb : A -> A -> bool) (x : A) (l : list A)
  : list A :=
  match l with
  | [] => [x]
  | y :: l' => if leb x y then x :: l else y :: insert_sorted leb x l'
  end.

Definition sort_rows {A} (leb : A -> A -> bool) (l : list A) : list A :=
  foldr (insert_sorted leb) [] l.

(** The embedded resource of a many-to-one relationship: the related row,
    or null when there is none. *)
Definition related (db : Store) (t t' : string) (r : Obj) : option value :=
  match foreign_key t t' with
  | None => None
  | Some fk =>
      Some (match List.find (fun d => scalar_eqb (get "id" d) (get fk r))
                            (table db t') with
            | Some d => VObj d
            | None => VNull
            end)
  end.

Definition project_col (db : Store) (t : string) (r : Obj) (acc : Obj)
  (c : Column) : option Obj :=
  match c with
  | Star => Some (acc ∪ r)
  | Col k => Some (<[k := default VNull (r !! k)]> acc)
  | Embed t' => v ← related db t t' r; Some (<[t' := v]> acc)
  end.

Definition project (db : Store) (t : string) (cols : list Column) (r : Obj)
  : option Obj :=
  foldl (fun acc c => a ← acc; project_col db t r a c) (Some ∅) cols.

Definition single_error : Err :=
  {| message := "JSON object requested, multiple (or no) rows returned" |}.

Definition relationship_error : Err :=
  {| message := "Could not find a relationship between the tables" |}.

(** The error of a statement that would leave a reference without its row;
    Postgres names the tables and the constraint in its message. *)
Definition fk_violation : Err :=
  {| message := "violates foreign key constraint" |}.

(** What comes back for the rows a query selected or wrote. *)
Definition shape (db : Store) (q : Query) (rows : list Obj) : Reply :=
  match q_columns q with
  | None => {| data := VNull; error := None |}
  | Some cols =>
      let sorted := match q_order q with
                    | Some (c, asc) => sort_rows (row_leb c asc) rows
                    | None => rows
                    end in
      let limited := match q_limit q with
                     | Some n => take n sorted
                     | None => sorted
                     end in
      match mapM (project db (q_from q) cols) limited with
      | None => {| data := VNull; error := Some relationship_error |}
      | Some out =>
          if q_single q then
            match out with
            | [r] => {| data := VObj r; error := None |}
            | _ => {| data := VNull; error := Some single_error |}
            end
          else {| data := VArr (VObj <$> out); error := None |}
      end
  end.

(** [child] references one of [parents] through its column [fk]. *)
Definition refers (fk : string) (parents : list Obj) (child : Obj) : bool :=
  existsb (fun p => scalar_eqb (get "id" p) (get fk child)) parents.

(** A row of [t] may be stored: the deal it references is there (a null
    reference references nothing). *)
Definition reference_holds (db : Store) (t : string) (r : Obj) : bool :=
  match foreign_key t "business_ideas" with
  | None => true
  | Some fk =>
      match get fk r with
      | VNull | VUndef => true
      | _ => refers fk (table db "business_ideas") r
      end
  end.

(** The referencing rows once the rows [gone] are deleted; [None] when the
    delete is refused. *)
Definition after_delete (act : FkAction) (fk : string) (gone children : list Obj)
  : option (list Obj) :=
  match act with
  | NoAction => if existsb (refers fk gone) children then None else Some children
  | Cascade => Some (List.filter (fun c => negb (refers fk gone c)) children)
  | SetNull =>
      Some (List.map (fun c => if refers fk gone c then <[fk := VNull]> c else c)
                     children)
  end.

(** The referencing rows once the key of the rows [moved] is [key];
    [None] when the update is refused. *)
Definition after_rekey (act : FkAction) (fk : string) (key : value)
  (moved children : list Obj) : option (list Obj) :=
  match act with
  | NoAction => if existsb (refers fk moved) children then None else Some children
  | Cascade =>
      Some (List.map (fun c => if refers fk moved c then <[fk := key]> c else c)
                     children)
  | SetNull =>
      Some (List.map (fun c => if refers fk moved c then <[fk := VNull]> c else c)
                     children)
  end.

(** What a query does to the tables, and what comes back. *)
Definition perform (env : Env) (q : Query) (db : Store) : Reply * Store :=
  let t := q_from q in
  let hit := matches (q_eq q) in
  let refused := ({| data := VNull; error := Some fk_violation |}, db) in
  match q_verb q with
  | Select => (shape db q (List.filter hit (table db t)), db)
  | Insert rows =>
      let new := store_rows env t (serial db) rows in
      if forallb (reference_holds db t) new then
        let db' := {| tables := <[t := table db t ++ new]> (tables db);
                      serial := (serial db + List.length rows)%nat |} in
        (shape db' q new, db')
      else refused
  | Update patch =>
      let set := strip patch in
      let upd := fun r => set ∪ r in
      let hits := List.filter hit (table db t) in
      if bool_decide (set = ∅) then (shape db q [], db)
      else if negb (forallb (reference_holds db t) (List.map upd hits))
      then refused
      else
        let db' := set_table t
                     (List.map (fun r => if hit r then upd r else r)
                               (table db t)) db in
        match foreign_key "webhook_logs" t, set !! "id" with
        | Some fk, Some key =>
            let moved :=
              List.filter (fun r => negb (scalar_eqb (get "id" r) key)) hits in
            match after_rekey (on_update env) fk key moved
                              (table db "webhook_logs") with
            | Some logs =>
                let db'' := set_table "webhook_logs" logs db' in
                (shape db'' q (List.map upd hits), db'')
            | None => refused
            end
        | _, _ => (shape db' q (List.map upd hits), db')
        end
  | Delete =>
      let gone := List.filter hit (table db t) in
      let db' := set_table t (List.filter (fun r => negb (hit r)) (table db t))
                           db in
      match foreign_key "webhook_logs" t with
      | Some fk =>
          match after_delete (on_delete env) fk gone
                             (table db "webhook_logs") with
          | Some logs => (shape db q gone, set_table "webhook_logs" logs db')
          | None => refused
          end
      | None => (shape db q gone, db')
      end
  end.

(** The [n]-th store call of a request, run against the tables.  A call
    is one transaction: when it resolves with an error, nothing of it is
    kept. *)
Definition exec (env : Env) (n : nat) (q : Query) (db : Store)
  : Reply * Store :=
  match store_fault env n with
  | Some msg => ({| data := VNull; error := Some {| message := msg |} |}, db)
  | None =>
      let out := perform env q db in
      match error out.1 with
      | Some _ => (out.1, db)
      | None => out
      end
  end.

(** ** The handler monad: state (store, trace) and exceptions *)

Record State := {
  st_store : Store;
  st_calls : nat;              (* store calls issued so far *)
  st_trace : list Event
}.

Definition M (A : Type) : Type := State -> result A * State.

Definition ret {A} (a : A) : M A := fun st => (Ok a, st).

Definition bind {A B} (m : M A) (k : A -> M B) : M B :=
  fun st => match m st with
            | (Ok a, st') => k a st'
            | (Throw e, st') => (Throw e, st')
            end.

Definition throw {A} (e : Err) : M A := fun st => (Throw e, st).

(** [try { m } catch (error) { h error }] *)
Definition try_catch {A} (m : M A) (h : Err -> M A) : M A :=
  fun st => match m st with
            | (Ok a, st') => (Ok a, st')
            | (Throw e, st') => h e st'
            end.

Declare Scope js_scope.
Delimit Scope js_scope with js.
Notation "'let!' x ':=' m 'in' k" := (bind m (fun x => k))
  (at level 10, x name, m at level 100, k at level 200) : js_scope.
Notation "m ';;' k" := (bind m (fun _ => k))
  (at level 100, k at level 200, right associativity) : js_scope.
Notation "'try' m 'catch' h" := (try_catch m h)
  (at level 10, m at level 200, h at level 200) : js_scope.
Open Scope js_scope.

Definition log_event (e : Event) : M unit :=
  fun st => (Ok tt, {| st_store := st_store st; st_calls := st_calls st;
                       st_trace := st_trace st ++ [e] |}).

(** [if (error) throw error] *)
Definition throw_if (e : option Err) : M unit :=
  match e with Some err => throw err | None => ret tt end.

(** [v.k] on a value: reading a property of null or undefined is a
    TypeError. *)
Definition prop (v : value) (k : string) : M value :=
  match v with
  | VObj o => ret (get k o)
  | VNull => throw {| message := "Cannot read properties of null (reading '" +:+ k +:+ "')" |}
  | VUndef => throw {| message := "Cannot read properties of undefined (reading '" +:+ k +:+ "')" |}
  | _ => ret VUndef
  end.

Section WithEnv.
Context (env : Env).

(** [await <query>]: supabase-js resolves with [{ data, error }]; it does
    not reject. *)
Definition await (q : Query) : M Reply :=
  fun st =>
    let '(rep, db') := exec env (st_calls st) q (st_store st) in
    (Ok rep, {| st_store := db'; st_calls := S (st_calls st);
                st_trace := st_trace st ++ [EQuery q] |}).

(** [await transporter.sendMail(mail)] rejects when the relay refuses. *)
Definition sendMail (t : Transport) (m : Mail) : M unit :=
  log_event (ESendMail t m) ;;
  match smtp_reject env t m with
  | Some msg => throw {| message := msg |}
  | None => ret tt
  end.

(** [await fetch(url, init)] rejects on a network error and resolves with
    a response otherwise, whatever its status. *)
Definition fetch (url : value) (init : FetchInit) : M FetchResponse :=
  log_event (EFetch url init) ;;
  match http_post env url init with
  | FetchResolved r => ret r
  | FetchRejected e => throw e
  end.

(** [await supabase.auth.getUser(token)] *)
Definition auth_getUser (token : string) : M (option User * option Err) :=
  log_event (EGetUser token) ;;
  match getUser env token with
  | AuthResolved u e => ret (u, e)
  | AuthRejected e => throw e
  end.

End WithEnv.

(** ** Shared pieces of the three revisions *)

Definition error_body (msg : string) : value := VObj (obj [("error", VStr msg)]).

(** The body of every [catch (error)] block but one:
    [res.status(500).json({ error: error.message })]. *)
Definition catch_500 (error : Err) : M Response :=
  ret (respond 500 (error_body (message error))).

(** [!!x] for an object or null *)
Definition present {A} (o : option A) : bool :=
  match o with Some _ => true | None => false end.

(** [process.env.X || ''] *)
Definition env_or (o : option string) (d : string) : string :=
  match o with
  | Some s => if String.eqb s "" then d else s
  | None => d
  end.

(** [req.user.email.split('@')[0]] *)
Definition email_split_0 (u : User) : M string :=
  match user_email u with
  | Some e => ret (local_part e)
  | None => throw {| message := "Cannot read properties of undefined (reading 'split')" |}
  end.

Section Middleware.
Context (env : Env).

(** [verifyAuth], lines 44-65 of server.js (the same in the other two
    revisions).  [next()] starts the route handler; the handler is an async
    function, so what it throws is not caught by the [try] here. *)
Definition verifyAuth (next : User -> Request -> M Response) (req : Request)
  : M Response :=
  match headers req !! "authorization" with
  | None => ret (respond 401 (error_body "No token provided"))
  | Some authHeader =>
      if negb (truthy (VStr authHeader))
         || negb (String.prefix "Bearer " authHeader)
      then ret (respond 401 (error_body "No token provided"))
      else
        let token :=
          String.substring 7 (String.length authHeader - 7) authHeader in
        let! checked :=
          try (let! r := auth_getUser env token in
               match r with
               | (Some user, None) => ret (inr user)
               | _ => ret (inl (respond 401 (error_body "Invalid token")))
               end)
          catch (fun _ =>
                   ret (inl (respond 401 (error_body "Authentication failed"))))
        in
        match checked with
        | inl refused => ret refused
        | inr user => next user req
        end
  end.

End Middleware.

(** ** src/server.js *)

Module ServerJs.
Section Routes.
Context (env : Env).

(** Lines 21-32: the mail transport exists only when the three SMTP
    settings are set. *)
Definition transporter : option Transport :=
  if truthy_opt (SMTP_HOST env) && truthy_opt (SMTP_USER env)
     && truthy_opt (SMTP_PASSWORD env)
  then Some {| smtp_host := SMTP_HOST env; smtp_port := SMTP_PORT env;
               smtp_user := SMTP_USER env; smtp_pass := SMTP_PASSWORD env |}
  else None.

(** GET /api/health *)
Definition health (req : Request) : M Response :=
  ret (res_json (VObj (obj [("status", VStr "ok");
                            ("timestamp", VStr (clock env));
                            ("smtp_configured", VBool (present transporter))]))).

(** GET /api/deals *)
Definition get_deals (user : User) (req : Request) : M Response :=
  try (let! r := await env (Q.from "business_ideas" |> Q.select [Star]
                            |> Q.order "created_at" false) in
       throw_if (error r) ;;
       ret (res_json (data r)))
  catch catch_500.

(** POST /api/deals *)
Definition post_deals (user : User) (req : Request) : M Response :=
  try (let! r := await env (Q.from "business_ideas" |> Q.insert [body req]
                            |> Q.select [Star] |> Q.single) in
       throw_if (error r) ;;
       ret (respond 201 (data r)))
  catch catch_500.

(** PUT /api/deals/:id *)
Definition put_deal (user : User) (req : Request) : M Response :=
  try (let! r := await env (Q.from "business_ideas" |> Q.update (body req)
                            |> Q.eq "id" (of_opt (params req !! "id"))
                            |> Q.select [Star] |> Q.single) in
       throw_if (error r) ;;
       ret (res_json (data r)))
  catch catch_500.

(** DELETE /api/deals/:id *)
Definition delete_deal (user : User) (req : Request) : M Response :=
  try (let! r := await env (Q.from "business_ideas" |> Q.delete
                            |> Q.eq "id" (of_opt (params req !! "id"))) in
       throw_if (error r) ;;
       ret (res_json (VObj (obj [("message", VStr "Deal deleted successfully")]))))
  catch catch_500.

(** The query both outreach routes start from. *)
Definition deal_by_id (dealId : value) : Query :=
  Q.from "business_ideas" |> Q.select [Star] |> Q.eq "id" dealId |> Q.single.

(** The mail of lines 151-167; the white space between the tags of the
    HTML template is left out. *)
Definition outreach_mail (contact_email business_name contact_name industry
                          funding : value) : Mail :=
  {| mail_from := of_opt (SMTP_FROM env);
     mail_to := contact_email;
     mail_subject := [Lit "Investment Opportunity: "; Interp business_name];
     mail_html :=
       [Lit "<h2>Price Capital - Deal Outreach</h2><p>Dear ";
        Interp contact_name;
        Lit ",</p><p>We're interested in learning more about ";
        Interp business_name;
        Lit ".</p><p><strong>Details:</strong></p><ul><li>Business: ";
        Interp business_name;
        Lit "</li><li>Industry: ";
        Interp industry;
        Lit "</li><li>Funding Requested: $";
        InterpLocale funding;
        Lit "</li></ul><p>Best regards,<br>Price Capital Team</p>"] |}.

Definition send_outreach_log (user : User) (dealId contact_email : value) : Obj :=
  obj [("business_idea_id", dealId);
       ("action", VStr "send_outreach");
       ("triggered_by", of_opt (user_email user));
       ("status", VStr "success");
       ("details", VObj (obj [("email_sent_to", contact_email)]))].

(** What follows the transporter check in POST /api/webhook/send-outreach
    (lines 141-178); the oldest revision has this part alone. *)
Definition send_outreach_with (t : Transport) (user : User) (dealId : value)
  : M Response :=
  let! r := await env (deal_by_id dealId) in
  let deal := data r in
  throw_if (error r) ;;
  let! contact_email := prop deal "contact_email" in
  let! business_name := prop deal "business_name" in
  let! contact_name := prop deal "contact_name" in
  let! industry := prop deal "industry" in
  let! funding := prop deal "funding_amount_requested" in
  sendMail env t (outreach_mail contact_email business_name contact_name
                                industry funding) ;;
  await env (Q.from "webhook_logs"
             |> Q.insert [send_outreach_log user dealId contact_email]) ;;
  ret (res_json (VObj (obj [("message", VStr "Outreach email sent successfully")]))).

(** POST /api/webhook/send-outreach *)
Definition send_outreach (user : User) (req : Request) : M Response :=
  try (let dealId := get "dealId" (body req) in
       match transporter with
       | None =>
           ret (respond 503 (error_body
                  "Email service not configured. Use external webhook instead."))
       | Some t => send_outreach_with t user dealId
       end)
  catch catch_500.

Definition form_submission_log (id : value) : Obj :=
  obj [("business_idea_id", id);
       ("action", VStr "form_submission");
       ("triggered_by", VStr "google_form");
       ("status", VStr "success")].

(** The row of lines 189-193: [{...req.body, source: .., stage: ..}]. *)
Definition form_deal (payload : Obj) : Obj :=
  <["stage" := VStr "submitted"]> (<["source" := VStr "google_form"]> payload).

(** POST /api/webhook/google-form *)
Definition google_form (req : Request) : M Response :=
  try (let! r := await env (Q.from "business_ideas"
                            |> Q.insert [form_deal (body req)]
                            |> Q.select [Star] |> Q.single) in
       throw_if (error r) ;;
       let! id := prop (data r) "id" in
       await env (Q.from "webhook_logs" |> Q.insert [form_submission_log id]) ;;
       ret (respond 201 (VObj (obj [("message", VStr "Deal created from form");
                                    ("data", data r)]))))
  catch catch_500.

Definition outreach_external_log (req : Request) : Obj :=
  obj [("business_idea_id", js_or (get "dealId" (body req)) VNull);
       ("action", VStr "outreach_external");
       ("triggered_by", VStr "make_com_or_ghl");
       ("status", VStr "success");
       ("details",
        VObj (obj [("email_sent_to", get "email" (body req));
                   ("company_name", get "companyName" (body req));
                   ("platform",
                    js_or (of_opt (headers req !! "user-agent"))
                          (VStr "unknown"))]))].

Definition outreach_external_echo (req : Request) : value :=
  VObj (obj [("success", VBool true);
             ("message", VStr "Webhook received successfully");
             ("data",
              VObj (obj [("dealId", get "dealId" (body req));
                         ("email", get "email" (body req));
                         ("companyName", get "companyName" (body req));
                         ("contactName", get "contactName" (body req));
                         ("industry", get "industry" (body req));
                         ("fundingAmount", get "fundingAmount" (body req));
                         ("description", get "description" (body req));
                         ("website", get "website" (body req));
                         ("timestamp", VStr (clock env))]))]).

(** POST /api/webhook/outreach-external *)
Definition outreach_external (req : Request) : M Response :=
  try (if truthy_opt (WEBHOOK_SECRET env)
          && negb (bool_decide (headers req !! "x-webhook-secret"
                                = WEBHOOK_SECRET env))
       then ret (respond 401 (error_body "Unauthorized"))
       else
         await env (Q.from "webhook_logs"
                    |> Q.insert [outreach_external_log req]) ;;
         ret (respond 200 (outreach_external_echo req)))
  catch catch_500.

(** The outbound request of lines 289-306. *)
Definition trigger_init (id contact_email business_name contact_name industry
                         funding description website stage : value) : FetchInit :=
  {| fetch_method := "POST";
     fetch_headers :=
       <["X-Webhook-Secret" := env_or (WEBHOOK_SECRET env) ""]>
         (<["Content-Type" := "application/json"]> ∅);
     fetch_body :=
       VObj (obj [("dealId", id);
                  ("email", contact_email);
                  ("companyName", business_name);
                  ("contactName", contact_name);
                  ("industry", industry);
                  ("fundingAmount", funding);
                  ("description", description);
                  ("website", website);
                  ("stage", stage)]) |}.

Definition trigger_outreach_log (user : User) (dealId webhookUrl business_name
                                 : value) : Obj :=
  obj [("business_idea_id", dealId);
       ("action", VStr "trigger_outreach");
       ("triggered_by", of_opt (user_email user));
       ("status", VStr "success");
       ("details", VObj (obj [("webhook_url", webhookUrl);
                              ("company_name", business_name)]))].

(** Lines 288-311: [if (webhookUrl) { ... }]. *)
Definition forward (webhookUrl deal : value) : M unit :=
  if truthy webhookUrl then
    let! id := prop deal "id" in
    let! contact_email := prop deal "contact_email" in
    let! business_name := prop deal "business_name" in
    let! contact_name := prop deal "contact_name" in
    let! industry := prop deal "industry" in
    let! funding := prop deal "funding_amount_requested" in
    let! description := prop deal "description" in
    let! website := prop deal "website_url" in
    let! stage := prop deal "stage" in
    let! response :=
      fetch env webhookUrl
            (trigger_init id contact_email business_name contact_name industry
                          funding description website stage) in
    if negb (ok response)
    then throw {| message := "Webhook failed: " +:+ statusText response |}
    else ret tt
  else ret tt.

(** POST /api/webhook/trigger-outreach *)
Definition trigger_outreach (user : User) (req : Request) : M Response :=
  try (let dealId := get "dealId" (body req) in
       let webhookUrl := get "webhookUrl" (body req) in
       let! r := await env (deal_by_id dealId) in
       let deal := data r in
       throw_if (error r) ;;
       forward webhookUrl deal ;;
       let! business_name := prop deal "business_name" in
       await env (Q.from "webhook_logs"
                  |> Q.insert [trigger_outreach_log user dealId webhookUrl
                                                    business_name]) ;;
       ret (res_json (VObj (obj [("success", VBool true);
                                 ("message", VStr "Outreach triggered successfully");
                                 ("deal", business_name)]))))
  catch catch_500.

(** GET /api/webhooks *)
Definition get_webhooks (user : User) (req : Request) : M Response :=
  try (let! r := await env (Q.from "webhook_logs"
                            |> Q.select [Star; Embed "business_ideas"]
                            |> Q.order "triggered_at" false
                            |> Q.limit 50) in
       throw_if (error r) ;;
       ret (res_json (data r)))
  catch catch_500.

(** GET /api/user/profile *)
Definition get_user_profile (user : User) (req : Request) : M Response :=
  try (let! r := await env (Q.from "user_profiles" |> Q.select [Star]
                            |> Q.eq "id" (VStr (user_id user)) |> Q.single) in
       throw_if (error r) ;;
       ret (res_json (data r)))
  catch catch_500.

(** GET /api/users *)
Definition get_users (user : User) (req : Request) : M Response :=
  try (let! r := await env (Q.from "user_profiles" |> Q.select [Col "role"]
                            |> Q.eq "id" (VStr (user_id user)) |> Q.single) in
       let profile := data r in
       let! role := prop profile "role" in
       if negb (strict_eq_str role "admin")
       then ret (respond 403 (error_body "Admin access required"))
       else
         let! l := await env (Q.from "user_profiles" |> Q.select [Star]
                              |> Q.order "username" true) in
         throw_if (error l) ;;
         ret (res_json (data l)))
  catch catch_500.

End Routes.
End ServerJs.

(** ** src/unnamed/part_001

    The revision with console logging.  Apart from the log lines, which are
    not modelled, it differs from server.js in the health route, in the
    profile route and in the null guard of the user listing. *)

Module Part001.
Section Routes.
Context (env : Env).

(** GET /api/health; [supabase_url] is [process.env.SUPABASE_URL]. *)
Definition health (supabase_url : option string) (req : Request) : M Response :=
  ret (res_json (VObj (obj [("status", VStr "ok");
                            ("timestamp", VStr (clock env));
                            ("smtp_configured",
                             VBool (present (ServerJs.transporter env)));
                            ("supabase_connected",
                             VBool (truthy_opt supabase_url))]))).

(** Lines 405-411. *)
Definition newProfile (user : User) (username : string) : Obj :=
  obj [("id", VStr (user_id user));
       ("username", VStr username);
       ("email", of_opt (user_email user));
       ("role", VStr "user");
       ("full_name",
        js_or (match user_metadata user with
               | Some md => get "full_name" md
               | None => VUndef
               end) VNull)].

(** Lines 431-436, the profile sent from the [catch] block. *)
Definition fallbackProfile (user : User) (username : string) : Obj :=
  obj [("id", VStr (user_id user));
       ("username", VStr username);
       ("email", of_opt (user_email user));
       ("role", VStr "user")].

(** GET /api/user/profile, lines 385-438. *)
Definition get_user_profile (user : User) (req : Request) : M Response :=
  try (let! r := await env (Q.from "user_profiles" |> Q.select [Star]
                            |> Q.eq "id" (VStr (user_id user)) |> Q.single) in
       if truthy (data r) && negb (present (error r))
       then ret (res_json (data r))
       else
         let! username := email_split_0 user in
         let! c := await env (Q.from "user_profiles"
                              |> Q.insert [newProfile user username]
                              |> Q.select [Star] |> Q.single) in
         if present (error c)
         then ret (res_json (VObj (newProfile user username)))
         else ret (res_json (data c)))
  catch (fun _ =>
           let! username := email_split_0 user in
           ret (res_json (VObj (fallbackProfile user username)))).

(** GET /api/users, lines 441-469. *)
Definition get_users (user : User) (req : Request) : M Response :=
  try (let! r := await env (Q.from "user_profiles" |> Q.select [Col "role"]
                            |> Q.eq "id" (VStr (user_id user)) |> Q.single) in
       let profile := data r in
       if negb (truthy profile)
       then ret (respond 403 (error_body "Admin access required"))
       else
         let! role := prop profile "role" in
         if negb (strict_eq_str role "admin")
         then ret (respond 403 (error_body "Admin access required"))
         else
           let! l := await env (Q.from "user_profiles" |> Q.select [Star]
                                |> Q.order "username" true) in
           throw_if (error l) ;;
           ret (res_json (data l)))
  catch catch_500.

End Routes.
End Part001.

(** ** src/unnamed/part_000

    The oldest revision: the transport is always created (lines 21-29), the
    send-outreach route has no 503 branch, and the two external-webhook
    routes do not exist yet. *)

Module Part000.
Section Routes.
Context (env : Env).

Definition transporter : Transport :=
  {| smtp_host := SMTP_HOST env; smtp_port := SMTP_PORT env;
     smtp_user := SMTP_USER env; smtp_pass := SMTP_PASSWORD env |}.

(** GET /api/health *)
Definition health (req : Request) : M Response :=
  ret (res_json (VObj (obj [("status", VStr "ok");
                            ("timestamp", VStr (clock env))]))).

(** POST /api/webhook/send-outreach, lines 124-169. *)
Definition send_outreach (user : User) (req : Request) : M Response :=
  try (let dealId := get "dealId" (body req) in
       ServerJs.send_outreach_with env transporter user dealId)
  catch catch_500.

End Routes.
End Part000.

(** ** Routing *)

Inductive Revision := part_000 | server_js | part_001.

Inductive Route :=
| GET_health
| GET_deals
| POST_deals
| PUT_deals_id
| DELETE_deals_id
| POST_webhook_send_outreach
| POST_webhook_google_form
| POST_webhook_outreach_external
| POST_webhook_trigger_outreach
| GET_webhooks
| GET_user_profile
| GET_users.

(** The routes each revision registers with [app.get], [app.post], ...;
    [None] is a route the revision does not have.  [supabase_url] is only
    read by the health route of part_001. *)
Definition app (env : Env) (supabase_url : option string) (rev : Revision)
  (route : Route) : option (Request -> M Response) :=
  match route with
  | GET_health =>
      Some (match rev with
            | part_000 => Part000.health env
            | server_js => ServerJs.health env
            | part_001 => Part001.health env supabase_url
            end)
  | GET_deals => Some (verifyAuth env (ServerJs.get_deals env))
  | POST_deals => Some (verifyAuth env (ServerJs.post_deals env))
  | PUT_deals_id => Some (verifyAuth env (ServerJs.put_deal env))
  | DELETE_deals_id => Some (verifyAuth env (ServerJs.delete_deal env))
  | POST_webhook_send_outreach =>
      Some (verifyAuth env
              (match rev with
               | part_000 => Part000.send_outreach env
               | _ => ServerJs.send_outreach env
               end))
  | POST_webhook_google_form => Some (ServerJs.google_form env)
  | POST_webhook_outreach_external =>
      match rev with
      | part_000 => None
      | _ => Some (ServerJs.outreach_external env)
      end
  | POST_webhook_trigger_outreach =>
      match rev with
      | part_000 => None
      | _ => Some (verifyAuth env (ServerJs.trigger_outreach env))
      end
  | GET_webhooks => Some (verifyAuth env (ServerJs.get_webhooks env))
  | GET_user_profile =>
      Some (verifyAuth env
              (match rev with
               | part_001 => Part001.get_user_profile env
               | _ => ServerJs.get_user_profile env
               end))
  | GET_users =>
      Some (verifyAuth env
              (match rev with
               | part_001 => Part001.get_users env
               | _ => ServerJs.get_users env
               end))
  end.

(** The Auth column of the interface table: the routes marked bearer. *)
Definition bearer_protected (route : Route) : bool :=
  match route with
  | GET_health | POST_webhook_google_form | POST_webhook_outreach_external => false
  | _ => true
  end.

(** ** Running one request *)

Record Outcome := {
  response : result Response;   (* [Throw]: an unhandled rejection, nothing sent *)
  store_after : Store;
  trace : list Event
}.

Definition run (h : Request -> M Response) (req : Request) (db : Store)
  : Outcome :=
  let '(r, st) := h req {| st_store := db; st_calls := 0; st_trace := [] |} in
  {| response := r; store_after := st_store st; trace := st_trace st |}.

(** The rows a trace writes to a table, in order. *)
Definition inserted (t : string) (tr : list Event) : list Obj :=
  flat_map (fun e => match e with
                     | EQuery q =>
                         match q_verb q with
                         | Insert rows => if String.eqb (q_from q) t then rows else []
                         | _ => []
                         end
                     | _ => []
                     end) tr.

(** The store calls of a trace. *)
Definition queries (tr : list Event) : list Query :=
  flat_map (fun e => match e with EQuery q => [q] | _ => [] end) tr.

Definition mails (tr : list Event) : list Mail :=
  flat_map (fun e => match e with ESendMail _ m => [m] | _ => [] end) tr.

Definition posts (tr : list Event) : list (value * FetchInit) :=
  flat_map (fun e => match e with EFetch u i => [(u, i)] | _ => [] end) tr.

(** ** Vocabulary of the statements *)

(** The token [verifyAuth] extracts, when the header passes its test. *)
Definition bearer_token (req : Request) : option string :=
  match headers req !! "authorization" with
  | Some h =>
      if truthy (VStr h) && String.prefix "Bearer " h
      then Some (String.substring 7 (String.length h - 7) h)
      else None
  | None => None
  end.

(** The user a request is authenticated as, if any. *)
Definition caller (env : Env) (req : Request) : option User :=
  match bearer_token req with
  | Some token =>
      match getUser env token with
      | AuthResolved (Some user) None => Some user
      | _ => None
      end
  | None => None
  end.

(** What [verifyAuth] has issued when it hands over to the route handler:
    the one call to the identity provider. *)
Definition auth_trace (req : Request) : list Event :=
  match bearer_token req with
  | Some token => [EGetUser token]
  | None => []
  end.

(** The state in which [verifyAuth] hands over to the route handler. *)
Definition after_auth (req : Request) (db : Store) : State :=
  {| st_store := db; st_calls := 0; st_trace := auth_trace req |}.

Definition no_token : Response := respond 401 (error_body "No token provided").

(** [deal.k] when the fetched deal is an object. *)
Definition field (deal : value) (k : string) : value :=
  match deal with VObj o => get k o | _ => VUndef end.

(** The mail the send-outreach route composes for a fetched deal. *)
Definition mail_for (env : Env) (deal : value) : Mail :=
  ServerJs.outreach_mail env
    (field deal "contact_email") (field deal "business_name")
    (field deal "contact_name") (field deal "industry")
    (field deal "funding_amount_requested").

(** The outbound request the trigger-outreach route composes for a deal. *)
Definition post_for (env : Env) (deal : value) : FetchInit :=
  ServerJs.trigger_init env
    (field deal "id") (field deal "contact_email") (field deal "business_name")
    (field deal "contact_name") (field deal "industry")
    (field deal "funding_amount_requested") (field deal "description")
    (field deal "website_url") (field deal "stage").

(** The mail transport a revision holds, [None] when it holds none. *)
Definition transport_of (env : Env) (rev : Revision) : option Transport :=
  match rev with
  | part_000 => Some (Part000.transporter env)
  | _ => ServerJs.transporter env
  end.

Definition not_configured : Response :=
  respond 503
    (error_body "Email service not configured. Use external webhook instead.").

(** The Deal a WebhookLog row is joined with: the row of [business_ideas]
    whose id the log row references, null when there is none. *)
Definition joined_deal (db : Store) (log : Obj) : value :=
  match List.find (fun d => scalar_eqb (get "id" d) (get "business_idea_id" log))
                  (table db "business_ideas") with
  | Some d => VObj d
  | None => VNull
  end.

(** The row of the listing made from a log row. *)
Definition with_deal (db : Store) (log : Obj) : Obj :=
  <["business_ideas" := joined_deal db log]> log.

(** [a] is not older than [b]. *)
Definition newer_first (a b : Obj) : Prop :=
  value_leb (get "triggered_at" b) (get "triggered_at" a) = true.

(** [a] does not come after [b] by user name. *)
Definition by_username (a b : Obj) : Prop :=
  value_leb (get "username" a) (get "username" b) = true.

(** The two reads of the user listing and the read of the profile route. *)
Definition role_of (user : User) : Query :=
  Q.from "user_profiles" |> Q.select [Col "role"]
  |> Q.eq "id" (VStr (user_id user)) |> Q.single.

Definition all_users : Query :=
  Q.from "user_profiles" |> Q.select [Star] |> Q.order "username" true.

Definition profile_of (user : User) : Query :=
  Q.from "user_profiles" |> Q.select [Star]
  |> Q.eq "id" (VStr (user_id user)) |> Q.single.

Definition admin_required : Response :=
  respond 403 (error_body "Admin access required").

(** What the user listing answers once the caller's profile was read as an
    object with the given role. *)
Definition users_answer (role : value) (listing : Reply) : Response :=
  if negb (strict_eq_str role "admin") then admin_required
  else match error listing with
       | Some e => respond 500 (error_body (message e))
       | None => res_json (data listing)
       end.

Definition deleted : Response :=
  res_json (VObj (obj [("message", VStr "Deal deleted successfully")])).


(** ** Sample data for the closed examples *)

Module Sample.

Definition alice : User :=
  {| user_id := "u-1"; user_email := Some "alice@example.com";
     user_metadata := Some (obj [("full_name", VStr "Alice A")]) |}.

Definition bob : User :=
  {| user_id := "u-2"; user_email := Some "bob@example.com";
     user_metadata := None |}.

(** An identity provider that knows two tokens. *)
Definition provider (token : string) : AuthReply :=
  if String.eqb token "tok-alice" then AuthResolved (Some alice) None
  else if String.eqb token "tok-bob" then AuthResolved (Some bob) None
  else AuthResolved None (Some {| message := "invalid JWT" |}).

(** No secret, no SMTP settings, every service up, the remote end answers
    200 OK; a deleted deal leaves its log rows behind with a null
    reference. *)
Definition env0 : Env :=
  {| WEBHOOK_SECRET := None;
     SMTP_HOST := None; SMTP_PORT := None; SMTP_USER := None;
     SMTP_PASSWORD := None; SMTP_FROM := None;
     getUser := provider;
     store_fault := fun _ => None;
     on_delete := SetNull; on_update := NoAction;
     gen_id := fun n => "gen-" +:+ pretty n;
     db_now := fun n => "2024-01-01T00:00:0" +:+ pretty n;
     smtp_reject := fun _ _ => None;
     http_post := fun _ _ => FetchResolved {| http_status := 200; statusText := "OK" |};
     clock := "2024-01-01T00:00:00.000Z" |}.

Definition with_secret (s : option string) (e : Env) : Env :=
  {| WEBHOOK_SECRET := s;
     SMTP_HOST := SMTP_HOST e; SMTP_PORT := SMTP_PORT e;
     SMTP_USER := SMTP_USER e; SMTP_PASSWORD := SMTP_PASSWORD e;
     SMTP_FROM := SMTP_FROM e; getUser := getUser e;
     store_fault := store_fault e; on_delete := on_delete e;
     on_update := on_update e; gen_id := gen_id e; db_now := db_now e;
     smtp_reject := smtp_reject e; http_post := http_post e;
     clock := clock e |}.

Definition with_smtp (e : Env) : Env :=
  {| WEBHOOK_SECRET := WEBHOOK_SECRET e;
     SMTP_HOST := Some "smtp.example.com"; SMTP_PORT := Some "587";
     SMTP_USER := Some "mailer"; SMTP_PASSWORD := Some "pw";
     SMTP_FROM := Some "deals@example.com"; getUser := getUser e;
     store_fault := store_fault e; on_delete := on_delete e;
     on_update := on_update e; gen_id := gen_id e; db_now := db_now e;
     smtp_reject := smtp_reject e; http_post := http_post e;
     clock := clock e |}.

Definition with_store_fault (f : nat -> option string) (e : Env) : Env :=
  {| WEBHOOK_SECRET := WEBHOOK_SECRET e;
     SMTP_HOST := SMTP_HOST e; SMTP_PORT := SMTP_PORT e;
     SMTP_USER := SMTP_USER e; SMTP_PASSWORD := SMTP_PASSWORD e;
     SMTP_FROM := SMTP_FROM e; getUser := getUser e;
     store_fault := f; on_delete := on_delete e; on_update := on_update e;
     gen_id := gen_id e; db_now := db_now e;
     smtp_reject := smtp_reject e; http_post := http_post e;
     clock := clock e |}.

Definition with_smtp_reject (msg : string) (e : Env) : Env :=
  {| WEBHOOK_SECRET := WEBHOOK_SECRET e;
     SMTP_HOST := SMTP_HOST e; SMTP_PORT := SMTP_PORT e;
     SMTP_USER := SMTP_USER e; SMTP_PASSWORD := SMTP_PASSWORD e;
     SMTP_FROM := SMTP_FROM e; getUser := getUser e;
     store_fault := store_fault e; on_delete := on_delete e;
     on_update := on_update e; gen_id := gen_id e; db_now := db_now e;
     smtp_reject := fun _ _ => Some msg; http_post := http_post e;
     clock := clock e |}.

Definition with_http (r : FetchReply) (e : Env) : Env :=
  {| WEBHOOK_SECRET := WEBHOOK_SECRET e;
     SMTP_HOST := SMTP_HOST e; SMTP_PORT := SMTP_PORT e;
     SMTP_USER := SMTP_USER e; SMTP_PASSWORD := SMTP_PASSWORD e;
     SMTP_FROM := SMTP_FROM e; getUser := getUser e;
     store_fault := store_fault e; on_delete := on_delete e;
     on_update := on_update e; gen_id := gen_id e; db_now := db_now e;
     smtp_reject := smtp_reject e; http_post := fun _ _ => r;
     clock := clock e |}.

Definition with_on_delete (a : FkAction) (e : Env) : Env :=
  {| WEBHOOK_SECRET := WEBHOOK_SECRET e;
     SMTP_HOST := SMTP_HOST e; SMTP_PORT := SMTP_PORT e;
     SMTP_USER := SMTP_USER e; SMTP_PASSWORD := SMTP_PASSWORD e;
     SMTP_FROM := SMTP_FROM e; getUser := getUser e;
     store_fault := store_fault e; on_delete := a; on_update := on_update e;
     gen_id := gen_id e; db_now := db_now e;
     smtp_reject := smtp_reject e; http_post := http_post e;
     clock := clock e |}.

Definition acme : Obj :=
  obj [("id", VStr "d-1"); ("business_name", VStr "Acme");
       ("contact_name", VStr "Ann"); ("contact_email", VStr "ann@acme.test");
       ("industry", VStr "retail"); ("funding_amount_requested", VNum 50000);
       ("stage", VStr "submitted"); ("source", VStr "api");
       ("created_at", VStr "2023-12-01T10:00:00")].

Definition log1 : Obj :=
  obj [("id", VStr "l-1"); ("business_idea_id", VStr "d-1");
       ("action", VStr "trigger_outreach");
       ("triggered_at", VStr "2023-12-02T09:00:00")].

Definition log2 : Obj :=
  obj [("id", VStr "l-2"); ("business_idea_id", VNull);
       ("action", VStr "outreach_external");
       ("triggered_at", VStr "2023-12-03T09:00:00")].

Definition alice_profile : Obj :=
  obj [("id", VStr "u-1"); ("username", VStr "alice");
       ("email", VStr "alice@example.com"); ("role", VStr "admin")].

(** Alice has a profile (an admin); Bob has none. *)
Definition db0 : Store :=
  {| tables := <["business_ideas" := [acme]]>
               (<["webhook_logs" := [log1; log2]]>
               (<["user_profiles" := [alice_profile]]> ∅));
     serial := 7 |}.

Definition request (hs : list (string * string)) (ps : list (string * string))
  (b : list (string * value)) : Request :=
  {| headers := list_to_map hs; params := list_to_map ps; body := obj b |}.

Definition as_alice := [("authorization", "Bearer tok-alice")].
Definition as_bob := [("authorization", "Bearer tok-bob")].

End Sample.

(** ** Vocabulary of the further properties *)

(** The answer of [verifyAuth] to a token the provider does not resolve. *)
Definition refused (reply : AuthReply) : Response :=
  match reply with
  | AuthRejected _ => respond 401 (error_body "Authentication failed")
  | _ => respond 401 (error_body "Invalid token")
  end.

(** The provider resolved the token to a user, without error. *)
Definition resolved (reply : AuthReply) : bool :=
  match reply with
  | AuthResolved (Some _) None => true
  | _ => false
  end.

(** The routes whose first store call is checked with
    [if (error) throw error]: every route that starts with a store call,
    but the user listing (which ignores the error of its role read), the
    inbound external webhook (which ignores the result of its log insert)
    and the profile route of part_001 (which falls back to a default).
    The send-outreach route reaches its store call only with a transport. *)
Definition throws_first_error (env : Env) (rev : Revision) (route : Route)
  : bool :=
  match route with
  | GET_deals | POST_deals | PUT_deals_id | DELETE_deals_id
  | POST_webhook_google_form | POST_webhook_trigger_outreach
  | GET_webhooks => true
  | GET_user_profile => match rev with part_001 => false | _ => true end
  | POST_webhook_send_outreach => present (transport_of env rev)
  | _ => false
  end.

(** [a] was not created before [b]. *)
Definition created_first (a b : Obj) : Prop :=
  value_leb (get "created_at" b) (get "created_at" a) = true.

(** The row a deal insert stores for a payload. *)
Definition stored_deal (env : Env) (db : Store) (payload : Obj) : Obj :=
  strip payload ∪ defaults env "business_ideas" (serial db).

(** The row is one the filter [eq('id', id)] selects. *)
Definition has_id (id : value) (r : Obj) : bool :=
  scalar_eqb (get "id" r) (wire id).

(** The query of the update route. *)
Definition put_query (req : Request) : Query :=
  Q.from "business_ideas" |> Q.update (body req)
  |> Q.eq "id" (of_opt (params req !! "id")) |> Q.select [Star] |> Q.single.

(** The profile row part_001 stores for a caller it has no row for. *)
Definition stored_profile (user : User) (email : string) : Obj :=
  strip (Part001.newProfile user (local_part email)).

(** The e-mail address has an ['@']. *)
Fixpoint has_at (s : string) : bool :=
  match s with
  | EmptyString => false
  | String c rest => Ascii.eqb c "@"%char || has_at rest
  end.

(** What a store call does, without its arguments. *)
Inductive Kind := KSelect | KInsert | KUpdate | KDelete.

Definition kind (v : Verb) : Kind :=
  match v with
  | Select => KSelect
  | Insert _ => KInsert
  | Update _ => KUpdate
  | Delete => KDelete
  end.

Definition kind_eqb (a b : Kind) : bool :=
  match a, b with
  | KSelect, KSelect | KInsert, KInsert | KUpdate, KUpdate | KDelete, KDelete => true
  | _, _ => false
  end.

(** The store calls a route can be seen to issue in the source: table and
    kind. *)
Definition may_issue (rev : Revision) (route : Route) : list (string * Kind) :=
  match route with
  | GET_health => []
  | GET_deals => [("business_ideas", KSelect)]
  | POST_deals => [("business_ideas", KInsert)]
  | PUT_deals_id => [("business_ideas", KUpdate)]
  | DELETE_deals_id => [("business_ideas", KDelete)]
  | POST_webhook_send_outreach | POST_webhook_trigger_outreach =>
      [("business_ideas", KSelect); ("webhook_logs", KInsert)]
  | POST_webhook_google_form =>
      [("business_ideas", KInsert); ("webhook_logs", KInsert)]
  | POST_webhook_outreach_external => [("webhook_logs", KInsert)]
  | GET_webhooks => [("webhook_logs", KSelect)]
  | GET_user_profile =>
      ("user_profiles", KSelect)
      :: match rev with part_001 => [("user_profiles", KInsert)] | _ => [] end
  | GET_users => [("user_profiles", KSelect)]
  end.

Definition event_ok (rev : Revision) (route : Route) (e : Event) : bool :=
  match e with
  | EGetUser _ => bearer_protected route
  | ESendMail _ _ =>
      match route with POST_webhook_send_outreach => true | _ => false end
  | EFetch _ _ =>
      match route with POST_webhook_trigger_outreach => true | _ => false end
  | EQuery q =>
      existsb (fun tk => String.eqb (q_from q) tk.1
                         && kind_eqb (kind (q_verb q)) tk.2)
              (may_issue rev route)
  end.

(** Every call of the trace is one the route may issue, and there is at
    most one mail and at most one outbound POST. *)
Definition trace_ok (rev : Revision) (route : Route) (tr : list Event) : bool :=
  forallb (event_ok rev route) tr
  && (List.length (mails tr) <=? 1)%nat
  && (List.length (posts tr) <=? 1)%nat.

(** * Properties *)

Ltac js_simpl :=
  cbv beta iota zeta delta
    [bind ret throw throw_if try_catch catch_500 await sendMail fetch
     log_event prop email_split_0 auth_getUser
     st_store st_calls st_trace data error fst snd negb andb orb
     run response store_after trace after_auth] in *.

Ltac js_exec :=
  match goal with
  | |- context [exec ?e ?n ?q ?db] =>
      let E := fresh "E" in
      destruct (exec e n q db) as [[? ?] ?] eqn:E
  end; js_simpl.

Ltac js_finish :=
  repeat first
    [ reflexivity
    | progress cbn [strict_eq_str field truthy]
    | match goal with
      | E : exec ?e ?n ?q ?db = _ |- context [exec ?e ?n ?q ?db] =>
          rewrite E; js_simpl
      | |- context [exec ?e ?n ?q ?db] =>
          let E := fresh "E" in
          destruct (exec e n q db) as [[? ?] ?] eqn:E; js_simpl
      | |- context [if ?c then _ else _] => destruct c; js_simpl
      | |- context [match ?x with Some _ => _ | None => _ end] =>
          destruct x; js_simpl
      end ].

(** ** Values *)

Lemma value_size_elem l x :
  x ∈ l → (value_size x < value_size (VArr l))%nat.
Proof. cbn. induction 1 as [x l|x y l _ IH]; cbn in *; lia. Qed.

Lemma value_size_lookup (o : Obj) k x :
  o !! k = Some x → (value_size x < value_size (VObj o))%nat.
Proof.
  cbn. intros H. rewrite <- (insert_delete_id o k x H).
  rewrite map_fold_insert_L.
  - lia.
  - intros. lia.
  - apply lookup_delete_eq.
Qed.

(** Induction on a value and the values it contains. *)
Lemma value_ind' (P : value → Prop) :
  P VUndef → P VNull → (∀ b, P (VBool b)) → (∀ n, P (VNum n)) →
  (∀ s, P (VStr s)) →
  (∀ l, Forall P l → P (VArr l)) →
  (∀ o, map_Forall (fun _ => P) o → P (VObj o)) →
  ∀ v, P v.
Proof.
  intros H1 H2 H3 H4 H5 Harr Hobj v.
  remember (value_size v) as n eqn:Hn. revert v Hn.
  induction (lt_wf n) as [n _ IH]. intros v ->.
  destruct v; auto.
  - apply Harr, Forall_forall. intros x Hx.
    eapply IH; [|reflexivity]. apply value_size_elem, Hx.
  - apply Hobj. intros k x Hk.
    eapply IH; [|reflexivity]. eapply value_size_lookup, Hk.
Qed.

(** What went through [JSON.stringify] once is not changed by it again. *)
Lemma jsonify_idemp v : jsonify (jsonify v) = jsonify v.
Proof.
  induction v as [| | | | |l IH|o IH] using value_ind'; try reflexivity.
  - cbn. f_equal. rewrite List.map_map. apply map_ext_Forall.
    eapply Forall_impl; [exact IH|]. intros x Hx. cbn in Hx.
    destruct x; try reflexivity; cbn [jsonify] in *; rewrite ?Hx; try reflexivity.
  - cbn. f_equal. apply map_eq. intros k. rewrite !lookup_omap.
    destruct (o !! k) as [x|] eqn:Hk; [|reflexivity]. cbn.
    specialize (IH k x Hk). cbn in IH.
    destruct x; try reflexivity; cbn [jsonify mbind option_bind] in *;
      rewrite ?IH; reflexivity.
Qed.

Lemma is_json_lookup (o : Obj) k x :
  is_json (VObj o) = true → o !! k = Some x → is_json x = true.
Proof.
  cbn. intros H Hk. rewrite <- (insert_delete_id o k x Hk) in H.
  rewrite map_fold_insert_L in H.
  - apply andb_prop in H. apply H.
  - intros. rewrite !andb_assoc. f_equal. apply andb_comm.
  - apply lookup_delete_eq.
Qed.

(** [JSON.stringify] changes nothing in a value that JSON can carry. *)
Lemma jsonify_json v : is_json v = true → jsonify v = v.
Proof.
  induction v as [| | | | |l IH|o IH] using value_ind'; try reflexivity.
  - cbn. intros H. f_equal. rewrite <- (map_id l) at 2.
    apply map_ext_Forall. rewrite forallb_forall in H.
    rewrite Forall_forall in IH |- *. intros x Hx.
    specialize (H x (proj1 (list_elem_of_In _ _) Hx)).
    rewrite (IH x Hx H). destruct x; try reflexivity. discriminate H.
  - intros H. cbn. f_equal. apply map_eq. intros k. rewrite lookup_omap.
    destruct (o !! k) as [x|] eqn:Hk; [|reflexivity]. cbn.
    pose proof (is_json_lookup o k x H Hk) as Hx.
    rewrite (IH k x Hk Hx). destruct x; try reflexivity. discriminate Hx.
Qed.

(** The filter of [eq] reads its text at the type of the column: the path
    id [5], [05] or [ 5 ] selects the row whose id is the number 5, a
    numeric value selects the row whose id is its text, and a missing
    value travels as the text [undefined]. *)
Lemma filter_reads_text_at_column_type :
  scalar_eqb (VNum 5) (wire (VStr "5")) = true
  ∧ scalar_eqb (VNum 5) (wire (VStr "05")) = true
  ∧ scalar_eqb (VNum 5) (wire (VStr " 5 ")) = true
  ∧ scalar_eqb (VNum (-5)) (wire (VStr "-5")) = true
  ∧ scalar_eqb (VNum 5) (wire (VStr "5x")) = false
  ∧ scalar_eqb (VNum 5) (wire (VNum 5)) = true
  ∧ scalar_eqb (VStr "5") (wire (VNum 5)) = true
  ∧ scalar_eqb (VStr "undefined") (wire VUndef) = true
  ∧ scalar_eqb (VBool true) (wire (VStr "TRUE")) = true
  ∧ scalar_eqb VNull (wire VNull) = false.
Proof. repeat split; vm_compute; reflexivity. Qed.

(** A value other than null equals itself for the store. *)
Lemma scalar_eqb_refl v : v ≠ VNull → v ≠ VUndef → scalar_eqb v v = true.
Proof.
  intros H1 H2. destruct v; try contradiction; cbn.
  - destruct b; reflexivity.
  - apply Z.eqb_refl.
  - apply String.eqb_refl.
  - apply bool_decide_eq_true_2. reflexivity.
  - apply bool_decide_eq_true_2. reflexivity.
Qed.

Lemma scalar_eqb_null_r v : scalar_eqb v VNull = false.
Proof. destruct v; reflexivity. Qed.

(** ** The authorization gate *)

Lemma verifyAuth_refuses env next req st :
  headers req !! "authorization" = None
  ∨ (∃ h, headers req !! "authorization" = Some h
          ∧ String.prefix "Bearer " h = false) →
  verifyAuth env next req st = (Ok no_token, st).
Proof.
  intros [Hnone | (h & Hh & Hpre)]; unfold verifyAuth.
  - rewrite Hnone. reflexivity.
  - rewrite Hh, Hpre. rewrite orb_true_r. reflexivity.
Qed.

Lemma verifyAuth_accepts env next req db user :
  caller env req = Some user →
  verifyAuth env next req {| st_store := db; st_calls := 0; st_trace := [] |}
  = next user req (after_auth req db).
Proof.
  unfold caller, after_auth, auth_trace, bearer_token, verifyAuth.
  destruct (headers req !! "authorization") as [h|]; [|discriminate].
  destruct (truthy (VStr h)); [|discriminate].
  destruct (String.prefix "Bearer " h); [|discriminate].
  cbn [andb negb orb].
  intros Hu.
  unfold bind, try_catch, auth_getUser, log_event, ret, throw.
  destruct (getUser env _) as [[u|] [e|] | e]; try discriminate.
  injection Hu as ->. reflexivity.
Qed.

Lemma run_protected env h req db user :
  caller env req = Some user →
  run (verifyAuth env h) req db
  = let '(r, st) := h user req (after_auth req db) in
    {| response := r; store_after := st_store st; trace := st_trace st |}.
Proof.
  intros Hu. unfold run. rewrite (verifyAuth_accepts _ _ _ _ _ Hu). reflexivity.
Qed.

(** The trace of an authenticated request starts with the one call to the
    identity provider; it holds no store call, mail or outbound POST. *)
Lemma auth_trace_quiet req t :
  inserted t (auth_trace req) = []
  ∧ queries (auth_trace req) = []
  ∧ mails (auth_trace req) = []
  ∧ posts (auth_trace req) = [].
Proof. unfold auth_trace; destruct (bearer_token req); repeat split; reflexivity. Qed.

(** C4: a request to a bearer-protected route whose Authorization header
    is missing, or does not start with [Bearer ], is answered 401 by the
    gate; no external call is issued (the trace is empty) and the store is
    left as it was.  This holds for every protected route of each of the
    three revisions. *)
Theorem C4_bearer_gate env url rev route h req db :
  app env url rev route = Some h →
  bearer_protected route = true →
  (headers req !! "authorization" = None
   ∨ ∃ a, headers req !! "authorization" = Some a
          ∧ String.prefix "Bearer " a = false) →
  run h req db = {| response := Ok no_token; store_after := db; trace := [] |}.
Proof.
  intros Happ Hprot Hbad.
  destruct route; try discriminate Hprot; destruct rev; simpl in Happ;
    try discriminate Happ; injection Happ as <-;
    unfold run; rewrite (verifyAuth_refuses _ _ _ _ Hbad); reflexivity.
Qed.

Lemma C4_bearer_gate_witness :
  run (verifyAuth Sample.env0 (ServerJs.delete_deal Sample.env0))
      (Sample.request [("authorization", "Basic abc")] [("id", "d-1")] [])
      Sample.db0
  = {| response := Ok no_token; store_after := Sample.db0; trace := [] |}.
Proof.
  apply (C4_bearer_gate Sample.env0 None server_js DELETE_deals_id).
  - reflexivity.
  - reflexivity.
  - right. exists "Basic abc". split; reflexivity.
Defined.

(** ** Direct send *)

Lemma send_outreach_with_log env t user dealId st :
  let rep := (exec env (st_calls st) (ServerJs.deal_by_id dealId) (st_store st)).1 in
  let out := ServerJs.send_outreach_with env t user dealId st in
  inserted "webhook_logs" (st_trace out.2) ≠ inserted "webhook_logs" (st_trace st) →
  error rep = None
  ∧ mails (st_trace out.2) = mails (st_trace st) ++ [mail_for env (data rep)]
  ∧ smtp_reject env t (mail_for env (data rep)) = None.
Proof.
  destruct st as [db n tr].
  unfold ServerJs.send_outreach_with. js_simpl. js_exec.
  unfold inserted, mails.
  destruct error0; js_simpl.
  { rewrite flat_map_app. simpl. rewrite app_nil_r. congruence. }
  destruct data0; js_simpl;
    try (rewrite flat_map_app; simpl; rewrite app_nil_r; congruence).
  all: unfold mail_for, field.
  all: match goal with
       | |- context [smtp_reject ?e ?t ?m] => destruct (smtp_reject e t m) eqn:R
       end; js_simpl.
  all: try js_exec.
  all: rewrite !flat_map_app; simpl; rewrite ?app_nil_r.
  all: try congruence.
  all: intros _; split; [reflexivity|]; split; reflexivity.
Qed.

Lemma send_outreach_route env url rev h :
  app env url rev POST_webhook_send_outreach = Some h →
  h = verifyAuth env (fun user req =>
        try (match transport_of env rev with
             | None => ret not_configured
             | Some t => ServerJs.send_outreach_with env t user
                           (get "dealId" (body req))
             end)
        catch catch_500).
Proof. destruct rev; intros [= <-]; reflexivity. Qed.

Lemma catch_500_state (m : M Response) st :
  (try_catch m catch_500 st).2 = (m st).2.
Proof. unfold try_catch, catch_500, ret. destruct (m st) as [[?|?] ?]; reflexivity. Qed.

(** In every revision, an authenticated send-outreach request is answered
    503 when the revision holds no mail transport (which part_000 always
    does), and then no store call (deal fetch or log write) and no send is
    issued; when the deal fetch resolves with an error or the relay rejects
    the mail, no row is written to [webhook_logs]; and a row is written
    there only after the deal was fetched without error and the one mail
    was accepted. *)
Theorem send_outreach_logs_after_send env url rev h req db user :
  app env url rev POST_webhook_send_outreach = Some h →
  caller env req = Some user →
  let fetched :=
    (exec env 0 (ServerJs.deal_by_id (get "dealId" (body req))) db).1 in
  let o := run h req db in
  (transport_of env rev = None →
   response o = Ok not_configured
   ∧ queries (trace o) = [] ∧ mails (trace o) = [] ∧ store_after o = db)
  ∧ (∀ t, transport_of env rev = Some t →
       (∃ e, error fetched = Some e)
       ∨ (∃ m msg, In m (mails (trace o)) ∧ smtp_reject env t m = Some msg) →
       inserted "webhook_logs" (trace o) = [])
  ∧ (∀ t, transport_of env rev = Some t →
       inserted "webhook_logs" (trace o) ≠ [] →
       error fetched = None
       ∧ mails (trace o) = [mail_for env (data fetched)]
       ∧ smtp_reject env t (mail_for env (data fetched)) = None).
Proof.
  intros Hroute Hu fetched o. subst o.
  rewrite (send_outreach_route _ _ _ _ Hroute), (run_protected _ _ _ _ _ Hu).
  destruct (auth_trace_quiet req "webhook_logs") as (Hi & Hq & Hm & _).
  split.
  { intros ->. js_simpl. auto. }
  assert (Hlog : ∀ t, transport_of env rev = Some t →
            let tr := trace (let '(r, st) :=
                         try_catch (match transport_of env rev with
                                    | Some t => ServerJs.send_outreach_with env t user
                                                  (get "dealId" (body req))
                                    | None => ret not_configured
                                    end) catch_500 (after_auth req db) in
                         {| response := r; store_after := st_store st;
                            trace := st_trace st |}) in
            inserted "webhook_logs" tr ≠ [] →
            error fetched = None
            ∧ mails tr = [mail_for env (data fetched)]
            ∧ smtp_reject env t (mail_for env (data fetched)) = None).
  { intros t -> tr.
    pose proof (send_outreach_with_log env t user (get "dealId" (body req))
                  (after_auth req db)) as Hlog.
    cbv zeta in Hlog.
    change (st_trace (after_auth req db)) with (auth_trace req) in Hlog.
    rewrite Hi, Hm in Hlog.
    change (st_calls (after_auth req db)) with 0%nat in Hlog.
    change (st_store (after_auth req db)) with db in Hlog.
    fold fetched in Hlog.
    set (m := ServerJs.send_outreach_with env t user _) in *.
    assert (Htr : tr = st_trace (m (after_auth req db)).2).
    { subst tr. rewrite <- catch_500_state. destruct (try_catch _ _ _); reflexivity. }
    rewrite Htr. exact Hlog. }
  split.
  - intros t Ht Hfail. specialize (Hlog t Ht). cbv zeta in Hlog.
    match goal with
    | |- ?l = [] => destruct l as [|row rows] eqn:Hins; [reflexivity|exfalso]
    end.
    destruct Hlog as (He & Hmails & Hok); [discriminate|].
    destruct Hfail as [[e Hfail] | (mail & msg & Hin & Hrej)].
    + congruence.
    + rewrite Hmails in Hin. destruct Hin as [<- | []]. congruence.
  - intros t Ht. exact (Hlog t Ht).
Qed.

Lemma send_outreach_logs_after_send_witness :
  inserted "webhook_logs"
    (trace (run (verifyAuth (Sample.with_smtp_reject "relay down" (Sample.with_smtp Sample.env0))
                   (ServerJs.send_outreach
                      (Sample.with_smtp_reject "relay down" (Sample.with_smtp Sample.env0))))
                (Sample.request Sample.as_alice [] [("dealId", VStr "d-1")])
                Sample.db0)) = [].
Proof.
  set (env := Sample.with_smtp_reject "relay down" (Sample.with_smtp Sample.env0)).
  apply (proj1 (proj2 (send_outreach_logs_after_send env None server_js
                  (verifyAuth env (ServerJs.send_outreach env))
                  (Sample.request Sample.as_alice [] [("dealId", VStr "d-1")])
                  Sample.db0 Sample.alice eq_refl eq_refl))
               {| smtp_host := Some "smtp.example.com"; smtp_port := Some "587";
                  smtp_user := Some "mailer"; smtp_pass := Some "pw" |}
               eq_refl).
  right. exists (mail_for env (VObj Sample.acme)), "relay down".
  split; [vm_compute; left; reflexivity | reflexivity].
Defined.

(** C3, on the code: part_000 has no branch for a missing transport.
    With none of the SMTP settings present, server.js answers 503 and
    calls nothing but the identity provider; part_000 fetches the deal and
    hands the mail to its transport all the same: when the send is
    rejected the answer is 500 with the relay's message, and when it is
    accepted the log row is written and the answer is 200. *)
Theorem C3_part_000_sends_without_transport :
  app Sample.env0 None part_000 POST_webhook_send_outreach
  = Some (verifyAuth Sample.env0 (Part000.send_outreach Sample.env0))
  ∧ ServerJs.transporter Sample.env0 = None
  ∧ run (verifyAuth Sample.env0 (ServerJs.send_outreach Sample.env0))
        (Sample.request Sample.as_alice [] [("dealId", VStr "d-1")]) Sample.db0
    = {| response := Ok not_configured; store_after := Sample.db0;
         trace := [EGetUser "tok-alice"] |}
  ∧ response (run (verifyAuth Sample.env0 (Part000.send_outreach Sample.env0))
                  (Sample.request Sample.as_alice [] [("dealId", VStr "d-1")])
                  Sample.db0)
    = Ok (res_json (VObj (obj [("message",
                                VStr "Outreach email sent successfully")])))
  ∧ queries (trace (run (verifyAuth Sample.env0 (Part000.send_outreach Sample.env0))
                        (Sample.request Sample.as_alice [] [("dealId", VStr "d-1")])
                        Sample.db0))
    = [ServerJs.deal_by_id (VStr "d-1");
       Q.from "webhook_logs"
       |> Q.insert [ServerJs.send_outreach_log Sample.alice (VStr "d-1")
                      (VStr "ann@acme.test")]]
  ∧ mails (trace (run (verifyAuth Sample.env0 (Part000.send_outreach Sample.env0))
                      (Sample.request Sample.as_alice [] [("dealId", VStr "d-1")])
                      Sample.db0))
    = [mail_for Sample.env0 (VObj Sample.acme)]
  ∧ response
      (run (verifyAuth (Sample.with_smtp_reject "connect ECONNREFUSED" Sample.env0)
              (Part000.send_outreach
                 (Sample.with_smtp_reject "connect ECONNREFUSED" Sample.env0)))
           (Sample.request Sample.as_alice [] [("dealId", VStr "d-1")])
           Sample.db0)
    = Ok (respond 500 (error_body "connect ECONNREFUSED"))
  ∧ mails (trace
             (run (verifyAuth (Sample.with_smtp_reject "connect ECONNREFUSED" Sample.env0)
                     (Part000.send_outreach
                        (Sample.with_smtp_reject "connect ECONNREFUSED" Sample.env0)))
                  (Sample.request Sample.as_alice [] [("dealId", VStr "d-1")])
                  Sample.db0))
    = [mail_for Sample.env0 (VObj Sample.acme)].
Proof. repeat split; vm_compute; reflexivity. Qed.

(** ** The store, as far as the handlers' writes go *)

Lemma exec_fault env n q db msg :
  store_fault env n = Some msg →
  exec env n q db = ({| data := VNull; error := Some {| message := msg |} |}, db).
Proof. intros H. unfold exec, perform. rewrite H. reflexivity. Qed.

(** A call that reports no error has done what the query says. *)
Lemma exec_kept env n q db :
  error (exec env n q db).1 = None → exec env n q db = perform env q db.
Proof.
  unfold exec. destruct (store_fault env n); [discriminate|]. cbv zeta.
  destruct (error (perform env q db).1) eqn:E; cbn [fst].
  - rewrite E. discriminate.
  - intros _. destruct (perform env q db). reflexivity.
Qed.

(** A call that reports an error has changed nothing. *)
Lemma exec_failed env n q db e :
  error (exec env n q db).1 = Some e → (exec env n q db).2 = db.
Proof.
  unfold exec. destruct (store_fault env n); [reflexivity|]. cbv zeta.
  destruct (error (perform env q db).1) eqn:E; cbn [fst snd]; [reflexivity|].
  rewrite E. discriminate.
Qed.

Lemma exec_refused env n q db rep e :
  store_fault env n = None →
  (perform env q db).1 = rep → error rep = Some e →
  exec env n q db = (rep, db).
Proof.
  intros Hf Hrep He. unfold exec. rewrite Hf. cbv zeta. rewrite Hrep, He.
  reflexivity.
Qed.

Lemma exec_done env n q db rep db' :
  store_fault env n = None →
  perform env q db = (rep, db') → error rep = None →
  exec env n q db = (rep, db').
Proof.
  intros Hf Hrep He. unfold exec. rewrite Hf, Hrep. cbn [fst]. rewrite He.
  reflexivity.
Qed.

Lemma exec_store_cases env n q db :
  (exec env n q db).2 = db ∨ (exec env n q db).2 = (perform env q db).2.
Proof.
  unfold exec. destruct (store_fault env n); [left; reflexivity|]. cbv zeta.
  destruct (error _); [left|right]; reflexivity.
Qed.

(** A table that references no other takes every row. *)
Lemma reference_free db t rows :
  foreign_key t "business_ideas" = None →
  forallb (reference_holds db t) rows = true.
Proof.
  intros H. apply forallb_forall. intros r _.
  unfold reference_holds. rewrite H. reflexivity.
Qed.


Lemma table_insert_eq t rows tbls n :
  table {| tables := <[t := rows]> tbls; serial := n |} t = rows.
Proof. unfold table. cbn [tables]. rewrite lookup_insert_eq. reflexivity. Qed.

Lemma env_or_default (o : option string) : env_or o "" = default "" o.
Proof.
  destruct o as [s|]; [|reflexivity]. unfold env_or.
  destruct (String.eqb_spec s ""); [subst|]; reflexivity.
Qed.

Lemma strip_lookup (o : Obj) k v :
  o !! k = Some v → v ≠ VUndef → strip o !! k = Some (jsonify v).
Proof.
  intros H Hv. unfold strip. rewrite lookup_omap, H.
  destruct v; try reflexivity. contradiction.
Qed.

Lemma strip_lookup_str (o : Obj) k s :
  o !! k = Some (VStr s) → strip o !! k = Some (VStr s).
Proof. intros H. apply (strip_lookup o k (VStr s) H). discriminate. Qed.


(** ** Inbound external webhook *)




(** ** Forwarded trigger *)

(** The outbound POSTs and the log writes of an authenticated
    trigger-outreach request whose deal fetch returned [deal]. *)
Lemma trigger_outreach_fetched env req db user deal db1 :
  caller env req = Some user →
  exec env 0 (ServerJs.deal_by_id (get "dealId" (body req))) db
  = ({| data := VObj deal; error := None |}, db1) →
  let url := get "webhookUrl" (body req) in
  let o := run (verifyAuth env (ServerJs.trigger_outreach env)) req db in
  let log := ServerJs.trigger_outreach_log user (get "dealId" (body req)) url
               (get "business_name" deal) in
  if truthy url then
    posts (trace o) = [(url, post_for env (VObj deal))]
    ∧ match http_post env url (post_for env (VObj deal)) with
      | FetchRejected e =>
          response o = Ok (respond 500 (error_body (message e)))
          ∧ inserted "webhook_logs" (trace o) = []
      | FetchResolved r =>
          if ok r then inserted "webhook_logs" (trace o) = [log]
          else response o
               = Ok (respond 500 (error_body ("Webhook failed: " +:+ statusText r)))
               ∧ inserted "webhook_logs" (trace o) = []
      end
  else posts (trace o) = [] ∧ inserted "webhook_logs" (trace o) = [log].
Proof.
  intros Hu He url o log. subst o log url.
  rewrite (run_protected _ _ _ _ _ Hu).
  unfold ServerJs.trigger_outreach, ServerJs.forward, post_for, field.
  destruct (auth_trace_quiet req "webhook_logs") as (Hi & _ & _ & Hp).
  js_simpl. rewrite He. js_simpl.
  unfold posts, inserted in *.
  destruct (truthy (get "webhookUrl" (body req))); js_simpl.
  - destruct (http_post env _ _) as [r|e]; js_simpl.
    + destruct (ok r); js_simpl; [js_exec|];
        rewrite !flat_map_app, ?Hi, ?Hp; repeat split; reflexivity.
    + rewrite !flat_map_app, ?Hi, ?Hp; repeat split; reflexivity.
  - js_exec. rewrite !flat_map_app, ?Hi, ?Hp; repeat split; reflexivity.
Qed.

(** C6: for an authenticated trigger-outreach request whose deal fetch
    succeeds: when a webhook URL is supplied (a truthy [webhookUrl], which
    is what [if (webhookUrl)] tests) and the outbound POST comes
    back with a status outside 200-299, the request fails with a 500 and
    no row is written to [webhook_logs]; the row with action
    [trigger_outreach] is written exactly when no URL was supplied or the
    POST came back with a 2xx status, and nothing else is ever written
    there. *)
Theorem C6_trigger_outreach env req db user deal :
  caller env req = Some user →
  (exec env 0 (ServerJs.deal_by_id (get "dealId" (body req))) db).1
  = {| data := VObj deal; error := None |} →
  let url := get "webhookUrl" (body req) in
  let o := run (verifyAuth env (ServerJs.trigger_outreach env)) req db in
  let log := ServerJs.trigger_outreach_log user (get "dealId" (body req)) url
               (get "business_name" deal) in
  let posted := http_post env url (post_for env (VObj deal)) in
  (∀ r, truthy url = true → posted = FetchResolved r → ok r = false →
        response o
        = Ok (respond 500 (error_body ("Webhook failed: " +:+ statusText r)))
        ∧ inserted "webhook_logs" (trace o) = [])
  ∧ (inserted "webhook_logs" (trace o) = [log]
     ↔ truthy url = false ∨ ∃ r, posted = FetchResolved r ∧ ok r = true)
  ∧ (inserted "webhook_logs" (trace o) = []
     ∨ inserted "webhook_logs" (trace o) = [log])
  ∧ get "action" log = VStr "trigger_outreach".
Proof.
  intros Hu He url o log posted.
  destruct (exec env 0 _ db) as [rep db1] eqn:E. cbn [fst] in He. subst rep.
  pose proof (trigger_outreach_fetched env req db user deal db1 Hu E) as H.
  cbv zeta in H. fold url o log posted in H.
  assert (Hact : get "action" log = VStr "trigger_outreach") by reflexivity.
  destruct (truthy url) eqn:Hurl.
  - destruct H as [_ H]. fold posted in H.
    destruct posted as [r|e] eqn:Hp.
    + destruct (ok r) eqn:Hok.
      * split; [|split; [|split]]; auto.
        -- intros r' _ [= <-]. congruence.
        -- split; [|auto]. intros _. right. exists r. auto.
      * destruct H as [Hr Hi]. split; [|split; [|split]]; auto.
        -- intros r' _ [= <-] _. auto.
        -- rewrite Hi. split; [discriminate|].
           intros [? | (r' & [= <-] & ?)]; congruence.
    + destruct H as [Hr Hi]. split; [|split; [|split]]; auto.
      * discriminate.
      * rewrite Hi. split; [discriminate|].
        intros [? | (r' & ? & ?)]; congruence.
  - destruct H as [_ H]. split; [|split; [|split]]; auto.
    + discriminate.
    + split; auto.
Qed.

Lemma C6_trigger_outreach_witness :
  response (run (verifyAuth
                   (Sample.with_http (FetchResolved {| http_status := 502;
                                                       statusText := "Bad Gateway" |})
                                     Sample.env0)
                   (ServerJs.trigger_outreach
                      (Sample.with_http (FetchResolved {| http_status := 502;
                                                          statusText := "Bad Gateway" |})
                                        Sample.env0)))
                (Sample.request Sample.as_alice []
                   [("dealId", VStr "d-1"); ("webhookUrl", VStr "https://hook.test/x")])
                Sample.db0)
  = Ok (respond 500 (error_body "Webhook failed: Bad Gateway"))
  ∧ inserted "webhook_logs"
      (trace (run (verifyAuth
                     (Sample.with_http (FetchResolved {| http_status := 502;
                                                         statusText := "Bad Gateway" |})
                                       Sample.env0)
                     (ServerJs.trigger_outreach
                        (Sample.with_http (FetchResolved {| http_status := 502;
                                                            statusText := "Bad Gateway" |})
                                          Sample.env0)))
                  (Sample.request Sample.as_alice []
                     [("dealId", VStr "d-1"); ("webhookUrl", VStr "https://hook.test/x")])
                  Sample.db0)) = [].
Proof.
  apply (proj1 (C6_trigger_outreach
                  (Sample.with_http (FetchResolved {| http_status := 502;
                                                      statusText := "Bad Gateway" |})
                                    Sample.env0)
                  (Sample.request Sample.as_alice []
                     [("dealId", VStr "d-1"); ("webhookUrl", VStr "https://hook.test/x")])
                  Sample.db0 Sample.alice Sample.acme
                  eq_refl ltac:(vm_compute; reflexivity))
               {| http_status := 502; statusText := "Bad Gateway" |});
    reflexivity.
Defined.

Lemma verifyAuth_unauthenticated env next req db :
  caller env req = None →
  let o := run (verifyAuth env next) req db in
  (∃ resp, response o = Ok resp ∧ status resp = 401)
  ∧ store_after o = db
  ∧ queries (trace o) = [] ∧ mails (trace o) = [] ∧ posts (trace o) = [].
Proof.
  unfold caller, bearer_token, run, verifyAuth.
  destruct (headers req !! "authorization") as [h|]; [|cbn; eauto 10].
  destruct (truthy (VStr h)); [|cbn; eauto 10].
  destruct (String.prefix "Bearer " h); [|cbn; eauto 10].
  js_simpl.
  destruct (getUser env _) as [[u|] [e|] | e]; try discriminate;
    intros _; cbn; eauto 10.
Qed.

Lemma trigger_init_header env a b c d e f g h i :
  fetch_headers (ServerJs.trigger_init env a b c d e f g h i) !! "X-Webhook-Secret"
  = Some (default "" (WEBHOOK_SECRET env)).
Proof.
  unfold ServerJs.trigger_init. cbn [fetch_headers].
  rewrite lookup_insert_eq, env_or_default. reflexivity.
Qed.

Lemma trigger_outreach_posts env user req st p :
  posts (st_trace st) = [] →
  In p (posts (st_trace (ServerJs.trigger_outreach env user req st).2)) →
  ∃ a b c d e f g h i, p.2 = ServerJs.trigger_init env a b c d e f g h i.
Proof.
  destruct st as [db n tr]. cbn [st_trace]. intros Hp.
  unfold ServerJs.trigger_outreach, ServerJs.forward, posts in *.
  js_simpl. js_exec.
  destruct error0; js_simpl.
  { rewrite !flat_map_app, Hp. intros []. }
  destruct (truthy (get "webhookUrl" (body req))); js_simpl.
  - destruct data0; js_simpl;
      try (rewrite !flat_map_app, Hp; intros []; fail).
    all: match goal with
         | |- context [http_post ?e ?u ?i] => destruct (http_post e u i) as [r|err]
         end; js_simpl.
    all: try (destruct (ok r); js_simpl).
    all: try js_exec.
    all: rewrite !flat_map_app, Hp; cbn [flat_map app In].
    all: intros [<- | []]; cbn [snd]; eauto 12.
  - destruct data0; js_simpl; try js_exec;
      rewrite !flat_map_app, Hp; intros [].
Qed.

(** C10: every outbound POST of the trigger-outreach route carries an
    [X-Webhook-Secret] header; its value is the configured secret, and the
    empty string when none is configured.  The request sent with the
    variable unset is the same as the one sent with the variable set to the
    empty string. *)
Theorem C10_outbound_secret_header env req db :
  (∀ url init,
     In (url, init)
        (posts (trace (run (verifyAuth env (ServerJs.trigger_outreach env)) req db))) →
     fetch_headers init !! "X-Webhook-Secret"
     = Some (default "" (WEBHOOK_SECRET env)))
  ∧ (∀ env' deal,
       WEBHOOK_SECRET env = None → WEBHOOK_SECRET env' = Some "" →
       post_for env deal = post_for env' deal).
Proof.
  split.
  - intros url init Hin.
    destruct (caller env req) as [user|] eqn:Hu.
    + rewrite (run_protected _ _ _ _ _ Hu) in Hin.
      destruct (ServerJs.trigger_outreach env user req (after_auth req db))
        as [r st] eqn:Hrun.
      cbn [trace] in Hin.
      destruct (trigger_outreach_posts env user req (after_auth req db) (url, init))
        as (a & b & c & d & e & f & g & h & i & Heq).
      * apply auth_trace_quiet; exact "".
      * rewrite Hrun. exact Hin.
      * cbn [snd] in Heq. subst init. apply trigger_init_header.
    + destruct (verifyAuth_unauthenticated env (ServerJs.trigger_outreach env)
                  req db Hu) as (_ & _ & _ & _ & Hp).
      cbv zeta in Hp. rewrite Hp in Hin. destruct Hin.
  - intros env' deal H H'. unfold post_for, ServerJs.trigger_init.
    rewrite H, H'. reflexivity.
Qed.

Lemma C10_outbound_secret_header_witness :
  fetch_headers (post_for Sample.env0 (VObj Sample.acme)) !! "X-Webhook-Secret"
  = Some "".
Proof.
  apply (proj1 (C10_outbound_secret_header Sample.env0
                  (Sample.request Sample.as_alice []
                     [("dealId", VStr "d-1"); ("webhookUrl", VStr "https://hook.test/x")])
                  Sample.db0)
               (VStr "https://hook.test/x")).
  vm_compute. left. reflexivity.
Defined.

(** ** Form ingestion *)

(** An insert that reports no error has stored its rows. *)
Lemma exec_write_store env n q rows db :
  q_verb q = Insert rows →
  error (exec env n q db).1 = None →
  (exec env n q db).2
  = {| tables := <[q_from q := table db (q_from q)
                                ++ store_rows env (q_from q) (serial db) rows]>
                   (tables db);
       serial := (serial db + List.length rows)%nat |}.
Proof.
  intros Hq Herr. pose proof (exec_kept env n q db Herr) as Hk.
  rewrite Hk in Herr |- *. clear Hk.
  unfold perform in *. rewrite Hq in *.
  destruct (forallb _ _); [reflexivity|discriminate Herr].
Qed.

(** An insert without [select] is accepted when the store has no fault
    and the rows reference deals that are there. *)
Lemma exec_insert_accepted env n t rows db :
  store_fault env n = None →
  forallb (reference_holds db t) (store_rows env t (serial db) rows) = true →
  (exec env n (Q.from t |> Q.insert rows) db).1
  = {| data := VNull; error := None |}.
Proof.
  intros H Hfk. unfold exec, perform. rewrite H.
  cbn [q_verb Q.insert Q.with_verb Q.from q_from]. rewrite Hfk. reflexivity.
Qed.

(** An insert of one row followed by [.select().single()] returns the row
    as stored. *)
Lemma exec_insert_single env n t row db :
  store_fault env n = None →
  foreign_key t "business_ideas" = None →
  (exec env n (Q.from t |> Q.insert [row] |> Q.select [Star] |> Q.single) db).1
  = {| data := VObj (strip row ∪ defaults env t (serial db)); error := None |}.
Proof.
  intros H Hfk. unfold exec, perform. rewrite H.
  cbn [q_verb q_from Q.single Q.select Q.insert Q.with_verb Q.from].
  rewrite (reference_free db t _ Hfk). cbn.
  unfold shape. cbn. unfold project. cbn.
  rewrite (left_id_L ∅ (∪)). reflexivity.
Qed.

(** The generated columns are strings. *)
Lemma defaults_strings env t n k v :
  defaults env t n !! k = Some v → ∃ s, v = VStr s.
Proof.
  unfold defaults, obj.
  destruct (String.eqb t "business_ideas"); [|destruct (String.eqb t "webhook_logs")];
    cbn [foldl fst snd]; intros H;
    repeat (apply lookup_insert_Some in H as [[_ <-]|[_ H]]; [eauto|]);
    rewrite lookup_empty in H; discriminate.
Qed.

(** A stored row holds JSON. *)
Lemma stored_column_is_json env t n (r : Obj) k :
  jsonify (get k (strip r ∪ defaults env t n)) = get k (strip r ∪ defaults env t n).
Proof.
  unfold get. destruct ((strip r ∪ defaults env t n) !! k) as [v|] eqn:H;
    [|reflexivity]. cbn [default].
  apply lookup_union_Some_raw in H as [H | [_ H]].
  - unfold strip in H. rewrite lookup_omap in H.
    destruct (r !! k) as [x|]; [|discriminate H].
    assert (v = jsonify x) as ->
      by (destruct x; cbn in H; try discriminate H; injection H as <-; reflexivity).
    apply jsonify_idemp.
  - destruct (defaults_strings _ _ _ _ _ H) as [s ->]. reflexivity.
Qed.

(** A log row that references a deal of the table may be stored. *)
Lemma reference_to_member db d (r : Obj) :
  In d (table db "business_ideas") →
  get "business_idea_id" r = get "id" d →
  reference_holds db "webhook_logs" r = true.
Proof.
  intros Hd Hr.
  change (reference_holds db "webhook_logs" r)
    with (match get "business_idea_id" r with
          | VNull | VUndef => true
          | _ => refers "business_idea_id" (table db "business_ideas") r
          end).
  assert (Href : get "business_idea_id" r ≠ VNull →
                 get "business_idea_id" r ≠ VUndef →
                 refers "business_idea_id" (table db "business_ideas") r = true).
  { intros H1 H2. apply existsb_exists. exists d. split; [exact Hd|].
    rewrite Hr in *. apply scalar_eqb_refl; assumption. }
  destruct (get "business_idea_id" r); try reflexivity; apply Href; discriminate.
Qed.

Lemma stored_log_reference env n id :
  get "business_idea_id"
      (strip (ServerJs.form_submission_log id) ∪ defaults env "webhook_logs" n)
  = jsonify id.
Proof.
  unfold get. rewrite lookup_union. unfold strip. rewrite lookup_omap.
  change (ServerJs.form_submission_log id !! "business_idea_id") with (Some id).
  change (defaults env "webhook_logs" n !! "business_idea_id") with (@None value).
  destruct id; reflexivity.
Qed.

Lemma table_insert_ne t t' rows tbls n :
  t ≠ t' →
  table {| tables := <[t := rows]> tbls; serial := n |} t'
  = default [] (tbls !! t').
Proof.
  intros H. unfold table. cbn [tables].
  rewrite lookup_insert_ne by exact H. reflexivity.
Qed.

Lemma form_deal_fields (payload : Obj) :
  ServerJs.form_deal payload !! "source" = Some (VStr "google_form")
  ∧ ServerJs.form_deal payload !! "stage" = Some (VStr "submitted")
  ∧ ∀ k, k ≠ "source" → k ≠ "stage" →
         ServerJs.form_deal payload !! k = payload !! k.
Proof.
  unfold ServerJs.form_deal. repeat split.
  - rewrite lookup_insert_ne by discriminate. apply lookup_insert_eq.
  - apply lookup_insert_eq.
  - intros k H1 H2. rewrite !lookup_insert_ne by congruence. reflexivity.
Qed.

(** C7: whatever the payload holds, the row the form webhook sends to
    [business_ideas] has [source = google_form] and [stage = submitted]
    (its other columns are the payload's), and after a successful insert
    exactly one row is written to [webhook_logs], with action
    [form_submission] and the id of the returned deal.  When the store
    accepts both writes, the deal as stored carries the two forced values
    and each table has grown by the one row. *)
Theorem C7_google_form env req db :
  let o := run (ServerJs.google_form env) req db in
  let row := ServerJs.form_deal (body req) in
  let created :=
    (exec env 0 (Q.from "business_ideas" |> Q.insert [row]
                 |> Q.select [Star] |> Q.single) db).1 in
  inserted "business_ideas" (trace o) = [row]
  ∧ row !! "source" = Some (VStr "google_form")
  ∧ row !! "stage" = Some (VStr "submitted")
  ∧ (∀ k, k ≠ "source" → k ≠ "stage" → row !! k = body req !! k)
  ∧ (∀ d, created = {| data := VObj d; error := None |} →
          inserted "webhook_logs" (trace o)
          = [ServerJs.form_submission_log (get "id" d)]
          ∧ get "action" (ServerJs.form_submission_log (get "id" d))
            = VStr "form_submission"
          ∧ get "business_idea_id" (ServerJs.form_submission_log (get "id" d))
            = get "id" d
          ∧ response o
            = Ok (respond 201 (VObj (obj [("message", VStr "Deal created from form");
                                          ("data", VObj d)]))))
  ∧ (∀ e, error created = Some e →
          inserted "webhook_logs" (trace o) = []
          ∧ response o = Ok (respond 500 (error_body (message e))))
  ∧ (store_fault env 0 = None → store_fault env 1 = None →
     ∃ d, created = {| data := VObj d; error := None |}
          ∧ d !! "source" = Some (VStr "google_form")
          ∧ d !! "stage" = Some (VStr "submitted")
          ∧ table (store_after o) "business_ideas"
            = table db "business_ideas" ++ [d]
          ∧ table (store_after o) "webhook_logs"
            = table db "webhook_logs"
              ++ [strip (ServerJs.form_submission_log (get "id" d))
                  ∪ defaults env "webhook_logs" (S (serial db))]).
Proof.
  intros o row created.
  destruct (form_deal_fields (body req)) as (Hsrc & Hstage & Hrest).
  assert (Hrun : ∀ d, created = {| data := VObj d; error := None |} →
            inserted "business_ideas" (trace o) = [row]
            ∧ inserted "webhook_logs" (trace o)
              = [ServerJs.form_submission_log (get "id" d)]
            ∧ response o
              = Ok (respond 201 (VObj (obj [("message", VStr "Deal created from form");
                                            ("data", VObj d)])))
            ∧ store_after o
              = (exec env 1 (Q.from "webhook_logs"
                             |> Q.insert [ServerJs.form_submission_log (get "id" d)])
                   (exec env 0 (Q.from "business_ideas" |> Q.insert [row]
                                |> Q.select [Star] |> Q.single) db).2).2).
  { intros d Hd. subst o created row. unfold ServerJs.google_form.
    js_simpl. js_exec. injection Hd as -> ->. js_simpl.
    js_exec. repeat split; reflexivity. }
  split; [|split; [|split; [|split; [|split; [|split]]]]]; auto.
  - subst o created row. unfold ServerJs.google_form.
    js_simpl. js_exec. destruct error0; js_simpl; [reflexivity|].
    destruct data0; js_simpl; try js_exec; reflexivity.
  - intros d Hd. destruct (Hrun d Hd) as (_ & ? & ? & _). auto.
  - intros e. subst o created row. unfold ServerJs.google_form.
    js_simpl. js_exec. intros ->. js_simpl. auto.
  - intros H0 H1.
    pose proof (exec_insert_single env 0 "business_ideas" row db H0 eq_refl) as Hd.
    fold created in Hd. eexists. split; [exact Hd|].
    destruct (Hrun _ Hd) as (_ & _ & _ & Hst). rewrite Hst.
    erewrite (exec_write_store env 0);
      [|reflexivity|fold created; rewrite Hd; reflexivity].
    erewrite (exec_write_store env 1); [|reflexivity|].
    2:{ rewrite exec_insert_accepted; [reflexivity|exact H1|].
        cbn [q_from Q.from Q.insert Q.select Q.single Q.with_verb serial tables
             store_rows List.length forallb].
        rewrite andb_true_r.
        apply (reference_to_member _ (strip row ∪ defaults env "business_ideas" (serial db))).
        - rewrite table_insert_eq. apply in_or_app. right. left. reflexivity.
        - rewrite stored_log_reference. apply stored_column_is_json. }
    cbn [q_from Q.from Q.insert Q.select Q.single Q.with_verb serial tables
         store_rows List.length].
    split; [|split; [|split]].
    + apply lookup_union_Some_l, strip_lookup_str, Hsrc.
    + apply lookup_union_Some_l, strip_lookup_str, Hstage.
    + rewrite (table_insert_ne "webhook_logs" "business_ideas") by discriminate.
      rewrite lookup_insert_eq. reflexivity.
    + rewrite table_insert_eq.
      rewrite (table_insert_ne "business_ideas" "webhook_logs") by discriminate.
      replace (serial db + 1)%nat with (S (serial db)) by lia. reflexivity.
Qed.

Lemma C7_google_form_witness :
  inserted "webhook_logs"
    (trace (run (ServerJs.google_form Sample.env0)
                (Sample.request [] [] [("business_name", VStr "Zed"); ("stage", VStr "won")])
                Sample.db0))
  = [ServerJs.form_submission_log (VStr "gen-7")].
Proof.
  refine (proj1 (proj1 (proj2 (proj2 (proj2 (proj2
           (C7_google_form Sample.env0
              (Sample.request [] [] [("business_name", VStr "Zed"); ("stage", VStr "won")])
              Sample.db0)))))
           (obj [("business_name", VStr "Zed"); ("stage", VStr "submitted");
                 ("source", VStr "google_form"); ("id", VStr "gen-7");
                 ("created_at", VStr "2024-01-01T00:00:07")]) _)).
  vm_compute. reflexivity.
Defined.

(** ** Delete *)

Lemma matches_id v (r : Obj) : matches [("id", v)] r = has_id v r.
Proof. unfold matches, has_id. cbn. apply andb_true_r. Qed.

Lemma filter_matches_id v (l : list Obj) :
  List.filter (matches [("id", v)]) l = List.filter (has_id v) l.
Proof. apply filter_ext. intros r. apply matches_id. Qed.

(** A delete of the deals of one id: the rows of that id go, and the log
    rows that reference them are dealt with as the schema says; or the
    delete is refused and nothing changes. *)
Lemma exec_delete_deal env n v db :
  store_fault env n = None →
  exec env n (Q.from "business_ideas" |> Q.delete |> Q.eq "id" v) db
  = match after_delete (on_delete env) "business_idea_id"
            (List.filter (has_id v) (table db "business_ideas"))
            (table db "webhook_logs") with
    | Some logs =>
        ({| data := VNull; error := None |},
         set_table "webhook_logs" logs
           (set_table "business_ideas"
              (List.filter (fun r => negb (has_id v r)) (table db "business_ideas"))
              db))
    | None => ({| data := VNull; error := Some fk_violation |}, db)
    end.
Proof.
  intros H. unfold exec, perform. rewrite H.
  cbv beta iota zeta delta
    [Q.eq Q.delete Q.with_verb Q.from q_from q_eq q_verb q_columns
     Datatypes.app shape].
  change (foreign_key "webhook_logs" "business_ideas")
    with (Some "business_idea_id").
  rewrite filter_matches_id.
  rewrite (filter_ext (fun r => negb (matches [("id", v)] r))
                      (fun r => negb (has_id v r)))
    by (intros r; rewrite matches_id; reflexivity).
  destruct (after_delete _ _ _ _); reflexivity.
Qed.

Lemma filter_twice {A} (f : A → bool) (l : list A) :
  List.filter f (List.filter f l) = List.filter f l.
Proof.
  induction l as [|x l IH]; [reflexivity|]. cbn.
  destruct (f x) eqn:Hx; cbn; rewrite ?Hx, IH; reflexivity.
Qed.

Lemma filter_of_rest {A} (f : A → bool) (l : list A) :
  List.filter f (List.filter (fun x => negb (f x)) l) = [].
Proof.
  induction l as [|x l IH]; [reflexivity|]. cbn.
  destruct (f x) eqn:Hx; cbn; rewrite ?Hx; exact IH.
Qed.

(** Where no row goes, the rows that reference stay as they are. *)
Lemma after_delete_none act fk children :
  after_delete act fk [] children = Some children.
Proof.
  destruct act; cbn.
  - replace (existsb (refers fk []) children) with false; [reflexivity|].
    induction children as [|c l IH]; [reflexivity|exact IH].
  - f_equal. induction children as [|c l IH]; cbn; congruence.
  - f_equal. induction children as [|c l IH]; cbn; congruence.
Qed.

Lemma table_set_eq t rows db : table (set_table t rows db) t = rows.
Proof. apply table_insert_eq. Qed.

Lemma table_set_ne t t' rows db :
  t ≠ t' → table (set_table t rows db) t' = table db t'.
Proof.
  intros H. unfold table, set_table. cbn [tables].
  rewrite lookup_insert_ne by exact H. reflexivity.
Qed.

Lemma set_table_twice t1 r1 t2 r2 db :
  set_table t1 r1 (set_table t2 r2 (set_table t1 r1 (set_table t2 r2 db)))
  = set_table t1 r1 (set_table t2 r2 db).
Proof.
  unfold set_table. cbn [tables serial]. f_equal.
  apply map_eq. intros k.
  destruct (decide (t1 = k)) as [->|H1]; [rewrite !lookup_insert_eq; reflexivity|].
  rewrite !(lookup_insert_ne _ t1) by exact H1.
  destruct (decide (t2 = k)) as [->|H2]; [rewrite !lookup_insert_eq; reflexivity|].
  repeat (rewrite lookup_insert_ne by assumption). reflexivity.
Qed.

(** An authenticated delete, by what the store makes of it. *)
Lemma delete_deal_run env req db user :
  caller env req = Some user →
  let id := of_opt (params req !! "id") in
  let q := Q.from "business_ideas" |> Q.delete |> Q.eq "id" id in
  run (verifyAuth env (ServerJs.delete_deal env)) req db
  = {| response :=
         Ok (match error (exec env 0 q db).1 with
             | None => deleted
             | Some e => respond 500 (error_body (message e))
             end);
       store_after := (exec env 0 q db).2;
       trace := auth_trace req ++ [EQuery q] |}.
Proof.
  intros Hu id q. rewrite (run_protected _ _ _ _ _ Hu).
  unfold ServerJs.delete_deal. fold id q. js_simpl.
  destruct (exec env 0 q db) as [[d [e|]] db1]; reflexivity.
Qed.

(** When the store reports no error on a delete of deals: it has no fault
    on that call, and the schema does not refuse the delete on account of
    a log row that references one of the deals. *)
Lemma delete_reports_no_error env n v db :
  error (exec env n (Q.from "business_ideas" |> Q.delete |> Q.eq "id" v) db).1 = None
  ↔ store_fault env n = None
    ∧ (on_delete env = NoAction →
       existsb (refers "business_idea_id"
                       (List.filter (has_id v) (table db "business_ideas")))
               (table db "webhook_logs") = false).
Proof.
  destruct (store_fault env n) as [msg|] eqn:Hf.
  { rewrite (exec_fault env n _ _ _ Hf). split; [discriminate|]. intros [[=] _]. }
  rewrite (exec_delete_deal env n v db Hf).
  destruct (on_delete env); cbn [after_delete].
  - destruct (existsb _ _); cbn; split; auto; try discriminate.
    intros [_ H]. discriminate (H eq_refl).
  - split; auto. intros _. split; [reflexivity|discriminate].
  - split; auto. intros _. split; [reflexivity|discriminate].
Qed.

(** C9: an authenticated delete on which the store reports no error is
    answered with the fixed success message, whatever rows the table
    holds; it leaves the table without the rows the filter on the path id
    selects, and running the same request again gives the same answer and
    the same store.  (A delete on which the store reports an error is
    answered 500 with the store's message and changes nothing.) *)
Theorem C9_delete_idempotent env req db user :
  caller env req = Some user →
  let h := verifyAuth env (ServerJs.delete_deal env) in
  let reply :=
    (exec env 0 (Q.from "business_ideas" |> Q.delete
                 |> Q.eq "id" (of_opt (params req !! "id"))) db).1 in
  let once := run h req db in
  let twice := run h req (store_after once) in
  (error reply = None →
   response once = Ok deleted
   ∧ table (store_after once) "business_ideas"
     = List.filter (fun r => negb (scalar_eqb (get "id" r)
                                     (wire (of_opt (params req !! "id")))))
                   (table db "business_ideas")
   ∧ response twice = Ok deleted
   ∧ store_after twice = store_after once)
  ∧ (∀ e, error reply = Some e →
       response once = Ok (respond 500 (error_body (message e)))
       ∧ store_after once = db).
Proof.
  intros Hu h reply once twice.
  set (id := of_opt (params req !! "id")) in *.
  pose proof (delete_deal_run env req db user Hu) as Honce.
  cbv zeta in Honce. fold id h once in Honce. fold reply in Honce.
  split.
  2:{ intros e He. rewrite Honce, He. cbn [response store_after].
      split; [reflexivity|]. eapply exec_failed. exact He. }
  intros Hok. subst reply.
  assert (Hf : store_fault env 0 = None).
  { unfold exec in Hok. destruct (store_fault env 0); [discriminate Hok|reflexivity]. }
  rewrite (exec_delete_deal env 0 id db Hf) in Hok, Honce.
  destruct (after_delete _ _ _ _) as [logs|] eqn:Hlogs; [|discriminate Hok].
  cbn [fst snd error] in Honce.
  set (kept := List.filter (fun r => negb (has_id id r)) (table db "business_ideas"))
    in *.
  set (db1 := set_table "webhook_logs" logs (set_table "business_ideas" kept db))
    in *.
  assert (Hdeals : table db1 "business_ideas" = kept).
  { subst db1. rewrite table_set_ne by discriminate. apply table_set_eq. }
  pose proof (delete_deal_run env req db1 user Hu) as Htwice.
  cbv zeta in Htwice. fold id h in Htwice.
  rewrite (exec_delete_deal env 0 id db1 Hf) in Htwice.
  rewrite Hdeals in Htwice. unfold kept in Htwice.
  rewrite !filter_of_rest, !filter_twice, !after_delete_none in Htwice.
  fold kept in Htwice.
  assert (Hlogs1 : table db1 "webhook_logs" = logs) by apply table_set_eq.
  rewrite Hlogs1 in Htwice. cbn [fst snd error] in Htwice.
  subst twice. rewrite Honce. cbn [response store_after]. rewrite Htwice.
  cbn [response store_after].
  split; [reflexivity|]. split; [exact Hdeals|]. split; [reflexivity|].
  apply set_table_twice.
Qed.

Lemma C9_delete_idempotent_witness :
  response (run (verifyAuth Sample.env0 (ServerJs.delete_deal Sample.env0))
                (Sample.request Sample.as_alice [("id", "no-such-deal")] [])
                Sample.db0) = Ok deleted
  ∧ table (store_after
             (run (verifyAuth Sample.env0 (ServerJs.delete_deal Sample.env0))
                  (Sample.request Sample.as_alice [("id", "d-1")] [])
                  Sample.db0)) "business_ideas" = [].
Proof.
  split.
  - apply (proj1 (C9_delete_idempotent Sample.env0
                    (Sample.request Sample.as_alice [("id", "no-such-deal")] [])
                    Sample.db0 Sample.alice eq_refl) eq_refl).
  - etransitivity.
    + apply (proj1 (C9_delete_idempotent Sample.env0
                      (Sample.request Sample.as_alice [("id", "d-1")] [])
                      Sample.db0 Sample.alice eq_refl) eq_refl).
    + vm_compute. reflexivity.
Defined.

(** ** Ordering and the log listing *)

Lemma value_leb_total a b : value_leb a b = true ∨ value_leb b a = true.
Proof.
  destruct a, b; cbn; auto.
  - destruct b, b0; auto.
  - destruct (Z.leb_spec n n0); [auto|]. right. apply Z.leb_le. lia.
  - apply String.leb_total.
Qed.

Lemma row_leb_total c asc r1 r2 :
  row_leb c asc r1 r2 = true ∨ row_leb c asc r2 r1 = true.
Proof. unfold row_leb. destruct asc; apply value_leb_total. Qed.

Section Sorting.
Context {A : Type} (leb : A → A → bool).
Hypothesis leb_total : ∀ a b, leb a b = true ∨ leb b a = true.

Let R (a b : A) : Prop := leb a b = true.

Lemma insert_sorted_HdRel a x l :
  R a x → HdRel R a l → HdRel R a (insert_sorted leb x l).
Proof.
  intros Hax Hl. destruct l as [|y l]; cbn.
  - constructor. exact Hax.
  - destruct (leb x y); constructor; [exact Hax|].
    inversion Hl; assumption.
Qed.

Lemma insert_sorted_Sorted x l :
  Sorted R l → Sorted R (insert_sorted leb x l).
Proof.
  induction 1 as [|y l Hs IH Hhd]; cbn.
  - repeat constructor.
  - destruct (leb x y) eqn:Hxy.
    + constructor; [constructor; assumption|]. constructor. exact Hxy.
    + constructor; [exact IH|].
      apply insert_sorted_HdRel; [|exact Hhd].
      destruct (leb_total x y) as [H|H]; [congruence|exact H].
Qed.

Lemma sort_rows_Sorted l : Sorted R (sort_rows leb l).
Proof.
  unfold sort_rows. induction l as [|x l IH]; cbn [foldr]; [constructor|].
  apply insert_sorted_Sorted, IH.
Qed.

Lemma insert_sorted_length x l :
  List.length (insert_sorted leb x l) = S (List.length l).
Proof.
  induction l as [|y l IH]; cbn; [reflexivity|].
  destruct (leb x y); cbn; [reflexivity|]. rewrite IH. reflexivity.
Qed.

Lemma sort_rows_length l : List.length (sort_rows leb l) = List.length l.
Proof.
  unfold sort_rows. induction l as [|x l IH]; cbn [foldr]; [reflexivity|].
  rewrite insert_sorted_length, IH. reflexivity.
Qed.

Lemma insert_sorted_In z x l : In z (insert_sorted leb x l) → z = x ∨ In z l.
Proof.
  induction l as [|y l IH]; cbn.
  - intros [<-|[]]. auto.
  - destruct (leb x y); cbn.
    + intros [<-|[<-|H]]; auto.
    + intros [<-|H]; [auto|]. destruct (IH H); auto.
Qed.

Lemma sort_rows_In z l : In z (sort_rows leb l) → In z l.
Proof.
  unfold sort_rows. induction l as [|x l IH]; cbn [foldr]; [auto|].
  intros H. destruct (insert_sorted_In _ _ _ H) as [<-|H']; [left|right]; auto.
Qed.

End Sorting.

Lemma Sorted_take {A} (R : A → A → Prop) n l :
  Sorted R l → Sorted R (take n l).
Proof.
  intros H. revert n. induction H as [|x l Hs IH Hhd]; intros [|n]; cbn;
    try constructor.
  - apply IH.
  - destruct Hhd; destruct n; cbn; constructor. assumption.
Qed.

Lemma Sorted_fmap {A B} (R : A → A → Prop) (R' : B → B → Prop) (f : A → B) l :
  (∀ a b, R a b → R' (f a) (f b)) →
  Sorted R l → Sorted R' (f <$> l).
Proof.
  intros Hf. induction 1 as [|x l Hs IH Hhd]; cbn; constructor.
  - exact IH.
  - destruct Hhd; cbn; constructor. auto.
Qed.

Lemma In_take {A} (x : A) n l : In x (take n l) → In x l.
Proof.
  revert n. induction l as [|y l IH]; intros [|n]; cbn; try tauto.
  intros [?|?]; eauto.
Qed.

Lemma mapM_total {A B} (f : A → option B) (g : A → B) l :
  (∀ x, f x = Some (g x)) → mapM f l = Some (g <$> l).
Proof.
  intros Hf. induction l as [|x l IH]; cbn; [reflexivity|].
  rewrite Hf, IH. reflexivity.
Qed.

Lemma filter_all {A} (l : list A) : List.filter (fun _ => true) l = l.
Proof. induction l as [|x l IH]; cbn; congruence. Qed.


Lemma project_with_deal db log :
  project db "webhook_logs" [Star; Embed "business_ideas"] log
  = Some (with_deal db log).
Proof.
  unfold project, with_deal, joined_deal. cbn [foldl].
  cbn [mbind option_bind project_col].
  rewrite (left_id_L ∅ (∪)). reflexivity.
Qed.

Lemma exec_get_webhooks env db :
  store_fault env 0 = None →
  exec env 0 (Q.from "webhook_logs" |> Q.select [Star; Embed "business_ideas"]
              |> Q.order "triggered_at" false |> Q.limit 50) db
  = ({| data := VArr (VObj <$> (with_deal db
                        <$> take 50 (sort_rows (row_leb "triggered_at" false)
                                               (table db "webhook_logs"))));
        error := None |}, db).
Proof.
  intros H. unfold exec, perform. rewrite H. cbn.
  rewrite filter_all. unfold shape. cbn.
  rewrite (mapM_total _ (with_deal db)) by apply project_with_deal.
  reflexivity.
Qed.

Lemma joined_deal_spec db log :
  match joined_deal db log with
  | VObj d => In d (table db "business_ideas")
              ∧ scalar_eqb (get "id" d) (get "business_idea_id" log) = true
  | VNull => ∀ d, In d (table db "business_ideas") →
                  scalar_eqb (get "id" d) (get "business_idea_id" log) = false
  | _ => False
  end.
Proof.
  unfold joined_deal.
  destruct (List.find _ _) as [d|] eqn:Hf.
  - apply find_some in Hf. exact Hf.
  - intros d Hd. apply (find_none _ _ Hf d Hd).
Qed.

(** C8: a successful listing of the webhook log returns at most 50 rows
    (all of them when the table holds fewer), newest trigger time first;
    each is a row of [webhook_logs] extended with its deal under the key
    [business_ideas]: the row of [business_ideas] the log references, or
    null when there is none. *)
Theorem C8_webhook_listing env req db user resp :
  caller env req = Some user →
  response (run (verifyAuth env (ServerJs.get_webhooks env)) req db) = Ok resp →
  status resp = 200 →
  ∃ rows : list Obj,
    json resp = VArr (VObj <$> rows)
    ∧ (List.length rows ≤ 50)%nat
    ∧ List.length rows = (50 `min` List.length (table db "webhook_logs"))%nat
    ∧ Sorted newer_first rows
    ∧ Forall (fun row =>
                ∃ log, In log (table db "webhook_logs")
                       ∧ row = <["business_ideas" := joined_deal db log]> log
                       ∧ match joined_deal db log with
                         | VObj d =>
                             In d (table db "business_ideas")
                             ∧ scalar_eqb (get "id" d)
                                          (get "business_idea_id" log) = true
                         | VNull =>
                             ∀ d, In d (table db "business_ideas") →
                                  scalar_eqb (get "id" d)
                                             (get "business_idea_id" log) = false
                         | _ => False
                         end) rows.
Proof.
  intros Hu Hresp Hstatus.
  rewrite (run_protected _ _ _ _ _ Hu) in Hresp.
  unfold ServerJs.get_webhooks in Hresp. js_simpl.
  destruct (store_fault env 0) as [msg|] eqn:Hf.
  { unfold exec in Hresp. rewrite Hf in Hresp. js_simpl.
    injection Hresp as <-. discriminate Hstatus. }
  rewrite (exec_get_webhooks env db Hf) in Hresp. js_simpl.
  injection Hresp as <-. clear Hstatus.
  set (sorted := sort_rows (row_leb "triggered_at" false) (table db "webhook_logs")).
  exists (with_deal db <$> take 50 sorted).
  assert (Hlen : List.length (with_deal db <$> take 50 sorted)
                 = (50 `min` List.length (table db "webhook_logs"))%nat).
  { rewrite length_fmap, length_take. subst sorted.
    rewrite sort_rows_length. reflexivity. }
  split; [reflexivity|]. split; [lia|]. split; [exact Hlen|]. split.
  - apply (Sorted_fmap (fun a b => row_leb "triggered_at" false a b = true)).
    + intros a b Hab. unfold newer_first, with_deal, get.
      rewrite !lookup_insert_ne by discriminate. exact Hab.
    + apply Sorted_take, sort_rows_Sorted. apply row_leb_total.
  - apply Forall_forall. intros row Hrow.
    apply list_elem_of_In, in_map_iff in Hrow. destruct Hrow as (log & <- & Hin).
    exists log. split; [|split; [reflexivity|apply joined_deal_spec]].
    eapply sort_rows_In, In_take, Hin.
Qed.

Lemma C8_webhook_listing_witness :
  ∃ rows : list Obj,
    VArr [VObj (with_deal Sample.db0 Sample.log2);
          VObj (with_deal Sample.db0 Sample.log1)] = VArr (VObj <$> rows)
    ∧ (List.length rows ≤ 50)%nat
    ∧ Sorted newer_first rows.
Proof.
  destruct (C8_webhook_listing Sample.env0
              (Sample.request Sample.as_bob [] []) Sample.db0 Sample.bob
              (res_json (VArr [VObj (with_deal Sample.db0 Sample.log2);
                               VObj (with_deal Sample.db0 Sample.log1)]))
              eq_refl ltac:(vm_compute; reflexivity) eq_refl)
    as (rows & H1 & H2 & _ & H3 & _).
  exists rows. auto.
Defined.

(** ** The admin-only user listing *)

Lemma exec_select_store env n q db :
  q_verb q = Select → (exec env n q db).2 = db.
Proof.
  intros Hq. unfold exec, perform. rewrite Hq.
  destruct (store_fault env n); [reflexivity|]. cbv zeta. cbn [fst].
  destruct (error _); reflexivity.
Qed.

(** part_001: no profile, or a role other than [admin], is a 403; an admin
    gets what the listing read returns, or a 500 with its error. *)
Lemma part_001_get_users env req db user :
  caller env req = Some user →
  let profile := data (exec env 0 (role_of user) db).1 in
  let listing := (exec env 1 all_users db).1 in
  response (run (verifyAuth env (Part001.get_users env)) req db)
  = Ok (if truthy profile then users_answer (field profile "role") listing
        else admin_required).
Proof.
  intros Hu profile listing. subst profile listing.
  rewrite (run_protected _ _ _ _ _ Hu).
  pose proof (exec_select_store env 0 (role_of user) db eq_refl) as Hdb.
  unfold Part001.get_users, users_answer. fold (role_of user) all_users.
  js_simpl. js_exec. subst.
  destruct data0; js_simpl; js_finish.
Qed.

(** server.js: the same, except that a null profile is dereferenced. *)
Lemma server_js_get_users env req db user :
  caller env req = Some user →
  let profile := data (exec env 0 (role_of user) db).1 in
  let listing := (exec env 1 all_users db).1 in
  response (run (verifyAuth env (ServerJs.get_users env)) req db)
  = Ok (match profile with
        | VNull => respond 500 (error_body
                     "Cannot read properties of null (reading 'role')")
        | VUndef => respond 500 (error_body
                      "Cannot read properties of undefined (reading 'role')")
        | _ => users_answer (field profile "role") listing
        end).
Proof.
  intros Hu profile listing. subst profile listing.
  rewrite (run_protected _ _ _ _ _ Hu).
  pose proof (exec_select_store env 0 (role_of user) db eq_refl) as Hdb.
  unfold ServerJs.get_users, users_answer. fold (role_of user) all_users.
  js_simpl. js_exec. subst.
  destruct data0; js_simpl; js_finish.
Qed.

Lemma project_star db t r : project db t [Star] r = Some r.
Proof.
  unfold project. cbn [foldl mbind option_bind project_col].
  rewrite (left_id_L ∅ (∪)). reflexivity.
Qed.

(** On the reference store the listing is the whole table, ordered by
    user name. *)
Lemma exec_all_users env n db :
  store_fault env n = None →
  ∃ rows, (exec env n all_users db).1
          = {| data := VArr (VObj <$> rows); error := None |}
          ∧ Sorted by_username rows
          ∧ List.length rows = List.length (table db "user_profiles")
          ∧ ∀ r, In r rows → In r (table db "user_profiles").
Proof.
  intros H.
  exists (sort_rows (row_leb "username" true) (table db "user_profiles")).
  split; [|split; [|split]].
  - unfold exec, perform. rewrite H. cbn. rewrite filter_all. unfold shape. cbn.
    rewrite (mapM_total _ (fun r => r)) by apply project_star.
    rewrite list_fmap_id. reflexivity.
  - apply (sort_rows_Sorted (row_leb "username" true)), row_leb_total.
  - apply sort_rows_length.
  - intros r. apply sort_rows_In.
Qed.

(** C1, on the code: in server.js an authenticated caller without a
    UserProfile row gets a 500 from the user listing, the TypeError of
    reading [role] of null, where part_001 answers 403. *)
Theorem C1_server_js_absent_profile_is_500 :
  caller Sample.env0 (Sample.request Sample.as_bob [] []) = Some Sample.bob
  ∧ List.filter (matches [("id", VStr (user_id Sample.bob))])
                (table Sample.db0 "user_profiles") = []
  ∧ response (run (verifyAuth Sample.env0 (ServerJs.get_users Sample.env0))
                  (Sample.request Sample.as_bob [] []) Sample.db0)
    = Ok (respond 500 (error_body
            "Cannot read properties of null (reading 'role')"))
  ∧ response (run (verifyAuth Sample.env0 (Part001.get_users Sample.env0))
                  (Sample.request Sample.as_bob [] []) Sample.db0)
    = Ok admin_required.
Proof. repeat split; vm_compute; reflexivity. Qed.

(** ** The profile route *)

(** server.js: the read's error, such as the one [single] gives for a
    missing row, becomes a 500. *)
Lemma server_js_get_user_profile env req db user :
  caller env req = Some user →
  let found := (exec env 0 (profile_of user) db).1 in
  response (run (verifyAuth env (ServerJs.get_user_profile env)) req db)
  = Ok (match error found with
        | Some e => respond 500 (error_body (message e))
        | None => res_json (data found)
        end).
Proof.
  intros Hu found. subst found.
  rewrite (run_protected _ _ _ _ _ Hu).
  unfold ServerJs.get_user_profile. fold (profile_of user).
  js_simpl. js_finish.
Qed.

Lemma exec_single_none env n q db :
  q_verb q = Select → q_columns q = Some [Star] → q_order q = None →
  q_limit q = None → q_single q = true →
  store_fault env n = None →
  List.filter (matches (q_eq q)) (table db (q_from q)) = [] →
  (exec env n q db).1 = {| data := VNull; error := Some single_error |}.
Proof.
  intros Hv Hc Ho Hl Hs Hf Hrows. unfold exec, perform. rewrite Hf, Hv. cbn [fst].
  unfold shape. rewrite Hc, Ho, Hl, Hs, Hrows. reflexivity.
Qed.

Lemma newProfile_fields user username :
  Part001.newProfile user username !! "username" = Some (VStr username)
  ∧ Part001.newProfile user username !! "role" = Some (VStr "user").
Proof. split; reflexivity. Qed.

(** part_001: a caller with an e-mail address always gets a 200; when the
    read yields no row the profile sent has the local part of the address
    as user name and the role [user], whether the insert fails or not. *)
Lemma part_001_get_user_profile env req db user email :
  caller env req = Some user →
  user_email user = Some email →
  let found := (exec env 0 (profile_of user) db).1 in
  ∃ v, response (run (verifyAuth env (Part001.get_user_profile env)) req db)
       = Ok (res_json v)
       ∧ (truthy (data found) && negb (present (error found)) = true →
          v = data found)
       ∧ (truthy (data found) && negb (present (error found)) = false →
          ∃ p, v = VObj p
               ∧ p !! "username" = Some (VStr (local_part email))
               ∧ p !! "role" = Some (VStr "user")).
Proof.
  intros Hu Hmail found. subst found.
  rewrite (run_protected _ _ _ _ _ Hu).
  pose proof (exec_select_store env 0 (profile_of user) db eq_refl) as Hdb.
  destruct (newProfile_fields user (local_part email)) as [Hn Hr].
  unfold Part001.get_user_profile. fold (profile_of user).
  js_simpl. rewrite Hmail. js_simpl. js_exec. subst.
  assert (Hcase : (truthy data0 = true ∧ present error0 = false)
                  ∨ (if truthy data0 then if present error0 then false else true
                     else false) = false).
  { destruct (truthy data0), (present error0); auto. }
  destruct Hcase as [[-> ->] | ->]; js_simpl.
  - eexists. split; [reflexivity|]. split; [reflexivity|discriminate].
  - pose proof (exec_insert_single env 1 "user_profiles"
                  (Part001.newProfile user (local_part email)) db) as Hins.
    js_simpl.
    destruct (exec env 1 _ db) as [[cdata cerr] db2] eqn:E2. js_simpl.
    destruct cerr as [e|]; cbn [present]; js_simpl.
    + eexists. split; [reflexivity|]. split; [discriminate|]. eauto.
    + destruct (store_fault env 1) as [msg|] eqn:Hf.
      { unfold exec in E2. rewrite Hf in E2. discriminate. }
      injection (Hins eq_refl eq_refl) as ->.
      eexists. split; [reflexivity|]. split; [discriminate|]. intros _.
      eexists. split; [reflexivity|].
      split; apply lookup_union_Some_l, strip_lookup_str; assumption.
Qed.

(** C2, on the code: in server.js an authenticated caller without a
    UserProfile row gets a 500 from the profile route (the error of
    [single] on an empty result), where part_001 creates and returns the
    default profile, and returns it as well when the insert fails. *)
Theorem C2_server_js_profile_missing_is_500 :
  caller Sample.env0 (Sample.request Sample.as_bob [] []) = Some Sample.bob
  ∧ List.filter (matches [("id", VStr (user_id Sample.bob))])
                (table Sample.db0 "user_profiles") = []
  ∧ response (run (verifyAuth Sample.env0 (ServerJs.get_user_profile Sample.env0))
                  (Sample.request Sample.as_bob [] []) Sample.db0)
    = Ok (respond 500 (error_body (message single_error)))
  ∧ response (run (verifyAuth Sample.env0 (Part001.get_user_profile Sample.env0))
                  (Sample.request Sample.as_bob [] []) Sample.db0)
    = Ok (res_json (VObj (obj [("id", VStr "u-2"); ("username", VStr "bob");
                               ("email", VStr "bob@example.com");
                               ("role", VStr "user"); ("full_name", VNull)])))
  ∧ response
      (run (verifyAuth
              (Sample.with_store_fault
                 (fun n => if (n =? 1)%nat then Some "permission denied" else None)
                 Sample.env0)
              (Part001.get_user_profile
                 (Sample.with_store_fault
                    (fun n => if (n =? 1)%nat then Some "permission denied" else None)
                    Sample.env0)))
           (Sample.request Sample.as_bob [] []) Sample.db0)
    = Ok (res_json (VObj (obj [("id", VStr "u-2"); ("username", VStr "bob");
                               ("email", VStr "bob@example.com");
                               ("role", VStr "user"); ("full_name", VNull)]))).
Proof. repeat split; vm_compute; reflexivity. Qed.

(** ** The two routes on the reference store *)

Lemma exec_role_of env n user db :
  store_fault env n = None →
  (exec env n (role_of user) db).1
  = match List.filter (matches [("id", VStr (user_id user))])
                      (table db "user_profiles") with
    | [p] => {| data := VObj (<["role" := default VNull (p !! "role")]> ∅);
                error := None |}
    | _ => {| data := VNull; error := Some single_error |}
    end.
Proof.
  intros H. unfold exec, perform. rewrite H.
  cbv beta iota zeta delta
    [role_of Q.single Q.eq Q.select Q.from q_from q_eq q_verb q_columns
     q_order q_limit q_single app fst shape].
  rewrite (mapM_total _ (fun p : Obj => <["role" := default VNull (p !! "role")]> ∅))
    by reflexivity.
  destruct (List.filter _ _) as [|p [|p' l]]; reflexivity.
Qed.

Lemma get_insert_eq k v (o : Obj) : get k (<[k := v]> o) = v.
Proof. unfold get. rewrite lookup_insert_eq. reflexivity. Qed.

Lemma strict_eq_str_default (o : Obj) k lit :
  strict_eq_str (default VNull (o !! k)) lit = strict_eq_str (get k o) lit.
Proof. unfold get. destruct (o !! k); reflexivity. Qed.

(** part_001 on the store: without exactly one profile row of the caller,
    or with a role other than [admin], the answer is 403; for an admin it
    is the whole profile table ordered by user name. *)
Lemma part_001_get_users_on_store env req db user :
  caller env req = Some user →
  store_fault env 0 = None →
  store_fault env 1 = None →
  let o := run (verifyAuth env (Part001.get_users env)) req db in
  match List.filter (matches [("id", VStr (user_id user))])
                    (table db "user_profiles") with
  | [p] =>
      if strict_eq_str (get "role" p) "admin"
      then ∃ rows, response o = Ok (res_json (VArr (VObj <$> rows)))
                   ∧ Sorted by_username rows
                   ∧ List.length rows = List.length (table db "user_profiles")
                   ∧ ∀ r, In r rows → In r (table db "user_profiles")
      else response o = Ok admin_required
  | _ => response o = Ok admin_required
  end.
Proof.
  intros Hu H0 H1 o. subst o.
  pose proof (part_001_get_users env req db user Hu) as Hrun.
  cbv zeta in Hrun.
  rewrite (exec_role_of env 0 user db H0) in Hrun.
  destruct (exec_all_users env 1 db H1) as (rows & Hrows & Hsorted & Hlen & Hin).
  destruct (List.filter _ _) as [|p [|p' l]]; try exact Hrun.
  cbn [data truthy field] in Hrun. unfold users_answer in Hrun.
  rewrite get_insert_eq, strict_eq_str_default in Hrun.
  destruct (strict_eq_str (get "role" p) "admin"); [|exact Hrun].
  cbn [negb] in Hrun. rewrite Hrows in Hrun. cbn [error data] in Hrun. eauto.
Qed.

(** server.js on the store: a caller without a profile row gets the 500
    of the TypeError. *)
Lemma server_js_get_users_absent env req db user :
  caller env req = Some user →
  store_fault env 0 = None →
  List.filter (matches [("id", VStr (user_id user))])
              (table db "user_profiles") = [] →
  response (run (verifyAuth env (ServerJs.get_users env)) req db)
  = Ok (respond 500 (error_body
          "Cannot read properties of null (reading 'role')")).
Proof.
  intros Hu H0 Hnone.
  pose proof (server_js_get_users env req db user Hu) as Hrun.
  cbv zeta in Hrun. rewrite Hrun. clear Hrun.
  rewrite (exec_role_of env 0 user db H0), Hnone. reflexivity.
Qed.

(** server.js on the store: a caller without a profile row gets a 500 from
    the profile route. *)
Lemma server_js_get_user_profile_absent env req db user :
  caller env req = Some user →
  store_fault env 0 = None →
  List.filter (matches [("id", VStr (user_id user))])
              (table db "user_profiles") = [] →
  response (run (verifyAuth env (ServerJs.get_user_profile env)) req db)
  = Ok (respond 500 (error_body (message single_error))).
Proof.
  intros Hu H0 Hnone.
  pose proof (server_js_get_user_profile env req db user Hu) as Hrun.
  cbv zeta in Hrun. rewrite Hrun. clear Hrun.
  rewrite (exec_single_none env 0 (profile_of user) db) by (reflexivity || assumption).
  reflexivity.
Qed.

(** part_001: for a caller without an e-mail address and without a usable
    profile row, [split] is called on undefined in the [try] block and
    again in the [catch] block; the second TypeError is not caught and no
    response is sent. *)
Lemma part_001_get_user_profile_no_email env req db user :
  caller env req = Some user →
  user_email user = None →
  let found := (exec env 0 (profile_of user) db).1 in
  truthy (data found) && negb (present (error found)) = false →
  response (run (verifyAuth env (Part001.get_user_profile env)) req db)
  = Throw {| message := "Cannot read properties of undefined (reading 'split')" |}.
Proof.
  intros Hu Hmail found. subst found.
  rewrite (run_protected _ _ _ _ _ Hu).
  unfold Part001.get_user_profile. fold (profile_of user).
  js_simpl. rewrite Hmail. js_simpl. js_exec.
  intros ->. reflexivity.
Qed.

(** part_000 has no 503 branch: whatever the SMTP settings are, the route
    starts by fetching the deal. *)
Lemma part_000_send_outreach_fetches env req db user :
  caller env req = Some user →
  ∃ rest,
    queries (trace (run (verifyAuth env (Part000.send_outreach env)) req db))
    = ServerJs.deal_by_id (get "dealId" (body req)) :: rest.
Proof.
  intros Hu. rewrite (run_protected _ _ _ _ _ Hu).
  destruct (auth_trace_quiet req "") as (_ & Hq & _ & _).
  unfold Part000.send_outreach, ServerJs.send_outreach_with, queries in *.
  js_simpl. js_exec.
  destruct error0; js_simpl.
  { rewrite flat_map_app, Hq. eexists. reflexivity. }
  destruct data0; js_simpl;
    try (rewrite flat_map_app, Hq; eexists; reflexivity).
  all: match goal with
       | |- context [smtp_reject ?e ?t ?m] => destruct (smtp_reject e t m)
       end; js_simpl.
  all: try js_exec.
  all: rewrite !flat_map_app, Hq; eexists; reflexivity.
Qed.

(** * Further properties of the handlers *)

Ltac js_split :=
  repeat (js_simpl;
    match goal with
    | E : exec ?e ?n ?q ?db = _ |- context [exec ?e ?n ?q ?db] => rewrite E
    | |- context [exec ?e ?n ?q ?db] =>
        let E := fresh "E" in
        destruct (exec e n q db) as [[? ?] ?] eqn:E
    | |- context [smtp_reject ?e ?t ?m] => destruct (smtp_reject e t m) eqn:?
    | |- context [http_post ?e ?u ?i] => destruct (http_post e u i) eqn:?
    | |- context [match ?x with Some _ => _ | None => _ end] => destruct x eqn:?
    | |- context [match ?x with VUndef => _ | _ => _ end] => destruct x eqn:?
    | |- context [if ?c then _ else _] => destruct c eqn:?
    end).

(** ** Tokens *)

Lemma substring_all s : String.substring 0 (String.length s) s = s.
Proof. induction s as [|c s IH]; cbn; [reflexivity|]. rewrite IH. reflexivity. Qed.

Lemma bearer_prefix t : String.prefix "Bearer " ("Bearer " +:+ t) = true.
Proof. apply String.prefix_correct. destruct t; reflexivity. Qed.

Lemma bearer_rest t :
  String.substring 7 (String.length ("Bearer " +:+ t) - 7) ("Bearer " +:+ t) = t.
Proof.
  change (String.substring 0 (String.length t - 0) t = t).
  rewrite Nat.sub_0_r. apply substring_all.
Qed.

Lemma bearer_token_of_header req t :
  headers req !! "authorization" = Some ("Bearer " +:+ t) →
  bearer_token req = Some t.
Proof.
  intros H. unfold bearer_token. rewrite H, bearer_prefix, bearer_rest.
  reflexivity.
Qed.

(** A bearer token the identity provider does not resolve to a user (it
    reports an error, resolves to no user, or the call itself fails) is
    answered 401 on every protected route of every revision; the provider
    was asked about exactly the text after [Bearer ], nothing else was
    called and the store is as it was. *)
Theorem invalid_token_is_401 env url rev route h req db t :
  app env url rev route = Some h →
  bearer_protected route = true →
  headers req !! "authorization" = Some ("Bearer " +:+ t) →
  resolved (getUser env t) = false →
  run h req db
  = {| response := Ok (refused (getUser env t)); store_after := db;
       trace := [EGetUser t] |}.
Proof.
  intros Happ Hprot Hh Hres.
  assert (Hgate : ∀ next,
            run (verifyAuth env next) req db
            = {| response := Ok (refused (getUser env t)); store_after := db;
                 trace := [EGetUser t] |}).
  { intros next. unfold run, verifyAuth.
    rewrite Hh, bearer_prefix, bearer_rest.
    change (truthy (VStr ("Bearer " +:+ t))) with true.
    js_simpl. unfold resolved in Hres.
    destruct (getUser env t) as [[u|] [e|] | e]; try discriminate; reflexivity. }
  destruct route; try discriminate Hprot; destruct rev; simpl in Happ;
    try discriminate Happ; injection Happ as <-; apply Hgate.
Qed.

Lemma invalid_token_is_401_witness :
  run (verifyAuth Sample.env0 (ServerJs.get_deals Sample.env0))
      (Sample.request [("authorization", "Bearer expired")] [] []) Sample.db0
  = {| response := Ok (respond 401 (error_body "Invalid token"));
       store_after := Sample.db0; trace := [EGetUser "expired"] |}.
Proof.
  apply (invalid_token_is_401 Sample.env0 None server_js GET_deals _
           (Sample.request [("authorization", "Bearer expired")] [] [])
           Sample.db0 "expired"); reflexivity.
Defined.

(** ** Upstream failures *)

Ltac js_trace Hq Hm Hp :=
  unfold queries, mails, posts in *;
  rewrite ?flat_map_app, ?Hq, ?Hm, ?Hp; cbn [flat_map Datatypes.app List.length].

(** When the store answers the first call of a route with an error and the
    route checks it, the request is answered 500 with the store's message
    verbatim; the route stops there: one store call, no mail, no outbound
    POST, and the store is as it was. *)
Theorem upstream_failure_is_500 env url rev route h req db msg :
  app env url rev route = Some h →
  throws_first_error env rev route = true →
  (bearer_protected route = true → is_Some (caller env req)) →
  store_fault env 0 = Some msg →
  let o := run h req db in
  response o = Ok (respond 500 (error_body msg))
  ∧ store_after o = db
  ∧ List.length (queries (trace o)) = 1%nat
  ∧ mails (trace o) = [] ∧ posts (trace o) = [].
Proof.
  intros Happ Hthrows Hauth Hf.
  destruct (auth_trace_quiet req "") as (_ & Hq & Hm & Hp).
  destruct route; try discriminate Hthrows;
    destruct rev; try discriminate Hthrows;
    simpl in Happ; try discriminate Happ; injection Happ as <-;
    try (destruct (Hauth eq_refl) as [user Hu];
         cbv zeta; rewrite (run_protected _ _ _ _ _ Hu)).
  all: unfold ServerJs.get_deals, ServerJs.post_deals, ServerJs.put_deal,
         ServerJs.delete_deal, ServerJs.send_outreach, Part000.send_outreach,
         ServerJs.send_outreach_with, ServerJs.google_form,
         ServerJs.trigger_outreach, ServerJs.get_webhooks,
         ServerJs.get_user_profile.
  all: try (cbn [throws_first_error transport_of] in Hthrows;
            destruct (ServerJs.transporter env); [|discriminate Hthrows]).
  all: js_simpl; rewrite (exec_fault env 0 _ _ _ Hf); js_simpl.
  all: js_trace Hq Hm Hp; auto.
Qed.

Lemma upstream_failure_is_500_witness :
  response
    (run (verifyAuth (Sample.with_store_fault (fun _ => Some "connection refused")
                                              Sample.env0)
            (ServerJs.get_deals
               (Sample.with_store_fault (fun _ => Some "connection refused")
                                        Sample.env0)))
         (Sample.request Sample.as_alice [] []) Sample.db0)
  = Ok (respond 500 (error_body "connection refused")).
Proof.
  apply (upstream_failure_is_500
           (Sample.with_store_fault (fun _ => Some "connection refused") Sample.env0)
           None server_js GET_deals _
           (Sample.request Sample.as_alice [] []) Sample.db0 "connection refused"
           eq_refl eq_refl).
  - intros _. exists Sample.alice. reflexivity.
  - reflexivity.
Defined.

(** ** Deals on the reference store *)

Lemma insert_sorted_perm {A} (leb : A → A → bool) x l :
  insert_sorted leb x l ≡ₚ x :: l.
Proof.
  induction l as [|y l IH]; cbn; [reflexivity|].
  destruct (leb x y); [reflexivity|].
  rewrite IH. apply Permutation_swap.
Qed.

Lemma sort_rows_perm {A} (leb : A → A → bool) l : sort_rows leb l ≡ₚ l.
Proof.
  unfold sort_rows. induction l as [|x l IH]; cbn [foldr]; [reflexivity|].
  rewrite insert_sorted_perm, IH. reflexivity.
Qed.

(** A listing of a whole table in a given order. *)
Lemma exec_list env n t c asc db :
  store_fault env n = None →
  exec env n (Q.from t |> Q.select [Star] |> Q.order c asc) db
  = ({| data := VArr (VObj <$> sort_rows (row_leb c asc) (table db t));
        error := None |}, db).
Proof.
  intros H. unfold exec, perform. rewrite H. cbn. rewrite filter_all. unfold shape. cbn.
  rewrite (mapM_total _ (fun r => r)) by apply project_star.
  rewrite list_fmap_id. reflexivity.
Qed.

Lemma get_deals_run env req db user :
  caller env req = Some user →
  store_fault env 0 = None →
  let o := run (verifyAuth env (ServerJs.get_deals env)) req db in
  ∃ rows, response o = Ok (res_json (VArr (VObj <$> rows)))
          ∧ rows ≡ₚ table db "business_ideas"
          ∧ Sorted created_first rows
          ∧ store_after o = db.
Proof.
  intros Hu Hf o. subst o. rewrite (run_protected _ _ _ _ _ Hu).
  unfold ServerJs.get_deals. js_simpl.
  rewrite (exec_list env 0 _ _ _ _ Hf). js_simpl.
  eexists. split; [reflexivity|]. split; [apply sort_rows_perm|].
  split; [|reflexivity].
  apply (sort_rows_Sorted (row_leb "created_at" false)), row_leb_total.
Qed.

(** The deal listing returns every row of [business_ideas], each once,
    newest creation time first, without a limit, and leaves the store as
    it was. *)
Theorem get_deals_lists_every_deal env req db user :
  caller env req = Some user →
  store_fault env 0 = None →
  let o := run (verifyAuth env (ServerJs.get_deals env)) req db in
  ∃ rows, response o = Ok (res_json (VArr (VObj <$> rows)))
          ∧ rows ≡ₚ table db "business_ideas"
          ∧ Sorted created_first rows
          ∧ store_after o = db.
Proof. exact (get_deals_run env req db user). Qed.

Lemma get_deals_lists_every_deal_witness :
  ∃ rows,
    response (run (verifyAuth Sample.env0 (ServerJs.get_deals Sample.env0))
                  (Sample.request Sample.as_bob [] []) Sample.db0)
    = Ok (res_json (VArr (VObj <$> rows)))
    ∧ rows ≡ₚ [Sample.acme].
Proof.
  destruct (get_deals_lists_every_deal Sample.env0
              (Sample.request Sample.as_bob [] []) Sample.db0 Sample.bob
              eq_refl eq_refl) as (rows & H1 & H2 & _).
  exists rows. split; [exact H1|exact H2].
Defined.

Lemma strip_lookup_undef (o : Obj) k :
  get k o = VUndef → strip o !! k = None.
Proof.
  unfold get, strip. rewrite lookup_omap.
  destruct (o !! k) as [v|]; [|reflexivity]. cbn. intros ->. reflexivity.
Qed.

Lemma post_deals_run env req db user :
  caller env req = Some user →
  store_fault env 0 = None →
  let o := run (verifyAuth env (ServerJs.post_deals env)) req db in
  response o = Ok (respond 201 (VObj (stored_deal env db (body req))))
  ∧ store_after o
    = {| tables := <["business_ideas" := table db "business_ideas"
                                         ++ [stored_deal env db (body req)]]>
                     (tables db);
         serial := (serial db + 1)%nat |}.
Proof.
  intros Hu Hf o. subst o. rewrite (run_protected _ _ _ _ _ Hu).
  pose proof (exec_insert_single env 0 "business_ideas" (body req) db Hf eq_refl)
    as H1.
  pose proof (exec_write_store env 0
                (Q.from "business_ideas" |> Q.insert [body req]
                 |> Q.select [Star] |> Q.single) [body req] db eq_refl) as H2.
  rewrite H1 in H2. specialize (H2 eq_refl).
  unfold ServerJs.post_deals. js_simpl. js_exec.
  injection H1 as -> ->. subst. js_simpl. split; reflexivity.
Qed.

(** Creating a deal stores the payload as it is (its defined fields, as
    JSON, plus a generated id when it names none), answers 201 with the
    stored row, and touches no other table; a deal listing that follows
    contains the row. *)
Theorem created_deal_is_listed env env' req req' db user user' :
  caller env req = Some user →
  store_fault env 0 = None →
  caller env' req' = Some user' →
  store_fault env' 0 = None →
  let created := stored_deal env db (body req) in
  let o := run (verifyAuth env (ServerJs.post_deals env)) req db in
  response o = Ok (respond 201 (VObj created))
  ∧ table (store_after o) "business_ideas"
    = table db "business_ideas" ++ [created]
  ∧ (∀ t, t ≠ "business_ideas" → table (store_after o) t = table db t)
  ∧ (∀ k v, body req !! k = Some v → v ≠ VUndef →
            created !! k = Some (jsonify v))
  ∧ (∀ k v, body req !! k = Some v → is_json v = true → created !! k = Some v)
  ∧ (get "id" (body req) = VUndef →
     created !! "id" = Some (VStr (gen_id env (serial db))))
  ∧ ∃ rows,
      response (run (verifyAuth env' (ServerJs.get_deals env')) req'
                    (store_after o))
      = Ok (res_json (VArr (VObj <$> rows)))
      ∧ In created rows.
Proof.
  intros Hu Hf Hu' Hf' created o.
  destruct (post_deals_run env req db user Hu Hf) as [Hr Hs].
  fold o created in Hr, Hs.
  assert (Htab : table (store_after o) "business_ideas"
                 = table db "business_ideas" ++ [created]).
  { rewrite Hs. apply table_insert_eq. }
  split; [exact Hr|]. split; [exact Htab|]. split; [|split; [|split; [|split]]].
  - intros t Ht. rewrite Hs.
    rewrite (table_insert_ne "business_ideas" t) by congruence. reflexivity.
  - intros k v Hk Hv. apply lookup_union_Some_l, strip_lookup; assumption.
  - intros k v Hk Hv. apply lookup_union_Some_l.
    rewrite <- (jsonify_json v Hv). apply strip_lookup; [exact Hk|].
    intros ->. discriminate Hv.
  - intros Hid. subst created. unfold stored_deal.
    rewrite lookup_union_r by (apply strip_lookup_undef, Hid). reflexivity.
  - destruct (get_deals_run env' req' (store_after o) user' Hu' Hf')
      as (rows & Hrows & Hperm & _).
    exists rows. split; [exact Hrows|].
    apply list_elem_of_In. rewrite Hperm, Htab.
    apply list_elem_of_In, in_or_app. right. left. reflexivity.
Qed.

Lemma created_deal_is_listed_witness :
  response (run (verifyAuth Sample.env0 (ServerJs.post_deals Sample.env0))
                (Sample.request Sample.as_alice [] [("business_name", VStr "Zed")])
                Sample.db0)
  = Ok (respond 201
          (VObj (stored_deal Sample.env0 Sample.db0
                   (obj [("business_name", VStr "Zed")])))).
Proof.
  apply (created_deal_is_listed Sample.env0 Sample.env0
           (Sample.request Sample.as_alice [] [("business_name", VStr "Zed")])
           (Sample.request Sample.as_bob [] []) Sample.db0 Sample.alice Sample.bob);
    reflexivity.
Defined.

Lemma map_no_hit {A} (f : A → bool) (g : A → A) (l : list A) :
  List.filter f l = [] → List.map (fun x => if f x then g x else x) l = l.
Proof.
  induction l as [|x l IH]; cbn; [reflexivity|].
  destruct (f x); [discriminate|]. intros H. rewrite (IH H). reflexivity.
Qed.

(** Where no row gets another key, the rows that reference stay as they
    are. *)
Lemma after_rekey_none act fk key children :
  after_rekey act fk key [] children = Some children.
Proof.
  destruct act; cbn.
  - replace (existsb (refers fk []) children) with false; [reflexivity|].
    induction children as [|c l IH]; [reflexivity|exact IH].
  - f_equal. induction children as [|c l IH]; cbn; congruence.
  - f_equal. induction children as [|c l IH]; cbn; congruence.
Qed.

Lemma after_rekey_length act fk key moved children logs :
  after_rekey act fk key moved children = Some logs →
  List.length logs = List.length children.
Proof.
  destruct act; cbn.
  - destruct (existsb _ _); [discriminate|]. intros [= <-]. reflexivity.
  - intros [= <-]. apply length_map.
  - intros [= <-]. apply length_map.
Qed.

Lemma put_deal_run env req db user :
  caller env req = Some user →
  run (verifyAuth env (ServerJs.put_deal env)) req db
  = {| response :=
         Ok (match error (exec env 0 (put_query req) db).1 with
             | None => res_json (data (exec env 0 (put_query req) db).1)
             | Some e => respond 500 (error_body (message e))
             end);
       store_after := (exec env 0 (put_query req) db).2;
       trace := auth_trace req ++ [EQuery (put_query req)] |}.
Proof.
  intros Hu. rewrite (run_protected _ _ _ _ _ Hu).
  unfold ServerJs.put_deal. fold (put_query req). js_simpl.
  destruct (exec env 0 (put_query req) db) as [[d [e|]] db1]; reflexivity.
Qed.

(** What an update of deals does to the tables, whatever it sets: no row
    is added or removed anywhere, and only the deals and the log rows that
    reference them can change. *)
Lemma exec_update_tables env n req db :
  let db1 := (exec env n (put_query req) db).2 in
  List.length (table db1 "business_ideas") = List.length (table db "business_ideas")
  ∧ List.length (table db1 "webhook_logs") = List.length (table db "webhook_logs")
  ∧ ∀ t, t ≠ "business_ideas" → t ≠ "webhook_logs" → table db1 t = table db t.
Proof.
  cbv zeta.
  destruct (exec_store_cases env n (put_query req) db) as [-> | ->]; [auto|].
  unfold perform.
  cbv beta iota zeta delta
    [put_query Q.single Q.eq Q.select Q.update Q.with_verb Q.from q_from q_eq
     q_verb q_columns q_order q_limit q_single Datatypes.app].
  destruct (bool_decide _); [cbn; auto|].
  destruct (negb _); [cbn; auto|].
  change (foreign_key "webhook_logs" "business_ideas")
    with (Some "business_idea_id").
  cbv beta iota.
  destruct (strip (body req) !! "id") as [key|].
  - destruct (after_rekey _ _ _ _ _) as [logs|] eqn:Hlogs; [|cbn; auto].
    cbn [snd]. rewrite table_set_eq, !table_set_ne, table_set_eq by discriminate.
    split; [apply length_map|]. split.
    + eapply after_rekey_length, Hlogs.
    + intros t H1 H2. rewrite !table_set_ne by congruence. reflexivity.
  - cbn [snd]. rewrite table_set_eq, !table_set_ne by discriminate.
    split; [apply length_map|]. split; [reflexivity|].
    intros t H1 H2. rewrite !table_set_ne by congruence. reflexivity.
Qed.

(** An update that sets nothing touches no row, so [single] has no row to
    return. *)
Lemma exec_update_nothing env n req db :
  store_fault env n = None →
  strip (body req) = ∅ →
  exec env n (put_query req) db
  = ({| data := VNull; error := Some single_error |}, db).
Proof.
  intros Hf Hempty. eapply exec_refused; [exact Hf| |reflexivity].
  unfold perform.
  cbv beta iota zeta delta
    [put_query Q.single Q.eq Q.select Q.update Q.with_verb Q.from q_from q_eq
     q_verb q_columns q_order q_limit q_single Datatypes.app].
  rewrite bool_decide_eq_true_2 by exact Hempty. reflexivity.
Qed.

(** An update that finds no row of the id has no row to return either. *)
Lemma exec_update_no_hit env n req db :
  store_fault env n = None →
  List.filter (has_id (of_opt (params req !! "id"))) (table db "business_ideas") = [] →
  exec env n (put_query req) db
  = ({| data := VNull; error := Some single_error |}, db).
Proof.
  intros Hf Hnone. eapply exec_refused; [exact Hf| |reflexivity].
  unfold perform.
  cbv beta iota zeta delta
    [put_query Q.single Q.eq Q.select Q.update Q.with_verb Q.from q_from q_eq
     q_verb q_columns q_order q_limit q_single Datatypes.app].
  rewrite filter_matches_id, Hnone.
  destruct (bool_decide _); [reflexivity|].
  cbn [List.map forallb negb].
  change (foreign_key "webhook_logs" "business_ideas")
    with (Some "business_idea_id").
  cbv beta iota.
  destruct (strip (body req) !! "id") as [key|]; [|reflexivity].
  cbn [List.filter]. rewrite after_rekey_none. reflexivity.
Qed.

(** An update that sets something, but not the id, of the one row of the
    id. *)
Lemma exec_update_one env n req db r :
  store_fault env n = None →
  strip (body req) ≠ ∅ →
  strip (body req) !! "id" = None →
  List.filter (has_id (of_opt (params req !! "id"))) (table db "business_ideas") = [r] →
  exec env n (put_query req) db
  = ({| data := VObj (strip (body req) ∪ r); error := None |},
     set_table "business_ideas"
       (List.map (fun x => if has_id (of_opt (params req !! "id")) x
                           then strip (body req) ∪ x else x)
                 (table db "business_ideas")) db).
Proof.
  intros Hf Hsome Hnoid Hone. eapply exec_done; [exact Hf| |reflexivity].
  unfold perform.
  cbv beta iota zeta delta
    [put_query Q.single Q.eq Q.select Q.update Q.with_verb Q.from q_from q_eq
     q_verb q_columns q_order q_limit q_single Datatypes.app].
  rewrite filter_matches_id, Hone.
  rewrite bool_decide_eq_false_2 by exact Hsome.
  rewrite (reference_free db "business_ideas" _ eq_refl). cbn [negb].
  change (foreign_key "webhook_logs" "business_ideas")
    with (Some "business_idea_id").
  rewrite Hnoid. cbv beta iota.
  rewrite (map_ext (fun x => if matches [("id", of_opt (params req !! "id"))] x
                             then strip (body req) ∪ x else x)
                   (fun x => if has_id (of_opt (params req !! "id")) x
                             then strip (body req) ∪ x else x))
    by (intros x; rewrite matches_id; reflexivity).
  unfold shape. cbn.
  unfold project. cbn. rewrite (left_id_L ∅ (∪)). reflexivity.
Qed.

(** An update merges the payload, as JSON, onto the rows the filter on the
    path id selects: the payload's defined fields win, the other fields
    stay.  A payload that sets nothing updates no row, so the answer is 500
    whatever the table holds; so it is (not 404) when no row has the id;
    both leave every table as it was.  With one row of the id and a payload
    that sets something but not the id, the answer is the merged row and
    no log row changes.  An update never adds or removes a row, of deals
    or of logs, and touches no table but these two. *)
Theorem update_merges_or_fails env req db user :
  caller env req = Some user →
  store_fault env 0 = None →
  let id := of_opt (params req !! "id") in
  let o := run (verifyAuth env (ServerJs.put_deal env)) req db in
  let hits := List.filter (has_id id) (table db "business_ideas") in
  List.length (table (store_after o) "business_ideas")
  = List.length (table db "business_ideas")
  ∧ List.length (table (store_after o) "webhook_logs")
    = List.length (table db "webhook_logs")
  ∧ (∀ t, t ≠ "business_ideas" → t ≠ "webhook_logs" →
          table (store_after o) t = table db t)
  ∧ (strip (body req) = ∅ →
     response o = Ok (respond 500 (error_body (message single_error)))
     ∧ store_after o = db)
  ∧ (hits = [] →
     response o = Ok (respond 500 (error_body (message single_error)))
     ∧ store_after o = db)
  ∧ (∀ r, strip (body req) ≠ ∅ → get "id" (body req) = VUndef → hits = [r] →
       response o = Ok (res_json (VObj (strip (body req) ∪ r)))
       ∧ (∀ k v, body req !! k = Some v → v ≠ VUndef →
                 (strip (body req) ∪ r) !! k = Some (jsonify v))
       ∧ (∀ k v, body req !! k = Some v → is_json v = true →
                 (strip (body req) ∪ r) !! k = Some v)
       ∧ (∀ k, get k (body req) = VUndef →
               (strip (body req) ∪ r) !! k = r !! k)
       ∧ table (store_after o) "business_ideas"
         = List.map (fun x => if has_id id x then strip (body req) ∪ x else x)
                    (table db "business_ideas")
       ∧ table (store_after o) "webhook_logs" = table db "webhook_logs").
Proof.
  intros Hu Hf id o hits.
  pose proof (put_deal_run env req db user Hu) as Hrun. fold o in Hrun.
  destruct (exec_update_tables env 0 req db) as (Hlen & Hlogs & Hrest).
  rewrite Hrun. cbn [response store_after].
  split; [exact Hlen|]. split; [exact Hlogs|]. split; [exact Hrest|].
  split; [|split].
  - intros Hempty. rewrite (exec_update_nothing env 0 req db Hf Hempty).
    split; reflexivity.
  - intros Hnone. rewrite (exec_update_no_hit env 0 req db Hf Hnone).
    split; reflexivity.
  - intros r Hsome Hnoid Hone.
    rewrite (exec_update_one env 0 req db r Hf Hsome
               (strip_lookup_undef _ _ Hnoid) Hone).
    cbn [fst snd data error].
    split; [reflexivity|]. split; [|split; [|split; [|split]]].
    + intros k v Hk Hv. apply lookup_union_Some_l, strip_lookup; assumption.
    + intros k v Hk Hv. apply lookup_union_Some_l.
      rewrite <- (jsonify_json v Hv). apply strip_lookup; [exact Hk|].
      intros ->. discriminate Hv.
    + intros k Hk. apply lookup_union_r, strip_lookup_undef, Hk.
    + apply table_set_eq.
    + apply table_set_ne. discriminate.
Qed.

Lemma update_merges_or_fails_witness :
  response (run (verifyAuth Sample.env0 (ServerJs.put_deal Sample.env0))
                (Sample.request Sample.as_alice [("id", "d-1")] [])
                Sample.db0)
  = Ok (respond 500 (error_body (message single_error)))
  ∧ store_after
      (run (verifyAuth Sample.env0 (ServerJs.put_deal Sample.env0))
           (Sample.request Sample.as_alice [("id", "d-1")] [])
           Sample.db0)
    = Sample.db0.
Proof.
  apply (proj1 (proj2 (proj2 (proj2
           (update_merges_or_fails Sample.env0
              (Sample.request Sample.as_alice [("id", "d-1")] [])
              Sample.db0 Sample.alice eq_refl eq_refl))))).
  reflexivity.
Defined.

Lemma filter_keeps_all {A} (f : A → bool) (l : list A) :
  Forall (fun x => f x = true) l → List.filter f l = l.
Proof.
  induction 1 as [|x l Hx _ IH]; cbn; [reflexivity|]. rewrite Hx, IH. reflexivity.
Qed.

Lemma filter_drops_all {A} (f : A → bool) (l : list A) :
  Forall (fun x => f x = false) l → List.filter f l = [].
Proof.
  induction 1 as [|x l Hx _ IH]; cbn; [reflexivity|]. rewrite Hx. exact IH.
Qed.

(** Rows that nothing references can go under every schema. *)
Lemma after_delete_unreferenced act fk gone children :
  Forall (fun c => refers fk gone c = false) children →
  after_delete act fk gone children = Some children.
Proof.
  intros H. destruct act; cbn.
  - replace (existsb (refers fk gone) children) with false; [reflexivity|].
    induction H as [|c l Hc _ IH]; cbn; [reflexivity|]. rewrite Hc. exact IH.
  - f_equal. apply filter_keeps_all.
    eapply Forall_impl; [exact H|]. intros c Hc. cbn in Hc. rewrite Hc. reflexivity.
  - f_equal. induction H as [|c l Hc _ IH]; cbn; [reflexivity|].
    rewrite Hc, IH. reflexivity.
Qed.

(** Creating a deal and then deleting it by the generated id gives back
    every table as it was, provided the generated id is new: no row of the
    table has it and no log row references it. *)
Theorem create_then_delete_restores env env' req req' db user user' :
  caller env req = Some user →
  store_fault env 0 = None →
  caller env' req' = Some user' →
  store_fault env' 0 = None →
  get "id" (body req) = VUndef →
  params req' !! "id" = Some (gen_id env (serial db)) →
  Forall (fun r => has_id (VStr (gen_id env (serial db))) r = false)
         (table db "business_ideas") →
  Forall (fun c => scalar_eqb (VStr (gen_id env (serial db)))
                              (get "business_idea_id" c) = false)
         (table db "webhook_logs") →
  let created := run (verifyAuth env (ServerJs.post_deals env)) req db in
  let gone := run (verifyAuth env' (ServerJs.delete_deal env')) req'
                  (store_after created) in
  response gone = Ok deleted
  ∧ ∀ t, table (store_after gone) t = table db t.
Proof.
  intros Hu Hf Hu' Hf' Hnoid Hid Hfresh Hunref created gone.
  destruct (post_deals_run env req db user Hu Hf) as [_ Hs].
  fold created in Hs. subst gone.
  set (new := stored_deal env db (body req)) in *.
  set (id := VStr (gen_id env (serial db))) in *.
  assert (Hnew : get "id" new = id).
  { unfold new, stored_deal, get.
    rewrite lookup_union_r by (apply strip_lookup_undef, Hnoid). reflexivity. }
  assert (Hdeals : table (store_after created) "business_ideas"
                   = table db "business_ideas" ++ [new]).
  { rewrite Hs. apply table_insert_eq. }
  assert (Hlogs : table (store_after created) "webhook_logs"
                  = table db "webhook_logs").
  { rewrite Hs. rewrite (table_insert_ne "business_ideas" "webhook_logs")
      by discriminate. reflexivity. }
  assert (Hhit : has_id id new = true).
  { unfold has_id. rewrite Hnew. apply String.eqb_refl. }
  rewrite (delete_deal_run env' req' _ user' Hu').
  cbv zeta. rewrite Hid. cbn [of_opt]. fold id.
  rewrite (exec_delete_deal env' 0 id _ Hf'), Hdeals, Hlogs.
  rewrite !List.filter_app. cbn [List.filter]. rewrite Hhit. cbn [negb].
  rewrite (filter_drops_all (has_id id)) by exact Hfresh.
  rewrite filter_keeps_all
    by (eapply Forall_impl; [exact Hfresh|]; intros r Hr; cbn in Hr;
        rewrite Hr; reflexivity).
  rewrite app_nil_r. cbn [Datatypes.app].
  rewrite after_delete_unreferenced.
  2:{ eapply Forall_impl; [exact Hunref|]. intros c Hc. cbv beta in Hc.
      unfold refers. cbn [existsb]. rewrite Hnew, Hc. reflexivity. }
  cbn [fst snd error response store_after].
  split; [reflexivity|]. intros t.
  destruct (decide ("webhook_logs" = t)) as [<-|H1]; [apply table_set_eq|].
  rewrite table_set_ne by exact H1.
  destruct (decide ("business_ideas" = t)) as [<-|H2]; [apply table_set_eq|].
  rewrite table_set_ne by exact H2. rewrite Hs.
  apply (table_insert_ne "business_ideas" t). exact H2.
Qed.

Lemma create_then_delete_restores_witness :
  table (store_after
           (run (verifyAuth Sample.env0 (ServerJs.delete_deal Sample.env0))
                (Sample.request Sample.as_bob [("id", "gen-7")] [])
                (store_after
                   (run (verifyAuth Sample.env0 (ServerJs.post_deals Sample.env0))
                        (Sample.request Sample.as_alice []
                                        [("business_name", VStr "Zed")])
                        Sample.db0)))) "business_ideas"
  = table Sample.db0 "business_ideas".
Proof.
  apply (create_then_delete_restores Sample.env0 Sample.env0
           (Sample.request Sample.as_alice [] [("business_name", VStr "Zed")])
           (Sample.request Sample.as_bob [("id", "gen-7")] [])
           Sample.db0 Sample.alice Sample.bob); try reflexivity;
    repeat constructor.
Defined.

(** ** Log writes whose outcome is not looked at *)

(** When the store takes the deal of a form submission but refuses the log
    row, the form webhook still answers 201 with the created deal: the deal
    is stored, [webhook_logs] is as it was, and nothing tells the caller. *)
Theorem form_log_failure_is_silent env req db msg :
  store_fault env 0 = None →
  store_fault env 1 = Some msg →
  let o := run (ServerJs.google_form env) req db in
  let d := stored_deal env db (ServerJs.form_deal (body req)) in
  response o
  = Ok (respond 201 (VObj (obj [("message", VStr "Deal created from form");
                                ("data", VObj d)])))
  ∧ table (store_after o) "business_ideas" = table db "business_ideas" ++ [d]
  ∧ table (store_after o) "webhook_logs" = table db "webhook_logs".
Proof.
  intros H0 H1 o d. subst o d.
  pose proof (exec_insert_single env 0 "business_ideas"
                (ServerJs.form_deal (body req)) db H0 eq_refl) as Hd.
  pose proof (exec_write_store env 0
                (Q.from "business_ideas"
                 |> Q.insert [ServerJs.form_deal (body req)]
                 |> Q.select [Star] |> Q.single) _ db eq_refl) as Hs.
  rewrite Hd in Hs. specialize (Hs eq_refl).
  unfold ServerJs.google_form. js_simpl. js_exec.
  injection Hd as -> ->. subst. js_simpl.
  rewrite (exec_fault env 1 _ _ _ H1). js_simpl.
  split; [reflexivity|]. split.
  - apply table_insert_eq.
  - rewrite (table_insert_ne "business_ideas" "webhook_logs") by discriminate.
    reflexivity.
Qed.

Lemma form_log_failure_is_silent_witness :
  table (store_after
           (run (ServerJs.google_form
                   (Sample.with_store_fault
                      (fun n => if (n =? 1)%nat then Some "logs are read-only" else None)
                      Sample.env0))
                (Sample.request [] [] [("business_name", VStr "Zed")])
                Sample.db0)) "webhook_logs"
  = table Sample.db0 "webhook_logs".
Proof.
  apply (form_log_failure_is_silent
           (Sample.with_store_fault
              (fun n => if (n =? 1)%nat then Some "logs are read-only" else None)
              Sample.env0)
           (Sample.request [] [] [("business_name", VStr "Zed")])
           Sample.db0 "logs are read-only"); reflexivity.
Defined.

(** A request to the inbound external webhook that carries the configured
    secret (or any request when none is configured) is answered 200 with
    the echo whatever the store does with the log row; the only store call
    is that one insert, so no deal is ever looked up; when the store
    refuses the row the store is as it was.  The row references the deal
    id of the payload, or null when the payload has none (or a falsy one). *)
Theorem external_webhook_accepts env req db :
  (truthy_opt (WEBHOOK_SECRET env) = true →
   headers req !! "x-webhook-secret" = WEBHOOK_SECRET env) →
  let o := run (ServerJs.outreach_external env) req db in
  let log := ServerJs.outreach_external_log req in
  response o = Ok (respond 200 (ServerJs.outreach_external_echo env req))
  ∧ queries (trace o) = [Q.from "webhook_logs" |> Q.insert [log]]
  ∧ (∀ msg, store_fault env 0 = Some msg → store_after o = db)
  ∧ get "business_idea_id" log
    = (if truthy (get "dealId" (body req)) then get "dealId" (body req)
       else VNull).
Proof.
  intros Hsec o log. subst o log.
  unfold ServerJs.outreach_external, run.
  assert (Hpass : truthy_opt (WEBHOOK_SECRET env)
                  && negb (bool_decide (headers req !! "x-webhook-secret"
                                        = WEBHOOK_SECRET env)) = false).
  { destruct (truthy_opt (WEBHOOK_SECRET env)); [|reflexivity].
    rewrite bool_decide_eq_true_2 by auto. reflexivity. }
  rewrite Hpass.
  split; [|split; [|split]].
  - js_simpl. js_exec. reflexivity.
  - js_simpl. js_exec. reflexivity.
  - intros msg Hf. js_simpl. rewrite (exec_fault env 0 _ _ _ Hf). reflexivity.
  - reflexivity.
Qed.

Lemma external_webhook_accepts_witness :
  response (run (ServerJs.outreach_external
                   (Sample.with_secret (Some "s3cret") Sample.env0))
                (Sample.request [("x-webhook-secret", "s3cret")] []
                                [("email", VStr "ann@acme.test")])
                Sample.db0)
  = Ok (respond 200
          (ServerJs.outreach_external_echo
             (Sample.with_secret (Some "s3cret") Sample.env0)
             (Sample.request [("x-webhook-secret", "s3cret")] []
                             [("email", VStr "ann@acme.test")]))).
Proof.
  apply (external_webhook_accepts
           (Sample.with_secret (Some "s3cret") Sample.env0)
           (Sample.request [("x-webhook-secret", "s3cret")] []
                           [("email", VStr "ann@acme.test")])
           Sample.db0).
  intros _. reflexivity.
Defined.

(** ** Outreach *)

Lemma send_outreach_fetched env t user dealId st deal db1 :
  exec env (st_calls st) (ServerJs.deal_by_id dealId) (st_store st)
  = ({| data := VObj deal; error := None |}, db1) →
  let mail := mail_for env (VObj deal) in
  let log := ServerJs.send_outreach_log user dealId (get "contact_email" deal) in
  let out := ServerJs.send_outreach_with env t user dealId st in
  mails (st_trace out.2) = mails (st_trace st) ++ [mail]
  ∧ match smtp_reject env t mail with
    | Some msg =>
        out.1 = Throw {| message := msg |}
        ∧ inserted "webhook_logs" (st_trace out.2)
          = inserted "webhook_logs" (st_trace st)
        ∧ st_store out.2 = db1
    | None =>
        out.1 = Ok (res_json (VObj (obj [("message",
                                          VStr "Outreach email sent successfully")])))
        ∧ inserted "webhook_logs" (st_trace out.2)
          = inserted "webhook_logs" (st_trace st) ++ [log]
    end.
Proof.
  destruct st as [db n tr]. cbn [st_calls st_store st_trace].
  intros He.
  unfold ServerJs.send_outreach_with, mail_for, field, mails, inserted.
  js_simpl. rewrite He. js_simpl.
  destruct (smtp_reject env t _); js_simpl; [|js_exec];
    rewrite !flat_map_app; cbn [flat_map Datatypes.app];
    rewrite ?app_nil_r; auto.
Qed.

(** With a mail transport and a deal that is found, the send-outreach
    route sends exactly one mail, to the deal's contact address and from the
    configured sender.  If the relay accepts it the answer is 200 and one
    [send_outreach] row naming the caller and the recipient is written,
    whatever the store then does with that row; if the relay rejects it the
    answer is 500 with the relay's message. *)
Theorem send_outreach_delivers env req db user t deal :
  caller env req = Some user →
  ServerJs.transporter env = Some t →
  (exec env 0 (ServerJs.deal_by_id (get "dealId" (body req))) db).1
  = {| data := VObj deal; error := None |} →
  let o := run (verifyAuth env (ServerJs.send_outreach env)) req db in
  let mail := mail_for env (VObj deal) in
  let log := ServerJs.send_outreach_log user (get "dealId" (body req))
               (get "contact_email" deal) in
  mails (trace o) = [mail]
  ∧ mail_to mail = get "contact_email" deal
  ∧ mail_from mail = of_opt (SMTP_FROM env)
  ∧ posts (trace o) = []
  ∧ (smtp_reject env t mail = None →
     response o
     = Ok (res_json (VObj (obj [("message",
                                 VStr "Outreach email sent successfully")])))
     ∧ inserted "webhook_logs" (trace o) = [log]
     ∧ get "triggered_by" log = of_opt (user_email user)
     ∧ get "action" log = VStr "send_outreach")
  ∧ (∀ msg, smtp_reject env t mail = Some msg →
       response o = Ok (respond 500 (error_body msg))).
Proof.
  intros Hu Ht He o mail log.
  destruct (exec env 0 _ db) as [rep db1] eqn:E. cbn [fst] in He. subst rep.
  pose proof (send_outreach_fetched env t user (get "dealId" (body req))
                (after_auth req db) deal db1 E) as H.
  cbv zeta in H. fold mail log in H.
  destruct (auth_trace_quiet req "webhook_logs") as (Hi & Hq & Hm & Hp).
  change (st_trace (after_auth req db)) with (auth_trace req) in H.
  rewrite Hi, Hm in H. cbn [Datatypes.app] in H.
  assert (Hrun : o = let '(r, st) :=
                       try_catch (ServerJs.send_outreach_with env t user
                                    (get "dealId" (body req)))
                                 catch_500 (after_auth req db) in
                     {| response := r; store_after := st_store st;
                        trace := st_trace st |}).
  { subst o. rewrite (run_protected _ _ _ _ _ Hu).
    unfold ServerJs.send_outreach. rewrite Ht. reflexivity. }
  assert (Hposts : posts (trace o) = []).
  { rewrite Hrun. unfold ServerJs.send_outreach_with, posts.
    js_simpl. rewrite E. js_simpl.
    destruct (smtp_reject env t _); js_simpl; [|js_exec];
      rewrite !flat_map_app; fold (posts (auth_trace req)); rewrite Hp;
      reflexivity. }
  rewrite Hrun. unfold try_catch, catch_500, ret.
  destruct (ServerJs.send_outreach_with env t user _ _) as [r st] eqn:Hout.
  cbn [fst snd] in H. destruct H as [Hmails H].
  assert (Htrace : trace (let '(r0, st0) :=
                            match r with
                            | Ok a => (Ok a, st)
                            | Throw e => (Ok (respond 500 (error_body (message e))), st)
                            end in
                          {| response := r0; store_after := st_store st0;
                             trace := st_trace st0 |}) = st_trace st).
  { destruct r; reflexivity. }
  rewrite Hrun in Hposts. unfold try_catch, catch_500, ret in Hposts.
  rewrite Hout in Hposts.
  rewrite Htrace in *.
  split; [exact Hmails|]. split; [reflexivity|]. split; [reflexivity|].
  split; [exact Hposts|]. split.
  - intros Hok. rewrite Hok in H. destruct H as [-> Hins].
    cbn [response]. auto.
  - intros msg Hrej. rewrite Hrej in H. destruct H as (-> & _ & _).
    reflexivity.
Qed.

Lemma send_outreach_delivers_witness :
  mails (trace (run (verifyAuth (Sample.with_smtp Sample.env0)
                       (ServerJs.send_outreach (Sample.with_smtp Sample.env0)))
                    (Sample.request Sample.as_alice [] [("dealId", VStr "d-1")])
                    Sample.db0))
  = [mail_for (Sample.with_smtp Sample.env0) (VObj Sample.acme)].
Proof.
  apply (send_outreach_delivers (Sample.with_smtp Sample.env0)
           (Sample.request Sample.as_alice [] [("dealId", VStr "d-1")])
           Sample.db0 Sample.alice
           {| smtp_host := Some "smtp.example.com"; smtp_port := Some "587";
              smtp_user := Some "mailer"; smtp_pass := Some "pw" |}
           Sample.acme eq_refl eq_refl).
  vm_compute. reflexivity.
Defined.

Lemma exec_deal_by_id_none env n dealId db :
  store_fault env n = None →
  List.filter (has_id dealId) (table db "business_ideas") = [] →
  exec env n (ServerJs.deal_by_id dealId) db
  = ({| data := VNull; error := Some single_error |}, db).
Proof.
  intros Hf Hnone.
  pose proof (exec_single_none env n (ServerJs.deal_by_id dealId) db
                eq_refl eq_refl eq_refl eq_refl eq_refl Hf) as H1.
  pose proof (exec_select_store env n (ServerJs.deal_by_id dealId) db eq_refl) as H2.
  destruct (exec env n _ db) as [rep db']. cbn [fst snd] in *. subst db'.
  rewrite H1; [reflexivity|].
  change (q_eq (ServerJs.deal_by_id dealId)) with [("id", dealId)].
  rewrite filter_matches_id. exact Hnone.
Qed.

(** Outreach for a deal that is not in the table (or a request that names
    no deal) is answered 500 with the store's not-exactly-one-row message,
    on both outreach routes: nothing is mailed, posted or logged, and the
    store is as it was. *)
Theorem outreach_for_unknown_deal env url rev route h req db user :
  route = POST_webhook_send_outreach ∨ route = POST_webhook_trigger_outreach →
  app env url rev route = Some h →
  caller env req = Some user →
  (route = POST_webhook_send_outreach → is_Some (transport_of env rev)) →
  store_fault env 0 = None →
  List.filter (has_id (get "dealId" (body req))) (table db "business_ideas") = [] →
  let o := run h req db in
  response o = Ok (respond 500 (error_body (message single_error)))
  ∧ mails (trace o) = [] ∧ posts (trace o) = []
  ∧ inserted "webhook_logs" (trace o) = []
  ∧ store_after o = db.
Proof.
  intros Hroute Happ Hu Htr Hf Hnone.
  destruct (auth_trace_quiet req "webhook_logs") as (Hi & Hq & Hm & Hp).
  pose proof (exec_deal_by_id_none env 0 _ db Hf Hnone) as He.
  destruct Hroute as [-> | ->]; destruct rev; simpl in Happ;
    try discriminate Happ; injection Happ as <-;
    cbv zeta; rewrite (run_protected _ _ _ _ _ Hu).
  all: try (destruct (Htr eq_refl) as [t Ht]; cbn [transport_of] in Ht).
  all: unfold ServerJs.send_outreach, Part000.send_outreach,
         ServerJs.send_outreach_with, ServerJs.trigger_outreach.
  all: rewrite ?Ht.
  all: js_simpl; rewrite He; js_simpl.
  all: unfold mails, posts, inserted in *; rewrite !flat_map_app, ?Hi, ?Hm, ?Hp.
  all: auto.
Qed.

Lemma outreach_for_unknown_deal_witness :
  response (run (verifyAuth Sample.env0 (ServerJs.trigger_outreach Sample.env0))
                (Sample.request Sample.as_alice []
                   [("dealId", VStr "d-404"); ("webhookUrl", VStr "https://hook.test/x")])
                Sample.db0)
  = Ok (respond 500 (error_body (message single_error)))
  ∧ posts (trace (run (verifyAuth Sample.env0 (ServerJs.trigger_outreach Sample.env0))
                      (Sample.request Sample.as_alice []
                         [("dealId", VStr "d-404");
                          ("webhookUrl", VStr "https://hook.test/x")])
                      Sample.db0)) = [].
Proof.
  destruct (outreach_for_unknown_deal Sample.env0 None server_js
              POST_webhook_trigger_outreach _
              (Sample.request Sample.as_alice []
                 [("dealId", VStr "d-404"); ("webhookUrl", VStr "https://hook.test/x")])
              Sample.db0 Sample.alice
              (or_intror eq_refl) eq_refl eq_refl
              ltac:(discriminate) eq_refl eq_refl) as (H1 & _ & H2 & _).
  split; assumption.
Defined.

(** ** The mail transport and the health route *)

Lemma send_outreach_with_status env t user dealId st :
  match (try_catch (ServerJs.send_outreach_with env t user dealId) catch_500 st).1 with
  | Ok r => status r = 200 ∨ status r = 500
  | Throw _ => False
  end.
Proof.
  destruct st as [db n tr]. unfold ServerJs.send_outreach_with.
  js_split; cbn; auto.
Qed.

(** The [smtp_configured] flag of the health route is set exactly when the
    three settings SMTP_HOST, SMTP_USER and SMTP_PASSWORD are present and
    not empty (the port and the sender play no part), and it is unset
    exactly when the send-outreach route answers an authenticated request
    with 503.  The health route itself calls nothing and needs no token. *)
Theorem health_matches_send_outreach env req req' db db' user :
  caller env req = Some user →
  let flag := truthy_opt (SMTP_HOST env) && truthy_opt (SMTP_USER env)
              && truthy_opt (SMTP_PASSWORD env) in
  run (ServerJs.health env) req' db'
  = {| response := Ok (res_json (VObj (obj [("status", VStr "ok");
                                            ("timestamp", VStr (clock env));
                                            ("smtp_configured", VBool flag)])));
       store_after := db'; trace := [] |}
  ∧ (flag = false
     ↔ response (run (verifyAuth env (ServerJs.send_outreach env)) req db)
       = Ok not_configured).
Proof.
  intros Hu flag. split.
  - unfold run, ServerJs.health, ServerJs.transporter. fold flag.
    destruct flag; reflexivity.
  - rewrite (run_protected _ _ _ _ _ Hu).
    unfold ServerJs.send_outreach, ServerJs.transporter. fold flag.
    destruct flag.
    + split; [discriminate|]. intros H.
      pose proof (send_outreach_with_status env
                    {| smtp_host := SMTP_HOST env; smtp_port := SMTP_PORT env;
                       smtp_user := SMTP_USER env; smtp_pass := SMTP_PASSWORD env |}
                    user (get "dealId" (body req)) (after_auth req db)) as Hst.
      destruct (try_catch _ _ _) as [[r|e] st]; cbn [fst response] in *;
        [|contradiction].
      injection H as ->. destruct Hst; discriminate.
    + split; [|reflexivity]. intros _. reflexivity.
Qed.

Lemma health_matches_send_outreach_witness :
  response (run (verifyAuth Sample.env0 (ServerJs.send_outreach Sample.env0))
                (Sample.request Sample.as_alice [] [("dealId", VStr "d-1")])
                Sample.db0)
  = Ok not_configured.
Proof.
  apply (health_matches_send_outreach Sample.env0
           (Sample.request Sample.as_alice [] [("dealId", VStr "d-1")])
           (Sample.request [] [] []) Sample.db0 Sample.db0 Sample.alice eq_refl).
  reflexivity.
Defined.

(** ** The user listing and the profile route of part_001 *)

Ltac exec_select E :=
  match type of E with
  | exec ?e ?n ?q ?db = (_, ?s) =>
      let H := fresh "Hsel" in
      pose proof (exec_select_store e n q db eq_refl) as H;
      rewrite E in H; cbn [snd] in H; subst s
  end.

Ltac exec_selects :=
  repeat match goal with
         | E : exec _ _ _ _ = (_, ?s) |- _ => is_var s; exec_select E
         end.

(** The user listing of part_001 does not look at the error of its role
    read: when that read fails the caller is refused with 403, an admin
    too.  Whoever is refused has caused the role read and nothing else
    (the profile table is not listed), and the route never changes the
    store. *)
Theorem users_listing_refusals env req db user :
  caller env req = Some user →
  let o := run (verifyAuth env (Part001.get_users env)) req db in
  (∀ msg, store_fault env 0 = Some msg → response o = Ok admin_required)
  ∧ (response o = Ok admin_required → queries (trace o) = [role_of user])
  ∧ store_after o = db.
Proof.
  intros Hu o. subst o. rewrite (run_protected _ _ _ _ _ Hu).
  destruct (auth_trace_quiet req "") as (_ & Hq & _ & _).
  unfold Part001.get_users. fold (role_of user) all_users.
  split; [|split].
  - intros msg Hf. js_simpl. rewrite (exec_fault env 0 _ _ _ Hf). reflexivity.
  - unfold queries in *. js_split; exec_selects;
      rewrite ?flat_map_app, ?Hq; cbn [flat_map Datatypes.app];
      first [reflexivity | intros [= H]; discriminate H | discriminate].
  - js_split; exec_selects; reflexivity.
Qed.

Lemma users_listing_refusals_witness :
  response
    (run (verifyAuth (Sample.with_store_fault (fun _ => Some "timeout") Sample.env0)
            (Part001.get_users
               (Sample.with_store_fault (fun _ => Some "timeout") Sample.env0)))
         (Sample.request Sample.as_alice [] []) Sample.db0)
  = Ok admin_required.
Proof.
  apply (proj1 (users_listing_refusals
                  (Sample.with_store_fault (fun _ => Some "timeout") Sample.env0)
                  (Sample.request Sample.as_alice [] []) Sample.db0 Sample.alice
                  eq_refl) "timeout").
  reflexivity.
Defined.

Lemma exec_profile_of env n user db :
  store_fault env n = None →
  exec env n (profile_of user) db
  = (match List.filter (has_id (VStr (user_id user))) (table db "user_profiles") with
     | [p] => {| data := VObj p; error := None |}
     | _ => {| data := VNull; error := Some single_error |}
     end, db).
Proof.
  intros H. unfold exec, perform. rewrite H.
  cbv beta iota zeta delta
    [profile_of Q.single Q.eq Q.select Q.from q_from q_eq q_verb q_columns
     q_order q_limit q_single Datatypes.app fst shape].
  rewrite (mapM_total _ (fun p : Obj => p)) by apply project_star.
  rewrite list_fmap_id, filter_matches_id.
  destruct (List.filter _ _) as [|p [|p' l]]; reflexivity.
Qed.

Lemma stored_profile_fields user email :
  stored_profile user email !! "id" = Some (VStr (user_id user))
  ∧ stored_profile user email !! "username" = Some (VStr (local_part email))
  ∧ stored_profile user email !! "role" = Some (VStr "user").
Proof.
  unfold stored_profile. repeat split; apply strip_lookup_str; reflexivity.
Qed.

(** The first profile fetch of a caller without a row, on a store that
    takes the insert. *)
Lemma bootstrap_run env req db user email :
  caller env req = Some user →
  user_email user = Some email →
  store_fault env 0 = None →
  store_fault env 1 = None →
  List.filter (has_id (VStr (user_id user))) (table db "user_profiles") = [] →
  run (verifyAuth env (Part001.get_user_profile env)) req db
  = {| response := Ok (res_json (VObj (stored_profile user email)));
       store_after :=
         {| tables := <["user_profiles" := table db "user_profiles"
                                           ++ [stored_profile user email]]>
                        (tables db);
            serial := (serial db + 1)%nat |};
       trace := auth_trace req
                ++ [EQuery (profile_of user);
                    EQuery (Q.from "user_profiles"
                            |> Q.insert [Part001.newProfile user (local_part email)]
                            |> Q.select [Star] |> Q.single)] |}.
Proof.
  intros Hu Hmail H0 H1 Hnone. rewrite (run_protected _ _ _ _ _ Hu).
  set (np := Part001.newProfile user (local_part email)).
  pose proof (exec_insert_single env 1 "user_profiles" np db H1 eq_refl) as Hd.
  pose proof (exec_write_store env 1
                (Q.from "user_profiles" |> Q.insert [np]
                 |> Q.select [Star] |> Q.single) _ db eq_refl) as Hs.
  rewrite Hd in Hs. specialize (Hs eq_refl).
  change (defaults env "user_profiles" (serial db)) with (∅ : Obj) in Hd.
  rewrite (right_id_L ∅ (∪)) in Hd.
  cbv beta iota zeta delta
    [Q.single Q.select Q.insert Q.with_verb Q.from q_from store_rows
     List.length] in Hs.
  change (defaults env "user_profiles" (serial db)) with (∅ : Obj) in Hs.
  rewrite (right_id_L ∅ (∪)) in Hs.
  unfold Part001.get_user_profile. fold (profile_of user).
  js_simpl. rewrite (exec_profile_of env 0 user db H0), Hnone, Hmail.
  js_simpl. cbn [truthy]. js_simpl. fold np.
  destruct (exec env 1 _ db) as [rep db1]. cbn [fst snd] in Hd, Hs.
  subst rep db1. cbn [present]. js_simpl. rewrite <- app_assoc. reflexivity.
Qed.

(** part_001 creates the missing profile once: the first fetch of a caller
    without a row stores the default profile (user name: the local part of
    the address, role [user]) and returns it; the next fetch finds that
    row, returns the same profile, writes nothing and leaves the store as
    the first fetch left it. *)
Theorem profile_is_created_once env env' req req' db user email :
  caller env req = Some user →
  user_email user = Some email →
  store_fault env 0 = None →
  store_fault env 1 = None →
  List.filter (has_id (VStr (user_id user))) (table db "user_profiles") = [] →
  caller env' req' = Some user →
  store_fault env' 0 = None →
  let first := run (verifyAuth env (Part001.get_user_profile env)) req db in
  let second := run (verifyAuth env' (Part001.get_user_profile env')) req'
                    (store_after first) in
  response first = Ok (res_json (VObj (stored_profile user email)))
  ∧ table (store_after first) "user_profiles"
    = table db "user_profiles" ++ [stored_profile user email]
  ∧ stored_profile user email !! "username" = Some (VStr (local_part email))
  ∧ stored_profile user email !! "role" = Some (VStr "user")
  ∧ response second = response first
  ∧ queries (trace second) = [profile_of user]
  ∧ store_after second = store_after first.
Proof.
  intros Hu Hmail H0 H1 Hnone Hu' H0' first second.
  destruct (stored_profile_fields user email) as (Hid & Hname & Hrole).
  pose proof (bootstrap_run env req db user email Hu Hmail H0 H1 Hnone) as Hfirst.
  fold first in Hfirst.
  assert (Htab : table (store_after first) "user_profiles"
                 = table db "user_profiles" ++ [stored_profile user email]).
  { rewrite Hfirst. apply table_insert_eq. }
  assert (Hhit : List.filter (has_id (VStr (user_id user)))
                   (table (store_after first) "user_profiles")
                 = [stored_profile user email]).
  { rewrite Htab, List.filter_app, Hnone. cbn [List.filter Datatypes.app].
    unfold has_id, get. rewrite Hid. cbn. rewrite String.eqb_refl. reflexivity. }
  assert (Hsecond : second
            = {| response := Ok (res_json (VObj (stored_profile user email)));
                 store_after := store_after first;
                 trace := auth_trace req' ++ [EQuery (profile_of user)] |}).
  { subst second. rewrite (run_protected _ _ _ _ _ Hu').
    unfold Part001.get_user_profile. fold (profile_of user).
    js_simpl. rewrite (exec_profile_of env' 0 user _ H0'), Hhit.
    js_simpl. cbn [truthy present]. js_simpl. reflexivity. }
  split; [rewrite Hfirst; reflexivity|]. split; [exact Htab|].
  split; [exact Hname|]. split; [exact Hrole|].
  rewrite Hsecond. cbn [response trace store_after].
  split; [rewrite Hfirst; reflexivity|]. split; [|reflexivity].
  destruct (auth_trace_quiet req' "") as (_ & Hq & _).
  unfold queries in *. rewrite flat_map_app, Hq. reflexivity.
Qed.

Lemma profile_is_created_once_witness :
  table (store_after
           (run (verifyAuth Sample.env0 (Part001.get_user_profile Sample.env0))
                (Sample.request Sample.as_bob [] []) Sample.db0)) "user_profiles"
  = table Sample.db0 "user_profiles"
    ++ [stored_profile Sample.bob "bob@example.com"].
Proof.
  apply (profile_is_created_once Sample.env0 Sample.env0
           (Sample.request Sample.as_bob [] []) (Sample.request Sample.as_bob [] [])
           Sample.db0 Sample.bob "bob@example.com"); reflexivity.
Defined.

(** A caller whose profile part_001 has just created is no admin: on the
    store the first profile fetch leaves, the user listing refuses that
    caller with 403. *)
Theorem bootstrapped_profile_is_no_admin env env' req req' db user email :
  caller env req = Some user →
  user_email user = Some email →
  store_fault env 0 = None →
  store_fault env 1 = None →
  List.filter (has_id (VStr (user_id user))) (table db "user_profiles") = [] →
  caller env' req' = Some user →
  store_fault env' 0 = None →
  store_fault env' 1 = None →
  let first := run (verifyAuth env (Part001.get_user_profile env)) req db in
  response (run (verifyAuth env' (Part001.get_users env')) req'
                (store_after first))
  = Ok admin_required.
Proof.
  intros Hu Hmail H0 H1 Hnone Hu' H0' H1' first.
  destruct (stored_profile_fields user email) as (Hid & _ & Hrole).
  pose proof (bootstrap_run env req db user email Hu Hmail H0 H1 Hnone) as Hfirst.
  fold first in Hfirst.
  assert (Hhit : List.filter (matches [("id", VStr (user_id user))])
                   (table (store_after first) "user_profiles")
                 = [stored_profile user email]).
  { rewrite filter_matches_id, Hfirst. cbn [store_after].
    rewrite table_insert_eq, List.filter_app, Hnone.
    cbn [List.filter Datatypes.app].
    unfold has_id, get. rewrite Hid. cbn. rewrite String.eqb_refl. reflexivity. }
  pose proof (part_001_get_users_on_store env' req' (store_after first) user
                Hu' H0' H1') as H.
  cbv zeta in H. rewrite Hhit in H.
  unfold get in H. rewrite Hrole in H. exact H.
Qed.

Lemma bootstrapped_profile_is_no_admin_witness :
  response
    (run (verifyAuth Sample.env0 (Part001.get_users Sample.env0))
         (Sample.request Sample.as_bob [] [])
         (store_after
            (run (verifyAuth Sample.env0 (Part001.get_user_profile Sample.env0))
                 (Sample.request Sample.as_bob [] []) Sample.db0)))
  = Ok admin_required.
Proof.
  apply (bootstrapped_profile_is_no_admin Sample.env0 Sample.env0
           (Sample.request Sample.as_bob [] []) (Sample.request Sample.as_bob [] [])
           Sample.db0 Sample.bob "bob@example.com"); reflexivity.
Defined.

(** When the caller has exactly one profile row, every revision returns
    that row as it is: one read, no write (part_001 creates nothing), and
    the store is as it was. *)
Theorem existing_profile_is_returned env url rev h req db user p :
  app env url rev GET_user_profile = Some h →
  caller env req = Some user →
  store_fault env 0 = None →
  List.filter (has_id (VStr (user_id user))) (table db "user_profiles") = [p] →
  let o := run h req db in
  response o = Ok (res_json (VObj p))
  ∧ queries (trace o) = [profile_of user]
  ∧ store_after o = db.
Proof.
  intros Happ Hu Hf Hone.
  destruct (auth_trace_quiet req "") as (_ & Hq & _).
  destruct rev; simpl in Happ; injection Happ as <-; cbv zeta;
    rewrite (run_protected _ _ _ _ _ Hu);
    unfold ServerJs.get_user_profile, Part001.get_user_profile;
    fold (profile_of user); js_simpl;
    rewrite (exec_profile_of env 0 user db Hf), Hone; js_simpl;
    cbn [truthy present]; js_simpl;
    unfold queries in *; rewrite flat_map_app, Hq; auto.
Qed.

Lemma existing_profile_is_returned_witness :
  response (run (verifyAuth Sample.env0 (Part001.get_user_profile Sample.env0))
                (Sample.request Sample.as_alice [] []) Sample.db0)
  = Ok (res_json (VObj Sample.alice_profile)).
Proof.
  apply (existing_profile_is_returned Sample.env0 None part_001 _
           (Sample.request Sample.as_alice [] []) Sample.db0 Sample.alice
           Sample.alice_profile eq_refl eq_refl eq_refl).
  vm_compute. reflexivity.
Defined.

(** ** The default user name *)

Lemma local_part_no_at s : has_at (local_part s) = false.
Proof.
  induction s as [|c s IH]; cbn; [reflexivity|].
  destruct (Ascii.eqb c "@") eqn:Hc; cbn; [reflexivity|].
  rewrite Hc, IH. reflexivity.
Qed.

Lemma local_part_id s : has_at s = false → local_part s = s.
Proof.
  induction s as [|c s IH]; cbn; [reflexivity|].
  destruct (Ascii.eqb c "@"); cbn; [discriminate|].
  intros H. rewrite (IH H). reflexivity.
Qed.

Lemma local_part_split l d :
  has_at l = false → local_part (l +:+ "@" +:+ d) = l.
Proof.
  induction l as [|c l IH]; [reflexivity|].
  change (String c l +:+ "@" +:+ d) with (String c (l +:+ "@" +:+ d)).
  cbn [has_at local_part].
  destruct (Ascii.eqb c "@"); cbn [orb]; [discriminate|].
  intros H. rewrite (IH H). reflexivity.
Qed.

Lemma local_part_prefix s : String.prefix (local_part s) s = true.
Proof.
  induction s as [|c s IH]; cbn; [reflexivity|].
  destruct (Ascii.eqb c "@"); cbn; [reflexivity|].
  destruct (ascii_dec c c); [exact IH|contradiction].
Qed.

(** The user name part_001 gives a new profile, [email.split('@')[0]]:
    it is the address up to its first ['@'] (so [l] for [l@d]), never holds
    an ['@'], and is the whole address when that has no ['@']; an address
    that starts with ['@'] gives the empty user name. *)
Theorem default_username_shape user email :
  stored_profile user email !! "username" = Some (VStr (local_part email))
  ∧ Part001.fallbackProfile user (local_part email) !! "username"
    = Some (VStr (local_part email))
  ∧ has_at (local_part email) = false
  ∧ String.prefix (local_part email) email = true
  ∧ (has_at email = false → local_part email = email)
  ∧ (∀ l d, has_at l = false → email = l +:+ "@" +:+ d → local_part email = l)
  ∧ (∀ d, email = "@" +:+ d → local_part email = "").
Proof.
  split; [apply stored_profile_fields|]. split; [reflexivity|].
  split; [apply local_part_no_at|]. split; [apply local_part_prefix|].
  split; [apply local_part_id|]. split.
  - intros l d Hl ->. apply local_part_split, Hl.
  - intros d ->. reflexivity.
Qed.

Lemma default_username_shape_witness :
  local_part "bob@example.com" = "bob".
Proof.
  apply (default_username_shape Sample.bob "bob@example.com") with (d := "example.com");
    reflexivity.
Defined.

(** ** What a route never calls *)

Ltac js_all :=
  repeat (js_simpl;
    match goal with
    | E : exec ?e ?n ?q ?db = _ |- context [exec ?e ?n ?q ?db] => rewrite E
    | |- context [exec ?e ?n ?q ?db] =>
        let E := fresh "E" in
        destruct (exec e n q db) as [[? ?] ?] eqn:E
    | |- context [getUser ?e ?t] => destruct (getUser e t) as [[?|] [?|] | ?]
    | |- context [smtp_reject ?e ?t ?m] => destruct (smtp_reject e t m)
    | |- context [http_post ?e ?u ?i] => destruct (http_post e u i)
    | |- context [match ?x with Some _ => _ | None => _ end] => destruct x
    | |- context [match ?x with VUndef => _ | _ => _ end] => destruct x
    | |- context [if ?c then _ else _] => destruct c
    end).

Lemma trace_ok_all env url rev route h req db :
  app env url rev route = Some h →
  trace_ok rev route (trace (run h req db)) = true.
Proof.
  intros Happ.
  destruct route, rev; simpl in Happ; try discriminate Happ;
    injection Happ as <-.
  all: unfold run, verifyAuth, ServerJs.health, Part000.health, Part001.health,
         ServerJs.get_deals, ServerJs.post_deals, ServerJs.put_deal,
         ServerJs.delete_deal, ServerJs.send_outreach, Part000.send_outreach,
         ServerJs.send_outreach_with, ServerJs.google_form,
         ServerJs.outreach_external, ServerJs.trigger_outreach,
         ServerJs.forward, ServerJs.get_webhooks, ServerJs.get_user_profile,
         Part001.get_user_profile, ServerJs.get_users, Part001.get_users.
  all: js_all; reflexivity.
Qed.

Lemma In_queries q tr : In q (queries tr) → In (EQuery q) tr.
Proof.
  unfold queries. intros H. apply in_flat_map in H.
  destruct H as (e & He & Hq). destruct e; cbn in Hq; try contradiction.
  destruct Hq as [<-|[]]. exact He.
Qed.

Lemma In_mails m tr : In m (mails tr) → ∃ t, In (ESendMail t m) tr.
Proof.
  unfold mails. intros H. apply in_flat_map in H.
  destruct H as (e & He & Hm). destruct e; cbn in Hm; try contradiction.
  destruct Hm as [<-|[]]. eauto.
Qed.

Lemma In_posts p tr : In p (posts tr) → In (EFetch p.1 p.2) tr.
Proof.
  unfold posts. intros H. apply in_flat_map in H.
  destruct H as (e & He & Hp). destruct e; cbn in Hp; try contradiction.
  destruct Hp as [<-|[]]. exact He.
Qed.

Lemma trace_events_ok env url rev route h req db e :
  app env url rev route = Some h →
  In e (trace (run h req db)) →
  event_ok rev route e = true.
Proof.
  intros Happ He. pose proof (trace_ok_all env url rev route h req db Happ) as H.
  unfold trace_ok in H. apply andb_prop in H. destruct H as [H _].
  apply andb_prop in H. destruct H as [H _].
  rewrite forallb_forall in H. apply H, He.
Qed.

Ltac name_table H :=
  first
    [ discriminate H
    | apply orb_prop in H; destruct H as [H|H]; name_table H
    | apply String.eqb_eq in H; rewrite H;
      repeat split; intros; try discriminate; auto ].

(** Whatever the request and whatever the services answer, the store calls
    of a route stay within these bounds: [webhook_logs] is only read or
    appended to; [user_profiles] is only read, except for the insert of
    the profile route of part_001; a delete comes only from the delete
    route and an update only from the update route, both on
    [business_ideas]; no other table is named. *)
Theorem tables_are_written_by_their_routes env url rev route h req db q :
  app env url rev route = Some h →
  In q (queries (trace (run h req db))) →
  (q_from q = "business_ideas" ∨ q_from q = "webhook_logs"
   ∨ q_from q = "user_profiles")
  ∧ (q_from q = "webhook_logs" →
     kind (q_verb q) = KSelect ∨ kind (q_verb q) = KInsert)
  ∧ (q_from q = "user_profiles" →
     kind (q_verb q) = KSelect
     ∨ (kind (q_verb q) = KInsert ∧ rev = part_001 ∧ route = GET_user_profile))
  ∧ (kind (q_verb q) = KDelete →
     route = DELETE_deals_id ∧ q_from q = "business_ideas")
  ∧ (kind (q_verb q) = KUpdate →
     route = PUT_deals_id ∧ q_from q = "business_ideas").
Proof.
  intros Happ Hq.
  pose proof (trace_events_ok env url rev route h req db (EQuery q) Happ
                (In_queries _ _ Hq)) as H.
  clear Happ Hq.
  destruct route, rev; cbn [event_ok may_issue existsb fst snd] in H;
    destruct (kind (q_verb q)); cbn [kind_eqb] in H;
    rewrite ?andb_false_r, ?andb_true_r, ?orb_false_r, ?orb_false_l in H;
    name_table H.
Qed.

Lemma tables_are_written_by_their_routes_witness :
  kind (q_verb (Q.from "webhook_logs"
                |> Q.insert [ServerJs.form_submission_log (VStr "gen-7")]))
  = KSelect
  ∨ kind (q_verb (Q.from "webhook_logs"
                  |> Q.insert [ServerJs.form_submission_log (VStr "gen-7")]))
    = KInsert.
Proof.
  refine (proj1 (proj2 (tables_are_written_by_their_routes Sample.env0 None
           server_js POST_webhook_google_form _
           (Sample.request [] [] [("business_name", VStr "Zed")]) Sample.db0
           (Q.from "webhook_logs"
            |> Q.insert [ServerJs.form_submission_log (VStr "gen-7")])
           eq_refl _)) eq_refl).
  vm_compute. right. left. reflexivity.
Defined.

(** Whatever the request and whatever the services answer: a request
    causes at most one mail and at most one outbound POST; a mail is sent
    only by the send-outreach route and a POST only by the trigger-outreach
    route; and the routes without a bearer gate never call the identity
    provider. *)
Theorem mail_and_post_have_one_route env url rev route h req db :
  app env url rev route = Some h →
  let tr := trace (run h req db) in
  (List.length (mails tr) ≤ 1)%nat
  ∧ (List.length (posts tr) ≤ 1)%nat
  ∧ (mails tr ≠ [] → route = POST_webhook_send_outreach)
  ∧ (posts tr ≠ [] → route = POST_webhook_trigger_outreach)
  ∧ (bearer_protected route = false → ∀ t, ¬ In (EGetUser t) tr).
Proof.
  intros Happ tr.
  pose proof (trace_ok_all env url rev route h req db Happ) as H.
  fold tr in H. unfold trace_ok in H.
  apply andb_prop in H. destruct H as [H Hposts].
  apply andb_prop in H. destruct H as [_ Hmails].
  apply Nat.leb_le in Hposts, Hmails.
  split; [exact Hmails|]. split; [exact Hposts|]. split; [|split].
  - intros Hne. destruct (mails tr) as [|m ms] eqn:Hm; [contradiction|].
    destruct (In_mails m tr) as [t Ht]; [rewrite Hm; left; reflexivity|].
    pose proof (trace_events_ok env url rev route h req db _ Happ Ht) as Hok.
    destruct route; cbn in Hok; try discriminate Hok. reflexivity.
  - intros Hne. destruct (posts tr) as [|p ps] eqn:Hp; [contradiction|].
    pose proof (In_posts p tr) as Hin. rewrite Hp in Hin.
    specialize (Hin (or_introl eq_refl)).
    pose proof (trace_events_ok env url rev route h req db _ Happ Hin) as Hok.
    destruct route; cbn in Hok; try discriminate Hok. reflexivity.
  - intros Hopen t Ht.
    pose proof (trace_events_ok env url rev route h req db _ Happ Ht) as Hok.
    cbn in Hok. congruence.
Qed.

Lemma mail_and_post_have_one_route_witness :
  (List.length (mails (trace (run (ServerJs.google_form Sample.env0)
                                  (Sample.request [] [] []) Sample.db0))) ≤ 1)%nat.
Proof.
  apply (mail_and_post_have_one_route Sample.env0 None server_js
           POST_webhook_google_form _ (Sample.request [] [] []) Sample.db0
           eq_refl).
Defined.

(** The health route, the two listings, the user listing and the profile
    route of the revisions before part_001 never change the store,
    whatever the request and whatever the services answer.  (The profile
    route of part_001 is a GET that can write.) *)
Theorem read_routes_leave_the_store env url rev route h req db :
  app env url rev route = Some h →
  In route [GET_health; GET_deals; GET_webhooks; GET_users]
  ∨ (route = GET_user_profile ∧ rev ≠ part_001) →
  store_after (run h req db) = db.
Proof.
  intros Happ Hroute.
  assert (Hcases : route = GET_health ∨ route = GET_deals ∨ route = GET_webhooks
                   ∨ route = GET_users
                   ∨ (route = GET_user_profile ∧ rev ≠ part_001)).
  { destruct Hroute as [H|H]; [|auto]. cbn in H. intuition. }
  clear Hroute.
  destruct Hcases as [-> | [-> | [-> | [-> | [-> Hrev]]]]];
    destruct rev; try (exfalso; apply Hrev; reflexivity);
    simpl in Happ; injection Happ as <-.
  all: unfold run, verifyAuth, ServerJs.health, Part000.health, Part001.health,
         ServerJs.get_deals, ServerJs.get_webhooks, ServerJs.get_user_profile,
         ServerJs.get_users, Part001.get_users.
  all: js_all; exec_selects; reflexivity.
Qed.

Lemma read_routes_leave_the_store_witness :
  store_after (run (verifyAuth Sample.env0 (ServerJs.get_webhooks Sample.env0))
                   (Sample.request Sample.as_alice [] []) Sample.db0)
  = Sample.db0.
Proof.
  apply (read_routes_leave_the_store Sample.env0 None server_js GET_webhooks).
  - reflexivity.
  - left. right. right. left. reflexivity.
Defined.

(** ** Forwarding and the log after a delete *)





Lemma existsb_none {A} (f : A → bool) (l : list A) :
  existsb f l = false → Forall (fun x => f x = false) l.
Proof.
  induction l as [|x l IH]; cbn; [constructor|].
  intros H. apply orb_false_elim in H. destruct H as [Hx Hl].
  constructor; [exact Hx|exact (IH Hl)].
Qed.

Lemma refers_null fk parents (c : Obj) :
  refers fk parents (<[fk := VNull]> c) = false.
Proof.
  unfold refers. rewrite get_insert_eq.
  induction parents as [|p l IH]; cbn; [reflexivity|].
  rewrite scalar_eqb_null_r. exact IH.
Qed.

(** Whatever the schema does on a delete, no row that is left references
    a row that went. *)
Lemma after_delete_sound act fk gone children out :
  after_delete act fk gone children = Some out →
  Forall (fun c => refers fk gone c = false) out.
Proof.
  destruct act; cbn.
  - destruct (existsb _ _) eqn:H; [discriminate|]. intros [= <-].
    apply existsb_none, H.
  - intros [= <-]. apply Forall_forall. intros c Hc.
    apply list_elem_of_In, filter_In in Hc. destruct Hc as [_ Hc].
    destruct (refers fk gone c); [discriminate Hc|reflexivity].
  - intros [= <-]. apply Forall_forall. intros c' Hc.
    apply list_elem_of_In, in_map_iff in Hc. destruct Hc as (c & <- & _).
    destruct (refers fk gone c) eqn:H; [apply refers_null|exact H].
Qed.

Lemma refers_with_deal db parents (log : Obj) :
  refers "business_idea_id" parents (with_deal db log)
  = refers "business_idea_id" parents log.
Proof.
  unfold refers, with_deal, get.
  rewrite lookup_insert_ne by discriminate. reflexivity.
Qed.

(** A log row never points at a deal that was deleted.  What becomes of
    the log rows of a deleted deal is the schema's choice: the delete is
    refused (500, nothing changes), or they go with the deal, or they stay
    with a null reference.  In each case, once the delete is answered with
    success no row of [webhook_logs] references a deleted deal, and none
    does in the log listing that follows. *)
Theorem delete_leaves_no_dangling_log env env' req req' db user user' :
  caller env req = Some user →
  store_fault env 0 = None →
  caller env' req' = Some user' →
  store_fault env' 0 = None →
  let id := of_opt (params req !! "id") in
  let doomed := List.filter (has_id id) (table db "business_ideas") in
  let points := refers "business_idea_id" doomed in
  let logs := table db "webhook_logs" in
  let gone := run (verifyAuth env (ServerJs.delete_deal env)) req db in
  let listed := run (verifyAuth env' (ServerJs.get_webhooks env')) req'
                    (store_after gone) in
  (on_delete env = NoAction → existsb points logs = true →
   response gone = Ok (respond 500 (error_body (message fk_violation)))
   ∧ store_after gone = db)
  ∧ (on_delete env = NoAction → existsb points logs = false →
     response gone = Ok deleted
     ∧ table (store_after gone) "webhook_logs" = logs)
  ∧ (on_delete env = Cascade →
     response gone = Ok deleted
     ∧ table (store_after gone) "webhook_logs"
       = List.filter (fun c => negb (points c)) logs)
  ∧ (on_delete env = SetNull →
     response gone = Ok deleted
     ∧ table (store_after gone) "webhook_logs"
       = List.map (fun c => if points c then <["business_idea_id" := VNull]> c
                            else c) logs)
  ∧ (response gone = Ok deleted →
     Forall (fun c => points c = false) (table (store_after gone) "webhook_logs")
     ∧ ∃ rows,
         response listed = Ok (res_json (VArr (VObj <$> rows)))
         ∧ Forall (fun row => points row = false) rows).
Proof.
  intros Hu Hf Hu' Hf' id doomed points logs gone listed.
  pose proof (delete_deal_run env req db user Hu) as Hgone.
  cbv zeta in Hgone. fold id gone in Hgone.
  rewrite (exec_delete_deal env 0 id db Hf) in Hgone.
  fold doomed logs in Hgone.
  split; [|split; [|split; [|split]]].
  - intros Hact Href. rewrite Hgone, Hact. cbn [after_delete].
    fold points. rewrite Href. split; reflexivity.
  - intros Hact Href. rewrite Hgone, Hact. cbn [after_delete].
    fold points. rewrite Href. split; [reflexivity|apply table_set_eq].
  - intros Hact. rewrite Hgone, Hact. split; [reflexivity|apply table_set_eq].
  - intros Hact. rewrite Hgone, Hact. split; [reflexivity|apply table_set_eq].
  - intros Hok. rewrite Hgone in Hok.
    destruct (after_delete _ _ _ _) as [rest|] eqn:Hleft;
      [|discriminate Hok].
    pose proof (after_delete_sound _ _ _ _ _ Hleft) as Hsound.
    fold points in Hsound.
    assert (Hlogs : table (store_after gone) "webhook_logs" = rest).
    { rewrite Hgone. apply table_set_eq. }
    rewrite Hlogs. split; [exact Hsound|].
    subst listed. clear Hgone Hok.
    generalize dependent (store_after gone). intros db1 Hlogs.
    rewrite (run_protected _ _ _ _ _ Hu').
    unfold ServerJs.get_webhooks. js_simpl.
    rewrite (exec_get_webhooks env' db1 Hf'). js_simpl.
    eexists. split; [reflexivity|].
    apply Forall_forall. intros row Hrow.
    apply list_elem_of_In, in_map_iff in Hrow. destruct Hrow as (log & <- & Hin).
    unfold points. rewrite refers_with_deal.
    apply In_take, sort_rows_In in Hin. rewrite Hlogs in Hin.
    rewrite Forall_forall in Hsound. apply Hsound, list_elem_of_In, Hin.
Qed.

Lemma delete_leaves_no_dangling_log_witness :
  response (run (verifyAuth (Sample.with_on_delete NoAction Sample.env0)
                   (ServerJs.delete_deal (Sample.with_on_delete NoAction Sample.env0)))
                (Sample.request Sample.as_alice [("id", "d-1")] [])
                Sample.db0)
  = Ok (respond 500 (error_body (message fk_violation)))
  ∧ store_after
      (run (verifyAuth (Sample.with_on_delete NoAction Sample.env0)
              (ServerJs.delete_deal (Sample.with_on_delete NoAction Sample.env0)))
           (Sample.request Sample.as_alice [("id", "d-1")] [])
           Sample.db0)
    = Sample.db0.
Proof.
  apply (delete_leaves_no_dangling_log
           (Sample.with_on_delete NoAction Sample.env0) Sample.env0
           (Sample.request Sample.as_alice [("id", "d-1")] [])
           (Sample.request Sample.as_bob [] [])
           Sample.db0 Sample.alice Sample.bob); reflexivity.
Defined.
